(** * Claims-Description-Normalizer: a shallow embedding of [utils.py]

    Python [str] values are modelled as lists of Unicode code points
    ([list N]); a Python [dict] read with [.get] / [in] is a stdpp [gmap];
    Python [float] values produced by [float(text)] are modelled by the
    exact decimal value of [text] (a rational number), which is the value
    of the double for every amount used below. *)

From Stdlib Require Import Ascii String ZArith QArith Lia Sorted Permutation.
From stdpp Require Import base list gmap.

#[global] Set Warnings "-register-all".

Abbreviation pystr := (list N).

(** A Python string literal written with ASCII characters. *)
Definition lit (s : string) : pystr :=
  map (fun a => N.of_nat (nat_of_ascii a)) (list_ascii_of_string s).

(** A literal in which [~] stands for a double quote character. *)
Definition qlit (s : string) : pystr :=
  map (fun c => if (c =? 126)%N then 34%N else c) (lit s).

(** Named code points used by the code below. *)
Definition NL : N := 10.
Definition DQUOTE : N := 34.
Definition SQUOTE : N := 39.
Definition BACKSLASH : N := 92.
Definition BACKTICK : N := 96.

(** ** String primitives of Python *)

(** [str.isspace] / [Py_UNICODE_ISSPACE]: the characters that [str.strip()]
    removes and that the regular expression class [\s] matches. *)
Definition py_isspace (c : N) : bool :=
  ((9 <=? c) && (c <=? 13))%N || ((28 <=? c) && (c <=? 32))%N
  || (c =? 133)%N || (c =? 160)%N || (c =? 5760)%N
  || ((8192 <=? c) && (c <=? 8202))%N
  || (c =? 8232)%N || (c =? 8233)%N || (c =? 8239)%N || (c =? 8287)%N
  || (c =? 12288)%N.

(** The simple lower-case mapping of the Unicode database of CPython 3.11
    ([_PyUnicode_ToLowercase], [_sre.unicode_tolower]), as runs
    [(first, last, step, delta)]: the code points [first], [first + step],
    ... up to [last] are mapped to [c + delta]. *)
Definition lower_runs : list (N * N * N * Z) := [
  (65, 90, 1, 32%Z); (192, 214, 1, 32%Z); (216, 222, 1, 32%Z);
  (256, 302, 2, 1%Z); (304, 304, 1, (-199)%Z); (306, 310, 2, 1%Z);
  (313, 327, 2, 1%Z); (330, 374, 2, 1%Z); (376, 376, 1, (-121)%Z);
  (377, 381, 2, 1%Z); (385, 385, 1, 210%Z); (386, 388, 2, 1%Z);
  (390, 390, 1, 206%Z); (391, 391, 1, 1%Z); (393, 394, 1, 205%Z);
  (395, 395, 1, 1%Z); (398, 398, 1, 79%Z); (399, 399, 1, 202%Z);
  (400, 400, 1, 203%Z); (401, 401, 1, 1%Z); (403, 403, 1, 205%Z);
  (404, 404, 1, 207%Z); (406, 406, 1, 211%Z); (407, 407, 1, 209%Z);
  (408, 408, 1, 1%Z); (412, 412, 1, 211%Z); (413, 413, 1, 213%Z);
  (415, 415, 1, 214%Z); (416, 420, 2, 1%Z); (422, 422, 1, 218%Z);
  (423, 423, 1, 1%Z); (425, 425, 1, 218%Z); (428, 428, 1, 1%Z);
  (430, 430, 1, 218%Z); (431, 431, 1, 1%Z); (433, 434, 1, 217%Z);
  (435, 437, 2, 1%Z); (439, 439, 1, 219%Z); (440, 440, 1, 1%Z);
  (444, 444, 1, 1%Z); (452, 452, 1, 2%Z); (453, 453, 1, 1%Z);
  (455, 455, 1, 2%Z); (456, 456, 1, 1%Z); (458, 458, 1, 2%Z);
  (459, 475, 2, 1%Z); (478, 494, 2, 1%Z); (497, 497, 1, 2%Z);
  (498, 500, 2, 1%Z); (502, 502, 1, (-97)%Z); (503, 503, 1, (-56)%Z);
  (504, 542, 2, 1%Z); (544, 544, 1, (-130)%Z); (546, 562, 2, 1%Z);
  (570, 570, 1, 10795%Z); (571, 571, 1, 1%Z); (573, 573, 1, (-163)%Z);
  (574, 574, 1, 10792%Z); (577, 577, 1, 1%Z); (579, 579, 1, (-195)%Z);
  (580, 580, 1, 69%Z); (581, 581, 1, 71%Z); (582, 590, 2, 1%Z);
  (880, 882, 2, 1%Z); (886, 886, 1, 1%Z); (895, 895, 1, 116%Z);
  (902, 902, 1, 38%Z); (904, 906, 1, 37%Z); (908, 908, 1, 64%Z);
  (910, 911, 1, 63%Z); (913, 929, 1, 32%Z); (931, 939, 1, 32%Z);
  (975, 975, 1, 8%Z); (984, 1006, 2, 1%Z); (1012, 1012, 1, (-60)%Z);
  (1015, 1015, 1, 1%Z); (1017, 1017, 1, (-7)%Z); (1018, 1018, 1, 1%Z);
  (1021, 1023, 1, (-130)%Z); (1024, 1039, 1, 80%Z); (1040, 1071, 1, 32%Z);
  (1120, 1152, 2, 1%Z); (1162, 1214, 2, 1%Z); (1216, 1216, 1, 15%Z);
  (1217, 1229, 2, 1%Z); (1232, 1326, 2, 1%Z); (1329, 1366, 1, 48%Z);
  (4256, 4293, 1, 7264%Z); (4295, 4295, 1, 7264%Z); (4301, 4301, 1, 7264%Z);
  (5024, 5103, 1, 38864%Z); (5104, 5109, 1, 8%Z); (7312, 7354, 1, (-3008)%Z);
  (7357, 7359, 1, (-3008)%Z); (7680, 7828, 2, 1%Z);
  (7838, 7838, 1, (-7615)%Z); (7840, 7934, 2, 1%Z); (7944, 7951, 1, (-8)%Z);
  (7960, 7965, 1, (-8)%Z); (7976, 7983, 1, (-8)%Z); (7992, 7999, 1, (-8)%Z);
  (8008, 8013, 1, (-8)%Z); (8025, 8031, 2, (-8)%Z); (8040, 8047, 1, (-8)%Z);
  (8072, 8079, 1, (-8)%Z); (8088, 8095, 1, (-8)%Z); (8104, 8111, 1, (-8)%Z);
  (8120, 8121, 1, (-8)%Z); (8122, 8123, 1, (-74)%Z); (8124, 8124, 1, (-9)%Z);
  (8136, 8139, 1, (-86)%Z); (8140, 8140, 1, (-9)%Z); (8152, 8153, 1, (-8)%Z);
  (8154, 8155, 1, (-100)%Z); (8168, 8169, 1, (-8)%Z);
  (8170, 8171, 1, (-112)%Z); (8172, 8172, 1, (-7)%Z);
  (8184, 8185, 1, (-128)%Z); (8186, 8187, 1, (-126)%Z);
  (8188, 8188, 1, (-9)%Z); (8486, 8486, 1, (-7517)%Z);
  (8490, 8490, 1, (-8383)%Z); (8491, 8491, 1, (-8262)%Z);
  (8498, 8498, 1, 28%Z); (8544, 8559, 1, 16%Z); (8579, 8579, 1, 1%Z);
  (9398, 9423, 1, 26%Z); (11264, 11311, 1, 48%Z); (11360, 11360, 1, 1%Z);
  (11362, 11362, 1, (-10743)%Z); (11363, 11363, 1, (-3814)%Z);
  (11364, 11364, 1, (-10727)%Z); (11367, 11371, 2, 1%Z);
  (11373, 11373, 1, (-10780)%Z); (11374, 11374, 1, (-10749)%Z);
  (11375, 11375, 1, (-10783)%Z); (11376, 11376, 1, (-10782)%Z);
  (11378, 11378, 1, 1%Z); (11381, 11381, 1, 1%Z);
  (11390, 11391, 1, (-10815)%Z); (11392, 11490, 2, 1%Z);
  (11499, 11501, 2, 1%Z); (11506, 11506, 1, 1%Z); (42560, 42604, 2, 1%Z);
  (42624, 42650, 2, 1%Z); (42786, 42798, 2, 1%Z); (42802, 42862, 2, 1%Z);
  (42873, 42875, 2, 1%Z); (42877, 42877, 1, (-35332)%Z);
  (42878, 42886, 2, 1%Z); (42891, 42891, 1, 1%Z);
  (42893, 42893, 1, (-42280)%Z); (42896, 42898, 2, 1%Z);
  (42902, 42920, 2, 1%Z); (42922, 42922, 1, (-42308)%Z);
  (42923, 42923, 1, (-42319)%Z); (42924, 42924, 1, (-42315)%Z);
  (42925, 42925, 1, (-42305)%Z); (42926, 42926, 1, (-42308)%Z);
  (42928, 42928, 1, (-42258)%Z); (42929, 42929, 1, (-42282)%Z);
  (42930, 42930, 1, (-42261)%Z); (42931, 42931, 1, 928%Z);
  (42932, 42946, 2, 1%Z); (42948, 42948, 1, (-48)%Z);
  (42949, 42949, 1, (-42307)%Z); (42950, 42950, 1, (-35384)%Z);
  (42951, 42953, 2, 1%Z); (42960, 42960, 1, 1%Z); (42966, 42968, 2, 1%Z);
  (42997, 42997, 1, 1%Z); (65313, 65338, 1, 32%Z); (66560, 66599, 1, 40%Z);
  (66736, 66771, 1, 40%Z); (66928, 66938, 1, 39%Z); (66940, 66954, 1, 39%Z);
  (66956, 66962, 1, 39%Z); (66964, 66965, 1, 39%Z); (68736, 68786, 1, 64%Z);
  (71840, 71871, 1, 32%Z); (93760, 93791, 1, 32%Z);
  (125184, 125217, 1, 34%Z)]%N.

Fixpoint lower_lookup (t : list (N * N * N * Z)) (c : N) : N :=
  match t with
  | [] => c
  | (a, b, st, d) :: t' =>
      if ((a <=? c) && (c <=? b) && (N.modulo (c - a) st =? 0))%N
      then Z.to_N (Z.of_N c + d) else lower_lookup t' c
  end.

(** Lower case of one code point. *)
Definition py_lower_char (c : N) : N := lower_lookup lower_runs c.

(** [str.lower()]: the simple mapping, except U+0130, whose full lower case
    has two code points. *)
Definition py_lower (s : pystr) : pystr :=
  flat_map (fun c => if (c =? 304)%N then [105%N; 775%N] else [py_lower_char c]) s.

(** The extra case-insensitive equivalences of [re] ([re._casefix]): for a
    lower-case code point, the other lower-case code points it matches. *)
Definition ignorecase_fixes : list (N * list N) := [
  (105, [305]); (115, [383]); (181, [956]); (305, [105]); (383, [115]);
  (837, [953; 8126]); (912, [8147]); (944, [8163]); (946, [976]);
  (949, [1013]); (952, [977]); (953, [837; 8126]); (954, [1008]);
  (956, [181]); (960, [982]); (961, [1009]); (962, [963]); (963, [962]);
  (966, [981]); (976, [946]); (977, [952]); (981, [966]); (982, [960]);
  (1008, [954]); (1009, [961]); (1013, [949]); (1074, [7296]);
  (1076, [7297]); (1086, [7298]); (1089, [7299]); (1090, [7300; 7301]);
  (1098, [7302]); (1123, [7303]); (7296, [1074]); (7297, [1076]);
  (7298, [1086]); (7299, [1089]); (7300, [1090; 7301]); (7301, [1090; 7300]);
  (7302, [1098]); (7303, [1123]); (7304, [42571]); (7777, [7835]);
  (7835, [7777]); (8126, [837; 953]); (8147, [912]); (8163, [944]);
  (42571, [7304]); (64261, [64262]); (64262, [64261])]%N.

(** The cased code points ([_sre.unicode_iscased]: lower or upper case
    differs from the code point), as inclusive ranges. *)
Definition iscased_runs : list (N * N) := [
  (65, 90); (97, 122); (181, 181); (192, 214); (216, 246); (248, 311);
  (313, 396); (398, 410); (412, 425); (428, 441); (444, 445); (447, 447);
  (452, 544); (546, 563); (570, 596); (598, 599); (601, 601); (603, 604);
  (608, 609); (611, 611); (613, 614); (616, 620); (623, 623); (625, 626);
  (629, 629); (637, 637); (640, 640); (642, 643); (647, 652); (658, 658);
  (669, 670); (837, 837); (880, 883); (886, 887); (891, 893); (895, 895);
  (902, 902); (904, 906); (908, 908); (910, 929); (931, 977); (981, 1013);
  (1015, 1019); (1021, 1153); (1162, 1327); (1329, 1366); (1377, 1415);
  (4256, 4293); (4295, 4295); (4301, 4301); (4304, 4346); (4349, 4351);
  (5024, 5109); (5112, 5117); (7296, 7304); (7312, 7354); (7357, 7359);
  (7545, 7545); (7549, 7549); (7566, 7566); (7680, 7835); (7838, 7838);
  (7840, 7957); (7960, 7965); (7968, 8005); (8008, 8013); (8016, 8023);
  (8025, 8025); (8027, 8027); (8029, 8029); (8031, 8061); (8064, 8116);
  (8118, 8124); (8126, 8126); (8130, 8132); (8134, 8140); (8144, 8147);
  (8150, 8155); (8160, 8172); (8178, 8180); (8182, 8188); (8486, 8486);
  (8490, 8491); (8498, 8498); (8526, 8526); (8544, 8575); (8579, 8580);
  (9398, 9449); (11264, 11376); (11378, 11379); (11381, 11382);
  (11390, 11491); (11499, 11502); (11506, 11507); (11520, 11557);
  (11559, 11559); (11565, 11565); (42560, 42605); (42624, 42651);
  (42786, 42799); (42802, 42863); (42873, 42887); (42891, 42893);
  (42896, 42900); (42902, 42926); (42928, 42954); (42960, 42961);
  (42966, 42969); (42997, 42998); (43859, 43859); (43888, 43967);
  (64256, 64262); (64275, 64279); (65313, 65338); (65345, 65370);
  (66560, 66639); (66736, 66771); (66776, 66811); (66928, 66938);
  (66940, 66954); (66956, 66962); (66964, 66965); (66967, 66977);
  (66979, 66993); (66995, 67001); (67003, 67004); (68736, 68786);
  (68800, 68850); (71840, 71903); (93760, 93823); (125184, 125251)]%N.

Definition unicode_iscased (c : N) : bool :=
  existsb (fun '(a, b) => ((a <=? c) && (c <=? b))%N) iscased_runs.

Fixpoint drop_while (p : N -> bool) (s : pystr) : pystr :=
  match s with
  | [] => []
  | c :: r => if p c then drop_while p r else s
  end.

(** [str.strip()] *)
Definition py_strip (s : pystr) : pystr :=
  rev (drop_while py_isspace (rev (drop_while py_isspace s))).

Fixpoint prefixb (p s : pystr) : bool :=
  match p, s with
  | [], _ => true
  | a :: p', b :: s' => (a =? b)%N && prefixb p' s'
  | _ :: _, [] => false
  end.

(** [str.startswith] *)
Definition startswith (s p : pystr) : bool := prefixb p s.

(** [str.replace(old, new)]: non-overlapping occurrences, left to right.
    [skip] counts the characters of an occurrence already replaced. *)
Fixpoint replace_go (old new : pystr) (skip : nat) (s : pystr) : pystr :=
  match s with
  | [] => []
  | c :: r =>
      match skip with
      | S k => replace_go old new k r
      | O => if prefixb old s
             then new ++ replace_go old new (length old - 1) r
             else c :: replace_go old new 0 r
      end
  end.

(** An empty [old] inserts [new] around every character. *)
Definition py_replace (s old new : pystr) : pystr :=
  match old with
  | [] => new ++ flat_map (fun c => c :: new) s
  | _ => replace_go old new 0 s
  end.

(** [sep.join(items)] *)
Fixpoint py_join (sep : pystr) (items : list pystr) : pystr :=
  match items with
  | [] => []
  | [x] => x
  | x :: r => x ++ sep ++ py_join sep r
  end.

(** Decimal rendering of a natural number, as [str(n)] / [%d]. *)
Fixpoint digits_of_N (fuel : nat) (n : N) (acc : pystr) : pystr :=
  match fuel with
  | O => acc
  | S f => let acc' := (48 + N.modulo n 10)%N :: acc in
           if (n <? 10)%N then acc' else digits_of_N f (N.div n 10) acc'
  end.

Definition str_of_nat (n : nat) : pystr :=
  digits_of_N (S n) (N.of_nat n) [].

(** ** Python values and exceptions *)

(** The values [json.loads] produces, which [parse_gemini_response] returns.
    [PFloat m e] is the float of the decimal text whose value is [m * 10^e]. *)
Inductive pyval : Type :=
  | PNone
  | PBool (b : bool)
  | PInt (z : Z)
  | PFloat (m : Z) (e : Z)
  | PNaN
  | PInf
  | PNegInf
  | PStr (s : pystr)
  | PList (l : list pyval)
  | PDict (kv : list (pystr * pyval)).

Inductive exn : Type :=
  | JSONDecodeError (msg : pystr) (doc : pystr) (pos : nat)
  | ValueError (msg : pystr).

(** A computation that returns a value or raises an exception. *)
Inductive outcome (A : Type) : Type :=
  | Ret (a : A)
  | Raise (e : exn).
Arguments Ret {A} a.
Arguments Raise {A} e.

Fixpoint count_nl (s : pystr) : nat :=
  match s with
  | [] => O
  | c :: r => (if (c =? NL)%N then 1 else 0) + count_nl r
  end.

(** Number of characters after the last newline. *)
Fixpoint col_after_nl (s : pystr) (acc : nat) : nat :=
  match s with
  | [] => acc
  | c :: r => col_after_nl r (if (c =? NL)%N then O else S acc)
  end.

(** [str(e)]; for a [JSONDecodeError] this is
    ['%s: line %d column %d (char %d)' % (msg, lineno, colno, pos)]. *)
Definition exn_str (e : exn) : pystr :=
  match e with
  | JSONDecodeError msg doc pos =>
      let pre := firstn pos doc in
      msg ++ lit ": line " ++ str_of_nat (S (count_nl pre))
          ++ lit " column " ++ str_of_nat (S (col_after_nl pre O))
          ++ lit " (char " ++ str_of_nat pos ++ lit ")"
  | ValueError msg => msg
  end.

(** ** [json.loads] (CPython 3.11, [_json] accelerator, [strict=True]) *)

Module Json.

(** The whitespace of [json.decoder.WHITESPACE]: [[ \t\n\r]]. *)
Definition json_ws (c : N) : bool :=
  (c =? 32)%N || (c =? 9)%N || (c =? 10)%N || (c =? 13)%N.

Definition skip_ws (s : pystr) : pystr := drop_while json_ws s.

Definition is_digit (c : N) : bool := ((48 <=? c) && (c <=? 57))%N.

(** How a scanning step ends: no value starts at [rem] ([StopIteration]),
    a [JSONDecodeError] reported at [rem], the [ValueError] of [int()], or
    the step budget exhausted (budgets below are larger than the input). *)
Inductive scan_err : Type :=
  | StopIteration (rem : pystr)
  | DecodeErr (msg : pystr) (rem : pystr)
  | IntValueErr (msg : pystr)
  | OutOfFuel (rem : pystr).

(** A scanned value with the rest of the input. *)
Definition scan (A : Type) : Type := (scan_err + A * pystr)%type.

Definition sbind {A B : Type} (m : scan A) (k : A -> pystr -> scan B) : scan B :=
  match m with
  | inl e => inl e
  | inr (a, r) => k a r
  end.

(** *** Strings: [scanstring_unicode] *)

Definition hex_val (c : N) : option N :=
  if is_digit c then Some (c - 48)%N
  else if ((97 <=? c) && (c <=? 102))%N then Some (c - 87)%N
  else if ((65 <=? c) && (c <=? 70))%N then Some (c - 55)%N
  else None.

(** Four hexadecimal digits. *)
Definition hex4 (s : pystr) : option (N * pystr) :=
  match s with
  | a :: b :: c :: d :: r =>
      match hex_val a, hex_val b, hex_val c, hex_val d with
      | Some x, Some y, Some z, Some w =>
          Some (((x * 16 + y) * 16 + z) * 16 + w, r)%N
      | _, _, _, _ => None
      end
  | _ => None
  end.

(** The one-character escapes of [BACKSLASH]. *)
Definition simple_escape (e : N) : option N :=
  if (e =? 34)%N then Some 34%N
  else if (e =? 92)%N then Some 92%N
  else if (e =? 47)%N then Some 47%N
  else if (e =? 98)%N then Some 8%N
  else if (e =? 102)%N then Some 12%N
  else if (e =? 110)%N then Some 10%N
  else if (e =? 114)%N then Some 13%N
  else if (e =? 116)%N then Some 9%N
  else None.

Definition msg_unterminated := lit "Unterminated string starting at".
Definition msg_bad_u := lit "Invalid \uXXXX escape".

(** [begin] is the input at the opening quote, [acc] the characters read so
    far (reversed). *)
Fixpoint scanstring_go (fuel : nat) (begin acc s : pystr) : scan pystr :=
  match fuel with
  | O => inl (OutOfFuel s)
  | S f =>
    match s with
    | [] => inl (DecodeErr msg_unterminated begin)
    | c :: r =>
      if (c =? DQUOTE)%N then inr (rev acc, r)
      else if (c =? BACKSLASH)%N then
        match r with
        | [] => inl (DecodeErr msg_unterminated begin)
        | e :: r' =>
          if (e =? 117)%N then
            (* [\uXXXX] needs four hex digits and one more character *)
            if Nat.ltb (length r') 5 then inl (DecodeErr msg_bad_u r)
            else match hex4 r' with
            | None => inl (DecodeErr msg_bad_u r)
            | Some (u, r'') =>
              if ((55296 <=? u) && (u <=? 56319))%N && Nat.ltb 6 (length r'')
              then match r'' with
                   | b :: v :: r3 =>
                     if (b =? BACKSLASH)%N && (v =? 117)%N then
                       match hex4 r3 with
                       | None => inl (DecodeErr msg_bad_u (v :: r3))
                       | Some (u2, r4) =>
                         if ((56320 <=? u2) && (u2 <=? 57343))%N
                         then scanstring_go f begin
                                (65536 + (u - 55296) * 1024 + (u2 - 56320) :: acc)%N r4
                         else scanstring_go f begin (u :: acc) r''
                       end
                     else scanstring_go f begin (u :: acc) r''
                   | _ => scanstring_go f begin (u :: acc) r''
                   end
              else scanstring_go f begin (u :: acc) r''
            end
          else match simple_escape e with
               | Some ch => scanstring_go f begin (ch :: acc) r'
               | None => inl (DecodeErr (lit "Invalid \escape") s)
               end
        end
      else if (c <=? 31)%N then inl (DecodeErr (lit "Invalid control character at") s)
      else scanstring_go f begin (c :: acc) r
    end
  end.

(** [s] starts at the opening quote, [r] just after it. *)
Definition scanstring (s r : pystr) : scan pystr :=
  scanstring_go (S (length r)) s [] r.

(** *** Numbers: [NUMBER_RE = (-?(?:0|[1-9]\d* ))(\.\d+)?([eE][-+]?\d+)?] *)

Fixpoint span_digits (s : pystr) : pystr * pystr :=
  match s with
  | c :: r => if is_digit c then let '(d, r') := span_digits r in (c :: d, r')
              else ([], s)
  | [] => ([], [])
  end.

Definition Z_of_digits (ds : pystr) : Z :=
  fold_left (fun acc d => acc * 10 + Z.of_N (d - 48))%Z ds 0%Z.

(** Sign, integer digits, fraction digits, exponent, rest of the input. *)
Record number_match : Type := {
  nm_neg : bool;
  nm_int : pystr;
  nm_frac : option pystr;
  nm_exp : option (bool * pystr);
  nm_rest : pystr
}.

Definition match_int (s : pystr) : option (pystr * pystr) :=
  match s with
  | c :: r =>
      if (c =? 48)%N then Some ([c], r)
      else if ((49 <=? c) && (c <=? 57))%N
           then let '(ds, r') := span_digits r in Some (c :: ds, r')
           else None
  | [] => None
  end.

Definition match_frac (s : pystr) : option pystr * pystr :=
  match s with
  | p :: d :: r =>
      if (p =? 46)%N && is_digit d
      then let '(ds, r') := span_digits (d :: r) in (Some ds, r') else (None, s)
  | _ => (None, s)
  end.

Definition match_exp (s : pystr) : option (bool * pystr) * pystr :=
  match s with
  | e :: r =>
      if (e =? 101)%N || (e =? 69)%N then
        let '(neg, r1) :=
          match r with
          | sg :: r' => if (sg =? 45)%N then (true, r')
                        else if (sg =? 43)%N then (false, r') else (false, r)
          | [] => (false, r)
          end in
        let '(ds, r2) := span_digits r1 in
        match ds with
        | [] => (None, s)
        | _ => (Some (neg, ds), r2)
        end
      else (None, s)
  | [] => (None, s)
  end.

Definition match_number (s : pystr) : option number_match :=
  let '(neg, s1) := match s with
                    | c :: r => if (c =? 45)%N then (true, r) else (false, s)
                    | [] => (false, s)
                    end in
  match match_int s1 with
  | None => None
  | Some (ids, r1) =>
      let '(fr, r2) := match_frac r1 in
      let '(ex, r3) := match_exp r2 in
      Some {| nm_neg := neg; nm_int := ids; nm_frac := fr; nm_exp := ex; nm_rest := r3 |}
  end.

(** [sys.int_info.default_max_str_digits] *)
Definition int_max_str_digits : nat := 4300.

Definition msg_int_limit (n : nat) : pystr :=
  lit "Exceeds the limit (4300 digits) for integer string conversion: value has "
  ++ str_of_nat n
  ++ lit " digits; use sys.set_int_max_str_digits() to increase the limit".

(** [float(text)] for a fraction or exponent, [int(text)] otherwise. *)
Definition number_value (m : number_match) : scan pyval :=
  let sgn := if nm_neg m then (-1)%Z else 1%Z in
  match nm_frac m, nm_exp m with
  | None, None =>
      if Nat.ltb int_max_str_digits (length (nm_int m))
      then inl (IntValueErr (msg_int_limit (length (nm_int m))))
      else inr (PInt (sgn * Z_of_digits (nm_int m))%Z, nm_rest m)
  | fr, ex =>
      let fds := match fr with Some d => d | None => [] end in
      let e := match ex with
               | Some (true, d) => (- Z_of_digits d)%Z
               | Some (false, d) => Z_of_digits d
               | None => 0%Z
               end in
      inr (PFloat (sgn * Z_of_digits (nm_int m ++ fds))%Z
                  (e - Z.of_nat (length fds))%Z, nm_rest m)
  end.

(** *** Arrays, objects and [scan_once_unicode] *)

(** [d[k] = v] on a dict kept in insertion order. *)
Fixpoint dict_set (k : pystr) (v : pyval) (d : list (pystr * pyval))
  : list (pystr * pyval) :=
  match d with
  | [] => [(k, v)]
  | (k', v') :: r => if bool_decide (k = k') then (k, v) :: r
                     else (k', v') :: dict_set k v r
  end.

Definition msg_comma := lit "Expecting ',' delimiter".
Definition msg_colon := lit "Expecting ':' delimiter".
Definition msg_prop := lit "Expecting property name enclosed in double quotes".

(** The elements of an array; [sc] scans one value, [s] is at a value. *)
Fixpoint parse_array_items (sc : pystr -> scan pyval) (fuel : nat)
    (acc : list pyval) (s : pystr) : scan pyval :=
  match fuel with
  | O => inl (OutOfFuel s)
  | S f =>
    sbind (sc s) (fun v r =>
      match skip_ws r with
      | c :: r' =>
          if (c =? 93)%N then inr (PList (rev (v :: acc)), r')
          else if (c =? 44)%N then parse_array_items sc f (v :: acc) (skip_ws r')
          else inl (DecodeErr msg_comma (c :: r'))
      | [] => inl (DecodeErr msg_comma [])
      end)
  end.

(** [_parse_array_unicode]; [s] is just after ['[']. *)
Definition parse_array (sc : pystr -> scan pyval) (s : pystr) : scan pyval :=
  match skip_ws s with
  | c :: r => if (c =? 93)%N then inr (PList [], r)
              else parse_array_items sc (S (length s)) [] (c :: r)
  | [] => parse_array_items sc (S (length s)) [] []
  end.

(** The members of an object; [s] is at the quote of a key. *)
Fixpoint parse_object_items (sc : pystr -> scan pyval) (fuel : nat)
    (acc : list (pystr * pyval)) (s : pystr) : scan pyval :=
  match fuel with
  | O => inl (OutOfFuel s)
  | S f =>
    match s with
    | q :: r =>
      if (q =? DQUOTE)%N then
        sbind (scanstring s r) (fun k r1 =>
          match skip_ws r1 with
          | c :: r2 =>
            if (c =? 58)%N then
              sbind (sc (skip_ws r2)) (fun v r3 =>
                let acc' := dict_set k v acc in
                match skip_ws r3 with
                | d :: r4 =>
                    if (d =? 125)%N then inr (PDict acc', r4)
                    else if (d =? 44)%N then parse_object_items sc f acc' (skip_ws r4)
                    else inl (DecodeErr msg_comma (d :: r4))
                | [] => inl (DecodeErr msg_comma [])
                end)
            else inl (DecodeErr msg_colon (c :: r2))
          | [] => inl (DecodeErr msg_colon [])
          end)
      else inl (DecodeErr msg_prop s)
    | [] => inl (DecodeErr msg_prop s)
    end
  end.

(** [_parse_object_unicode]; [s] is just after ['{']. *)
Definition parse_object (sc : pystr -> scan pyval) (s : pystr) : scan pyval :=
  match skip_ws s with
  | c :: r => if (c =? 125)%N then inr (PDict [], r)
              else parse_object_items sc (S (length s)) [] (c :: r)
  | [] => parse_object_items sc (S (length s)) [] []
  end.

(** [scan_once_unicode]: one JSON value at the start of [s]. *)
Fixpoint scan_once (fuel : nat) (s : pystr) : scan pyval :=
  match fuel with
  | O => inl (OutOfFuel s)
  | S f =>
    match s with
    | [] => inl (StopIteration s)
    | c :: r =>
      if (c =? DQUOTE)%N then sbind (scanstring s r) (fun k r' => inr (PStr k, r'))
      else if (c =? 123)%N then parse_object (scan_once f) r
      else if (c =? 91)%N then parse_array (scan_once f) r
      else if prefixb (lit "null") s then inr (PNone, skipn 4 s)
      else if prefixb (lit "true") s then inr (PBool true, skipn 4 s)
      else if prefixb (lit "false") s then inr (PBool false, skipn 5 s)
      else match match_number s with
           | Some m => number_value m
           | None =>
             if prefixb (lit "NaN") s then inr (PNaN, skipn 3 s)
             else if prefixb (lit "Infinity") s then inr (PInf, skipn 8 s)
             else if prefixb (lit "-Infinity") s then inr (PNegInf, skipn 9 s)
             else inl (StopIteration s)
           end
    end
  end.

(** [json.loads(s)]: [JSONDecoder.decode] with [raw_decode]. *)
Definition loads (s : pystr) : outcome pyval :=
  let pos (rem : pystr) := (length s - length rem)%nat in
  if startswith s [65279%N] then
    Raise (JSONDecodeError (lit "Unexpected UTF-8 BOM (decode using utf-8-sig)") s 0)
  else
    let s0 := skip_ws s in
    match scan_once (S (length s0)) s0 with
    | inl (StopIteration rem) | inl (OutOfFuel rem) =>
        Raise (JSONDecodeError (lit "Expecting value") s (pos rem))
    | inl (DecodeErr msg rem) => Raise (JSONDecodeError msg s (pos rem))
    | inl (IntValueErr msg) => Raise (ValueError msg)
    | inr (v, r) =>
        match skip_ws r with
        | [] => Ret v
        | r' => Raise (JSONDecodeError (lit "Extra data") s (pos r'))
        end
    end.

End Json.

(** ** [parse_gemini_response] *)

(** One match of [^```(?:json)?\s*|\s*```$] (flag [re.MULTILINE]) at the
    current position: [prev] is the preceding character ([None] at the
    start of the string); the result is the rest after the match. *)
Definition fence_alt1 (prev : option N) (s : pystr) : option pystr :=
  let at_line_start := match prev with None => true | Some p => (p =? NL)%N end in
  if at_line_start && prefixb (lit "```") s then
    let s1 := skipn 3 s in
    let s2 := if prefixb (lit "json") s1 then skipn 4 s1 else s1 in
    Some (drop_while py_isspace s2)
  else None.

Definition fence_alt2 (s : pystr) : option pystr :=
  let r := drop_while py_isspace s in
  if prefixb (lit "```") r then
    match skipn 3 r with
    | [] => Some []
    | c :: r' => if (c =? NL)%N then Some (c :: r') else None
    end
  else None.

Definition fence_match (prev : option N) (s : pystr) : option pystr :=
  match fence_alt1 prev s with
  | Some r => Some r
  | None => fence_alt2 s
  end.

(** [re.sub(pattern, '', s)]: scanning left to right, each match is
    deleted; [skip] counts the characters of the current match still to be
    deleted. *)
Fixpoint fence_sub_go (prev : option N) (skip : nat) (s : pystr) : pystr :=
  match s with
  | [] => []
  | c :: r =>
      match skip with
      | S k => fence_sub_go (Some c) k r
      | O => match fence_match prev s with
             | Some rest => fence_sub_go (Some c) (length s - length rest - 1) r
             | None => c :: fence_sub_go (Some c) 0 r
             end
      end
  end.

Definition fence_sub (s : pystr) : pystr := fence_sub_go None 0 s.

Definition failure_mapping (response_text : pystr) (e : exn) : pyval :=
  PDict [(lit "error", PStr (lit "Failed to parse response"));
         (lit "raw_response", PStr response_text);
         (lit "details", PStr (exn_str e))].

(** The text handed to [json.loads]: stripped, then unfenced when it
    starts with three backticks. *)
Definition cleaned_text (response_text : pystr) : pystr :=
  let cleaned_text := py_strip response_text in
  if startswith cleaned_text (lit "```") then fence_sub cleaned_text else cleaned_text.

Definition parse_gemini_response (response_text : pystr) : outcome pyval :=
  match Json.loads (cleaned_text response_text) with
  | Ret result => Ret result
  | Raise (JSONDecodeError _ _ _ as e) => Ret (failure_mapping response_text e)
  | Raise e => Raise e
  end.


(** ** More string primitives *)

(** [x in [a, b, ...]] on strings. *)
Definition py_in (x : pystr) (l : list pystr) : bool :=
  existsb (fun y => bool_decide (x = y)) l.

(** [sub in s] on strings. *)
Fixpoint py_contains (sub s : pystr) : bool :=
  prefixb sub s || match s with [] => false | _ :: r => py_contains sub r end.

(** The decimal digits ([str.isdecimal], the class [\d] of [re], the digits
    [float()] accepts): blocks of ten consecutive code points with the
    values 0 to 9, given by their first code point. *)
Definition decimal_blocks : list N := [
  48; 1632; 1776; 1984; 2406; 2534; 2662; 2790; 2918; 3046; 3174; 3302;
  3430; 3558; 3664; 3792; 3872; 4160; 4240; 6112; 6160; 6470; 6608; 6784;
  6800; 6992; 7088; 7232; 7248; 42528; 43216; 43264; 43472; 43504; 43600;
  44016; 65296; 66720; 68912; 69734; 69872; 69942; 70096; 70384; 70736;
  70864; 71248; 71360; 71472; 71904; 72016; 72784; 73040; 73120; 92768;
  92864; 93008; 120782; 120792; 120802; 120812; 120822; 123200; 123632;
  125264; 130032]%N.

Definition digit_value (c : N) : option N :=
  match List.find (fun b => ((b <=? c) && (c <? b + 10))%N) decimal_blocks with
  | Some b => Some (c - b)%N
  | None => None
  end.

Definition py_isdecimal (c : N) : bool :=
  match digit_value c with Some _ => true | None => false end.

Fixpoint span_decimal (s : pystr) : pystr * pystr :=
  match s with
  | c :: r => if py_isdecimal c then let '(d, r') := span_decimal r in (c :: d, r')
              else ([], s)
  | [] => ([], [])
  end.

Definition Z_of_decimals (ds : pystr) : Z :=
  fold_left (fun acc c => (acc * 10 + Z.of_N (default 0%N (digit_value c)))%Z) ds 0%Z.

(** [x < y] on numbers. *)
Definition Qltb (x y : Q) : bool := negb (Qle_bool y x).

(** ** parse_estimated_loss *)

(** One match of [\d+\.?\d*] at the start of [s]: the token and the rest. *)
Definition match_number_token (s : pystr) : option (pystr * pystr) :=
  match span_decimal s with
  | ([], _) => None
  | (d1, 46%N :: r2) => let '(d2, r3) := span_decimal r2 in Some (d1 ++ 46%N :: d2, r3)
  | (d1, r1) => Some (d1, r1)
  end.

(** [re.findall(r'\d+\.?\d*', s)]; a match is never empty, so [length s]
    steps suffice. *)
Fixpoint findall_numbers_go (fuel : nat) (s : pystr) : list pystr :=
  match fuel with
  | O => []
  | S f =>
    match s with
    | [] => []
    | _ :: r =>
      match match_number_token s with
      | Some (t, rest) => t :: findall_numbers_go f rest
      | None => findall_numbers_go f r
      end
    end
  end.

Definition findall_numbers (s : pystr) : list pystr := findall_numbers_go (length s) s.

(** [float(t)] of a token of [\d+\.?\d*], as the exact rational it denotes
    (the model does not round to a binary double). *)
Definition token_value (t : pystr) : Q :=
  let '(d1, r) := span_decimal t in
  match r with
  | 46%N :: d2 =>
      Qred (Qmake (Z_of_decimals (d1 ++ d2)) (Pos.of_nat (10 ^ length d2)))
  | _ => inject_Z (Z_of_decimals d1)
  end.

(** The currency literals of the source, as its code points: the text
    [‚Çπ] and [‚Ç¨] (the UTF-8 bytes of the rupee and euro signs read
    as Mac Roman). *)
Definition currency_lit1 : pystr := [8218; 199; 960]%N.
Definition currency_lit2 : pystr := [8218; 199; 168]%N.

Definition parse_estimated_loss (loss_str : pystr) : Q :=
  if (match loss_str with [] => true | _ => false end)
     || py_in (py_lower loss_str) [lit "not specified"; lit "unknown"; lit "n/a"]
  then 0
  else
    let cleaned := py_replace (py_replace (py_replace (py_lower loss_str)
                     currency_lit1 []) (lit "$") []) currency_lit2 [] in
    let cleaned := py_replace (py_replace (py_replace cleaned
                     (lit "over") []) (lit "around") []) (lit "approximately") [] in
    let cleaned := py_strip (py_replace cleaned (lit ",") []) in
    match findall_numbers cleaned with
    | t :: _ => token_value t
    | [] => 0
    end.

(** ** Claim records *)

(** A record of extracted claim data: a dict whose fields hold strings. *)
Abbreviation record := (gmap pystr pystr).

(** [d.get(k, default)] *)
Definition dict_get (d : record) (k default : pystr) : pystr :=
  match d !! k with Some v => v | None => default end.

Definition required_fields : list pystr :=
  [lit "loss_type"; lit "severity"; lit "affected_assets"; lit "estimated_loss";
   lit "incident_date"; lit "location"; lit "confidence"; lit "extraction_explanation"].

Definition validate_extracted_data (data : record) : bool * list pystr :=
  let missing_fields := List.filter (fun field => negb (bool_decide (is_Some (data !! field))))
                          required_fields in
  let is_valid := Nat.eqb (length missing_fields) 0 in
  (is_valid, missing_fields).

(** [calculate_completeness_score]: [(filled_count, total_count, percentage)]. *)
Definition calculate_completeness_score (extracted_data : record) : nat * nat * Q :=
  let filled_count :=
    length (List.filter (fun field =>
              let value := dict_get extracted_data field [] in
              negb (match value with [] => true | _ => false end)
              && negb (py_in value [lit "Unknown"; lit "Not specified"; lit "N/A"; []]))
            required_fields) in
  let total_count := length required_fields in
  let percentage :=
    if Nat.ltb 0 total_count
    then Qred (inject_Z (Z.of_nat filled_count) / inject_Z (Z.of_nat total_count) * 100)%Q
    else 0%Q in
  (filled_count, total_count, percentage).

(** ** generate_recommendations *)

(** [format(x, ',.0f')]: rounded half to even to an integer, digits grouped
    by three with commas (on the exact rational value). *)
Definition round_half_even (x : Q) : Z :=
  let n := Qnum x in
  let d := Zpos (Qden x) in
  let q := Z.div n d in
  let r := Z.modulo n d in
  match Z.compare (2 * r) d with
  | Lt => q
  | Gt => q + 1
  | Eq => if Z.even q then q else q + 1
  end.

(** Commas every three digits of a reversed digit string. *)
Fixpoint group3 (ds : pystr) : pystr :=
  match ds with
  | a :: b :: c :: ((_ :: _) as r) => a :: b :: c :: 44%N :: group3 r
  | _ => ds
  end.

Definition format_thousands_0f (x : Q) : pystr :=
  let z := round_half_even x in
  let n := Z.to_N (Z.abs z) in
  (if (z <? 0)%Z then [45%N] else [])
  ++ rev (group3 (rev (digits_of_N (S (N.size_nat n)) n []))).

Record recommendation := {
  action : pystr;
  priority : pystr;
  category : pystr;
  icon : pystr;
  reasoning : pystr
}.

(** [Request Additional Documentation] *)
Definition rec_request_additional_documentation : recommendation :=
  {| action := lit "Request Additional Documentation";
     priority := lit "High"; category := lit "Verification";
     icon := [63743; 252; 236; 209]%N;
     reasoning := lit "Low confidence in data extraction. Need customer clarification to ensure accuracy." |}.

(** [Contact Customer for Details] *)
Definition rec_contact_customer_for_details : recommendation :=
  {| action := lit "Contact Customer for Details";
     priority := lit "High"; category := lit "Communication";
     icon := [63743; 252; 236; 251]%N;
     reasoning := lit "Missing or unclear information requires direct customer contact." |}.

(** [Fast-track Approval] *)
Definition rec_fast_track_approval : recommendation :=
  {| action := lit "Fast-track Approval";
     priority := lit "High"; category := lit "Processing";
     icon := [63743; 252; 246; 196]%N;
     reasoning := lit "Low severity with high confidence and minimal cost. Safe for quick approval." |}.

(** [Simple Phone Verification] *)
Definition rec_simple_phone_verification : recommendation :=
  {| action := lit "Simple Phone Verification";
     priority := lit "Medium"; category := lit "Verification";
     icon := [63743; 252; 236; 251]%N;
     reasoning := lit "Quick call to confirm details before approval." |}.

(** [Standard Review Process] *)
Definition rec_standard_review_process : recommendation :=
  {| action := lit "Standard Review Process";
     priority := lit "Medium"; category := lit "Processing";
     icon := [63743; 252; 236; 227]%N;
     reasoning := lit "Medium severity requires standard assessment procedures." |}.

(** [Request Photos/Documentation] *)
Definition rec_request_photos_documentation : recommendation :=
  {| action := lit "Request Photos/Documentation";
     priority := lit "Medium"; category := lit "Documentation";
     icon := [63743; 252; 236; 8719]%N;
     reasoning := lit "Visual evidence needed to validate damage extent." |}.

(** [Schedule Assessment Within 5 Days] *)
Definition rec_schedule_assessment_within_5_days : recommendation :=
  {| action := lit "Schedule Assessment Within 5 Days";
     priority := lit "Medium"; category := lit "Administrative";
     icon := [63743; 252; 236; 214]%N;
     reasoning := lit "Timely assessment ensures accurate damage evaluation." |}.

(** [Detailed Investigation Required] *)
Definition rec_detailed_investigation_required : recommendation :=
  {| action := lit "Detailed Investigation Required";
     priority := lit "Critical"; category := lit "Processing";
     icon := [63743; 252; 238; 231]%N;
     reasoning := lit "High severity claim requires thorough investigation and documentation." |}.

(** [Assign Senior Adjuster] *)
Definition rec_assign_senior_adjuster : recommendation :=
  {| action := lit "Assign Senior Adjuster";
     priority := lit "High"; category := lit "Administrative";
     icon := [63743; 252; 235; 174; 8218; 196; 231; 63743; 252; 237; 186]%N;
     reasoning := lit "Complex case requiring experienced adjuster expertise." |}.

(** [Schedule On-site Inspection] *)
Definition rec_schedule_on_site_inspection : recommendation :=
  {| action := lit "Schedule On-site Inspection";
     priority := lit "Critical"; category := lit "Verification";
     icon := [63743; 252; 246; 174]%N;
     reasoning := lit "Physical inspection mandatory for high-value claims." |}.

(** [Supervisor Approval Required] *)
Definition rec_supervisor_approval_required (estimated_loss : Q) : recommendation :=
  {| action := lit "Supervisor Approval Required";
     priority := lit "Critical"; category := lit "Administrative";
     icon := [63743; 252; 235; 238]%N;
     reasoning := lit "Claim value ($" ++ format_thousands_0f estimated_loss
                  ++ lit ") exceeds standard approval threshold." |}.

(** [Request Independent Assessment] *)
Definition rec_request_independent_assessment : recommendation :=
  {| action := lit "Request Independent Assessment";
     priority := lit "High"; category := lit "Verification";
     icon := [63743; 252; 238; 233]%N;
     reasoning := lit "High-value claim requires third-party validation." |}.

(** [Verify Police Report] *)
Definition rec_verify_police_report : recommendation :=
  {| action := lit "Verify Police Report";
     priority := lit "Critical"; category := lit "Verification";
     icon := [63743; 252; 246; 238]%N;
     reasoning := lit "Theft claims require official police documentation." |}.

(** [Request Fire Department Report] *)
Definition rec_request_fire_department_report : recommendation :=
  {| action := lit "Request Fire Department Report";
     priority := lit "High"; category := lit "Documentation";
     icon := [63743; 252; 246; 237]%N;
     reasoning := lit "Fire incident requires official fire department documentation." |}.

(** [Verify Weather Records] *)
Definition rec_verify_weather_records : recommendation :=
  {| action := lit "Verify Weather Records";
     priority := lit "Medium"; category := lit "Verification";
     icon := [63743; 252; 229; 223; 212; 8719; 232]%N;
     reasoning := lit "Cross-reference with official weather data for validation." |}.

(** [Request Accident Report] *)
Definition rec_request_accident_report : recommendation :=
  {| action := lit "Request Accident Report";
     priority := lit "High"; category := lit "Documentation";
     icon := [63743; 252; 236; 227]%N;
     reasoning := lit "Vehicle accidents require official accident documentation." |}.

(** [Collect Missing Information] *)
Definition rec_collect_missing_information (missing_info : list pystr) : recommendation :=
  {| action := lit "Collect Missing Information";
     priority := lit "High"; category := lit "Documentation";
     icon := [8218; 246; 8224; 212; 8719; 232]%N;
     reasoning := lit "Critical fields missing: " ++ py_join (lit ", ") missing_info
                  ++ lit ". Required for processing." |}.

(** [Priority Processing] *)
Definition rec_priority_processing : recommendation :=
  {| action := lit "Priority Processing";
     priority := lit "High"; category := lit "Processing";
     icon := [8218; 246; 176]%N;
     reasoning := lit "Recent incident requires prompt attention and quick response." |}.

(** [Standard Claim Processing] *)
Definition rec_standard_claim_processing : recommendation :=
  {| action := lit "Standard Claim Processing";
     priority := lit "Medium"; category := lit "Processing";
     icon := [63743; 252; 236; 227]%N;
     reasoning := lit "Process through standard workflow with routine verification." |}.

Definition generate_recommendations (extracted_data : record) : list recommendation :=
  let severity := py_lower (dict_get extracted_data (lit "severity") (lit "Unknown")) in
  let confidence := py_lower (dict_get extracted_data (lit "confidence") (lit "Unknown")) in
  let loss_type := py_lower (dict_get extracted_data (lit "loss_type") (lit "Unknown")) in
  let estimated_loss :=
    parse_estimated_loss (dict_get extracted_data (lit "estimated_loss") (lit "0")) in
  let incident_date := dict_get extracted_data (lit "incident_date") (lit "Not specified") in
  let location := dict_get extracted_data (lit "location") (lit "Not specified") in
  let missing_info :=
    (if py_in (py_lower incident_date) [lit "not specified"; lit "unknown"]
     then [lit "incident date"] else [])
    ++ (if py_in (py_lower location) [lit "not specified"; lit "unknown"]
        then [lit "location"] else [])
    ++ (if Qeq_bool estimated_loss 0 then [lit "cost estimate"] else []) in
  (* Rule 1 *)
  let rule1 :=
    if bool_decide (confidence = lit "low")
    then [rec_request_additional_documentation; rec_contact_customer_for_details]
    else [] in
  (* Rules 2 to 4 *)
  let rule234 :=
    if bool_decide (severity = lit "low") && bool_decide (confidence = lit "high")
       && Qltb estimated_loss 10000
    then [rec_fast_track_approval; rec_simple_phone_verification]
    else if bool_decide (severity = lit "medium")
    then [rec_standard_review_process; rec_request_photos_documentation;
          rec_schedule_assessment_within_5_days]
    else if py_in severity [lit "high"; lit "critical"]
    then [rec_detailed_investigation_required; rec_assign_senior_adjuster;
          rec_schedule_on_site_inspection]
    else [] in
  (* Rule 5 *)
  let rule5 :=
    if Qltb 50000 estimated_loss
    then [rec_supervisor_approval_required estimated_loss; rec_request_independent_assessment]
    else [] in
  (* Rule 6 *)
  let rule6 :=
    (if py_contains (lit "theft") loss_type then [rec_verify_police_report] else [])
    ++ (if py_contains (lit "fire") loss_type then [rec_request_fire_department_report] else [])
    ++ (if py_contains (lit "flood") loss_type || py_contains (lit "water") loss_type
        then [rec_verify_weather_records] else [])
    ++ (if py_contains (lit "accident") loss_type || py_contains (lit "collision") loss_type
        then [rec_request_accident_report] else []) in
  (* Rule 7 *)
  let rule7 :=
    match missing_info with
    | [] => []
    | _ => [rec_collect_missing_information missing_info]
    end in
  (* Rule 8 *)
  let rule8 :=
    if py_contains (lit "today") (py_lower incident_date)
       || py_contains (lit "yesterday") (py_lower incident_date)
    then [rec_priority_processing] else [] in
  let recommendations := rule1 ++ rule234 ++ rule5 ++ rule6 ++ rule7 ++ rule8 in
  match recommendations with
  | [] => [rec_standard_claim_processing]
  | _ => recommendations
  end.

(** Whether some recommendation of [recs] has the action [a]. *)
Definition has_action (a : pystr) (recs : list recommendation) : bool :=
  existsb (fun r => bool_decide (action r = a)) recs.

(** The text [parse_estimated_loss] is specified by: the known currency
    symbols (rupee, dollar, euro) are removed, and the rest as in the code. *)
Definition known_currency_symbols : list pystr := [[8377%N]; [36%N]; [8364%N]].

Definition parse_estimated_loss_spec (loss_str : pystr) : Q :=
  if (match loss_str with [] => true | _ => false end)
     || py_in (py_lower loss_str) [lit "not specified"; lit "unknown"; lit "n/a"]
  then 0
  else
    let cleaned := fold_left (fun t sym => py_replace t sym []) known_currency_symbols
                     (py_lower loss_str) in
    let cleaned := py_replace (py_replace (py_replace cleaned
                     (lit "over") []) (lit "around") []) (lit "approximately") [] in
    let cleaned := py_strip (py_replace cleaned (lit ",") []) in
    match findall_numbers cleaned with
    | t :: _ => token_value t
    | [] => 0
    end.

(** ** extract_keywords_from_explanation *)

Definition is_quote (c : N) : bool := ((c =? 39) || (c =? 34))%N.

(** The longest prefix of characters other than quotes, and the rest. *)
Fixpoint span_nonquote (s : pystr) : pystr * pystr :=
  match s with
  | [] => ([], [])
  | c :: t =>
      if is_quote c then ([], s)
      else let '(a, b) := span_nonquote t in (c :: a, b)
  end.

(** A match of the pattern [[']([^']+)[']] at the start of [s], where each
    class also holds the double quote: group 1 and the text after the
    match. The middle class is greedy, and giving back characters cannot
    help, since a shorter run is followed by a character that is no quote. *)
Definition match_quoted (s : pystr) : option (pystr * pystr) :=
  match s with
  | q :: t =>
      if is_quote q then
        match span_nonquote t with
        | (g, q' :: r) =>
            match g with
            | [] => None
            | _ :: _ => if is_quote q' then Some (g, r) else None
            end
        | (_, []) => None
        end
      else None
  | [] => None
  end.

(** [re.findall] of that pattern (one group): the scan restarts after each
    match, or one character further when no match starts here. *)
Fixpoint findall_quoted (fuel : nat) (s : pystr) : list pystr :=
  match fuel with
  | O => []
  | S f =>
      match s with
      | [] => []
      | _ :: t =>
          match match_quoted s with
          | Some (g, r) => g :: findall_quoted f r
          | None => findall_quoted f t
          end
      end
  end.

Definition extract_keywords_from_explanation (explanation : pystr) : list pystr :=
  findall_quoted (length explanation) explanation.

(** A one-pass reading of the same scan: outside a span a quote opens one;
    inside, a quote closes a non-empty span (emitting it) and reopens an
    empty one; a span still open at the end is dropped. *)
Inductive quote_state := Outside | Inside (acc : pystr).

Fixpoint quote_scan (st : quote_state) (s : pystr) : list pystr :=
  match s with
  | [] => []
  | c :: t =>
      match st with
      | Outside => if is_quote c then quote_scan (Inside []) t else quote_scan Outside t
      | Inside acc =>
          if is_quote c then
            match acc with
            | [] => quote_scan (Inside []) t
            | _ :: _ => acc :: quote_scan Outside t
            end
          else quote_scan (Inside (acc ++ [c])) t
      end
  end.

(** ** highlight_keywords_in_text *)

(** Looks a code point up in [ignorecase_fixes]. *)
Definition fixes_of (lo : N) : option (list N) :=
  option_map snd (List.find (fun '(k, _) => (k =? lo)%N) ignorecase_fixes).

(** Whether the text character [x] matches the pattern literal [p] under
    [re.IGNORECASE] ([re._compiler._compile]): an uncased literal matches
    itself only; a cased one matches every character whose lower case is
    its lower case [lo] ([LITERAL_UNI_IGNORE]), or one of the extra cases of
    [lo] where there are any ([IN_UNI_IGNORE]). *)
Definition literal_match (p x : N) : bool :=
  if unicode_iscased p then
    let lo := py_lower_char p in
    match fixes_of lo with
    | None => (py_lower_char x =? lo)%N
    | Some fs => existsb (N.eqb (py_lower_char x)) (lo :: fs)
    end
  else (x =? p)%N.

(** Whether [re.escape(k)] with [re.IGNORECASE] matches at the start of [s]. *)
Fixpoint ci_prefix (k s : pystr) : bool :=
  match k, s with
  | [], _ => true
  | p :: k', x :: s' => literal_match p x && ci_prefix k' s'
  | _ :: _, [] => false
  end.

Definition span_open : pystr :=
  qlit "<span style=~background-color: #ffeb3b; color: #000000; padding: 2px 4px; border-radius: 3px; font-weight: bold;~>".

Definition span_close : pystr := lit "</span>".

(** The replacement of the lambda for the matched text [m.group()]. *)
Definition mark (m : pystr) : pystr := span_open ++ m ++ span_close.

(** [pattern.sub] for a non-empty keyword [k]: left to right, a match is
    replaced and scanning resumes after it; [skip] counts the characters of
    the last match still to pass over. *)
Fixpoint sub_ci_go (k : pystr) (skip : nat) (s : pystr) : pystr :=
  match s with
  | [] => []
  | c :: t =>
      match skip with
      | S n => sub_ci_go k n t
      | O =>
          if ci_prefix k s then mark (firstn (length k) s) ++ sub_ci_go k (pred (length k)) t
          else c :: sub_ci_go k O t
      end
  end.

(** [pattern.sub]: the empty keyword matches the empty string before every
    character and at the end. *)
Definition sub_ci (k s : pystr) : pystr :=
  match k with
  | [] => flat_map (fun c => mark [] ++ [c]) s ++ mark []
  | _ :: _ => sub_ci_go k O s
  end.

(** Stable insertion by length: [x] goes before the first element at least
    as long. *)
Fixpoint insert_by_len (x : pystr) (l : list pystr) : list pystr :=
  match l with
  | [] => [x]
  | y :: l' => if (length x <=? length y)%nat then x :: l else y :: insert_by_len x l'
  end.

(** [sorted(l, key=len)]: a stable sort by ascending length. *)
Definition sort_by_len (l : list pystr) : list pystr := fold_right insert_by_len [] l.

(** [sorted(keywords, key=len, reverse=True)]: CPython reverses the list,
    sorts it stably and reverses the result, so that equal keys keep their
    order. *)
Definition sorted_keywords (keywords : list pystr) : list pystr :=
  rev (sort_by_len (rev keywords)).

(** Order by length. *)
Definition len_le (a b : pystr) : Prop := (length a <= length b)%nat.

Definition highlight_keywords_in_text (text : pystr) (keywords : list pystr) : pystr :=
  fold_left (fun highlighted_text keyword => sub_ci keyword highlighted_text)
    (sorted_keywords keywords) text.

(** A highlighted text read as pieces: characters left as they are and
    matched substrings wrapped in a span. *)
Inductive piece := Plain (c : N) | Marked (m : pystr).

Definition erase (ps : list piece) : pystr :=
  flat_map (fun p => match p with Plain c => [c] | Marked m => m end) ps.

Definition render (ps : list piece) : pystr :=
  flat_map (fun p => match p with Plain c => [c] | Marked m => mark m end) ps.

(** ** Display helpers of [utils.py] *)

(** [{k: v, ...}.get(key, default)] on a dict literal with distinct keys. *)
Fixpoint assoc_get {A} (kvs : list (pystr * A)) (key : pystr) (default : A) : A :=
  match kvs with
  | [] => default
  | (k, v) :: r => if bool_decide (k = key) then v else assoc_get r key default
  end.

Definition default_gray : pystr := lit "#757575".

Definition get_severity_color (severity : pystr) : pystr :=
  assoc_get [(lit "low", lit "#4CAF50"); (lit "medium", lit "#FF9800");
             (lit "high", lit "#F44336"); (lit "critical", lit "#9C27B0")]
    (py_lower severity) default_gray.

Definition get_confidence_color (confidence : pystr) : pystr :=
  assoc_get [(lit "low", lit "#F44336"); (lit "medium", lit "#FF9800");
             (lit "high", lit "#4CAF50")]
    (py_lower confidence) default_gray.

Definition get_confidence_percentage (confidence : pystr) : nat :=
  assoc_get [(lit "low", 40%nat); (lit "medium", 70%nat); (lit "high", 95%nat)]
    (py_lower confidence) 50%nat.

Definition get_priority_color (priority : pystr) : pystr :=
  assoc_get [(lit "critical", lit "#D32F2F"); (lit "high", lit "#F57C00");
             (lit "medium", lit "#FBC02D"); (lit "low", lit "#388E3C")]
    (py_lower priority) default_gray.

(** [str.split()] without arguments: the maximal runs of non-whitespace
    characters; [cur] holds the current run, reversed. *)
Fixpoint split_go (s : pystr) (cur : pystr) : list pystr :=
  match s with
  | [] => match cur with [] => [] | _ :: _ => [rev cur] end
  | c :: t =>
      if py_isspace c
      then match cur with [] => split_go t [] | _ :: _ => rev cur :: split_go t [] end
      else split_go t (c :: cur)
  end.

Definition py_split (s : pystr) : list pystr := split_go s [].

(** [(word_count, char_count)] *)
Definition calculate_token_count (text : pystr) : nat * nat :=
  let words := length (py_split text) in
  let chars := length text in
  (words, chars).

Definition get_structure_quality_indicator (extracted_data : record) : pystr :=
  let '(_, _, completeness) := calculate_completeness_score extracted_data in
  if Qle_bool 90 completeness then [63743; 252; 252; 162]%N ++ lit " Excellent"
  else if Qle_bool 70 completeness then [63743; 252; 252; 176]%N ++ lit " Good"
  else if Qle_bool 50 completeness then [63743; 252; 252; 8224]%N ++ lit " Fair"
  else [63743; 252; 238; 165]%N ++ lit " Poor".

(** The dict [create_comparison_metrics] returns, key by key. *)
Record comparison_metrics := {
  word_count : nat;
  char_count : nat;
  fields_filled : nat;
  fields_total : nat;
  completeness_percentage : Q;
  structure_quality : pystr;
  confidence : pystr;
  confidence_percentage : nat
}.

Definition create_comparison_metrics (claim_text : pystr) (extracted_data : record)
  : comparison_metrics :=
  let '(words, chars) := calculate_token_count claim_text in
  let '(filled, total, completeness_pct) := calculate_completeness_score extracted_data in
  let structure_quality := get_structure_quality_indicator extracted_data in
  let confidence := dict_get extracted_data (lit "confidence") (lit "Unknown") in
  let confidence_pct := get_confidence_percentage confidence in
  {| word_count := words; char_count := chars; fields_filled := filled;
     fields_total := total; completeness_percentage := completeness_pct;
     structure_quality := structure_quality; confidence := confidence;
     confidence_percentage := confidence_pct |}.

(** ** format_recommendations_compact *)

(** A literal in which [^] stands for a newline and [~] for a double quote. *)
Definition tlit (s : string) : pystr :=
  map (fun c => if (c =? 94)%N then NL else if (c =? 126)%N then DQUOTE else c) (lit s).

(** The dict [generate_recommendations] builds for a recommendation. *)
Definition rec_to_dict (r : recommendation) : record :=
  <[lit "action" := action r]> (<[lit "priority" := priority r]>
  (<[lit "category" := category r]> (<[lit "icon" := icon r]>
  (<[lit "reasoning" := reasoning r]> ∅)))).

Definition priority_order : list pystr :=
  [lit "Critical"; lit "High"; lit "Medium"; lit "Low"].

(** [priority_groups] before the loop. *)
Definition initial_priority_groups : gmap pystr (list record) :=
  <[lit "Critical" := []]> (<[lit "High" := []]> (<[lit "Medium" := []]>
  (<[lit "Low" := []]> ∅))).

(** One turn of the grouping loop. *)
Definition add_to_group (priority_groups : gmap pystr (list record)) (rec : record)
  : gmap pystr (list record) :=
  let priority := dict_get rec (lit "priority") (lit "Medium") in
  match priority_groups !! priority with
  | Some recs => <[priority := recs ++ [rec]]> priority_groups
  | None => priority_groups
  end.

Definition group_recommendations (recommendations : list record) : gmap pystr (list record) :=
  fold_left add_to_group recommendations initial_priority_groups.

(** [icon_map.get(priority, ...)] *)
Definition priority_icon (priority : pystr) : pystr :=
  assoc_get [(lit "Critical", [63743; 252; 246; 174]%N);
             (lit "High", [8218; 246; 8224; 212; 8719; 232]%N);
             (lit "Medium", [63743; 252; 236; 227]%N);
             (lit "Low", [8218; 209; 960; 212; 8719; 232]%N)]
    priority [63743; 252; 236; 227]%N.

(** The header f-string of a priority group. *)
Definition group_header (color icon_text priority : pystr) (count : nat) : pystr :=
  tlit "^        <div style=~margin: 1rem 0;~>^            <div style=~^                background-color: "
  ++ color ++ tlit "15;^                border-left: 4px solid "
  ++ color ++ tlit ";^                padding: 0.5rem 1rem;^                border-radius: 4px 4px 0 0;^                font-weight: 600;^                color: "
  ++ color ++ tlit ";^            ~>^                "
  ++ icon_text ++ lit " " ++ priority ++ lit " Priority ("
  ++ str_of_nat count
  ++ tlit ")^            </div>^            <ul style=~^                margin: 0;^                padding: 1rem 1rem 1rem 2.5rem;^                background-color: #f9f9f9;^                border-radius: 0 0 4px 4px;^                list-style: none;^            ~>^        ".

(** The list item of one recommendation. *)
Definition rec_item (rec : record) : pystr :=
  let icon_text := dict_get rec (lit "icon") [8218; 196; 162]%N in
  let action_text := dict_get rec (lit "action") (lit "Unknown action") in
  tlit "<li style=~padding: 0.3rem 0; color: #333;~><span style=~margin-right: 0.5rem;~>"
  ++ icon_text ++ lit "</span>" ++ action_text ++ lit "</li>".

Definition no_recommendations_html : pystr :=
  lit "<p style='color: #666;'>No recommendations available.</p>".

(** The loop over the priorities; [priority_groups[priority]] always
    succeeds, as every priority of the loop is a key from the start. *)
Definition format_recommendations_compact (recommendations : list record) : pystr :=
  match recommendations with
  | [] => no_recommendations_html
  | _ :: _ =>
      let priority_groups := group_recommendations recommendations in
      fold_left (fun html priority =>
        let recs := match priority_groups !! priority with Some l => l | None => [] end in
        match recs with
        | [] => html
        | _ :: _ =>
            let color := get_priority_color priority in
            let html := html ++ group_header color (priority_icon priority) priority (length recs) in
            let html := fold_left (fun html rec => html ++ rec_item rec) recs html in
            html ++ lit "</ul></div>"
        end) priority_order []
  end.

(** ** [prompts.py]: the prompt of the extraction call *)

Definition SYSTEM_PROMPT : pystr :=
  py_join [NL] [
    tlit "You are an expert insurance claims analyst AI assistant. Your role is to extract structured information from unstructured insurance claim descriptions.";
    [];
    tlit "You must analyze the claim text carefully and extract the following information:";
    tlit "- loss_type: The type of loss (e.g., Accident, Fire, Flood, Theft, Water Damage, Storm, Vandalism, etc.)";
    tlit "- severity: The severity level (Low, Medium, High, Critical)";
    tlit "- affected_assets: What was damaged or affected (be specific)";
    tlit "- estimated_loss: The estimated monetary loss mentioned (include currency if mentioned, or ~Not specified~)";
    tlit "- incident_date: When the incident occurred (extract date/time if mentioned, or ~Not specified~)";
    tlit "- location: Where the incident occurred (be specific, or ~Not specified~)";
    tlit "- confidence: Your confidence level in this extraction (Low, Medium, High)";
    tlit "- extraction_explanation: A brief explanation of why you classified it this way, highlighting key words/phrases that influenced your decision";
    [];
    tlit "Return ONLY a valid JSON object with these exact field names. Do not include any other text, markdown formatting, or code blocks."].

Definition FEW_SHOT_EXAMPLES : pystr :=
  py_join [NL] [
    [];
    [];
    tlit "EXAMPLE 1:";
    tlit "Input: ~Customer reported minor accident on rear bumper, scratches only, no injuries, estimated cost " ++ [8377%N] ++ tlit "7,000. Incident happened yesterday at parking lot near office.~";
    [];
    tlit "Output:";
    tlit "{";
    tlit "  ~loss_type~: ~Accident~,";
    tlit "  ~severity~: ~Low~,";
    tlit "  ~affected_assets~: ~Rear bumper (scratches)~,";
    tlit "  ~estimated_loss~: ~" ++ [8377%N] ++ tlit "7,000~,";
    tlit "  ~incident_date~: ~Yesterday~,";
    tlit "  ~location~: ~Parking lot near office~,";
    tlit "  ~confidence~: ~High~,";
    tlit "  ~extraction_explanation~: ~Classified as 'Accident' with 'Low' severity due to keywords 'minor accident' and 'scratches only'. No injuries reported. Clear cost estimate provided. Location and timeframe specified.~";
    tlit "}";
    [];
    tlit "EXAMPLE 2:";
    tlit "Input: ~Vehicle submerged during flood, engine not starting, electrical damage suspected. Major repairs needed.~";
    [];
    tlit "Output:";
    tlit "{";
    tlit "  ~loss_type~: ~Flood~,";
    tlit "  ~severity~: ~Critical~,";
    tlit "  ~affected_assets~: ~Vehicle engine, electrical system~,";
    tlit "  ~estimated_loss~: ~Not specified~,";
    tlit "  ~incident_date~: ~Not specified~,";
    tlit "  ~location~: ~Not specified~,";
    tlit "  ~confidence~: ~High~,";
    tlit "  ~extraction_explanation~: ~Classified as 'Flood' due to keyword 'submerged during flood'. Severity marked 'Critical' because of non-starting engine and electrical damage, indicating extensive damage requiring major repairs.~";
    tlit "}";
    [];
    tlit "EXAMPLE 3:";
    tlit "Input: ~Fire reported in kitchen at 2:00 AM on Oct 15. Cabinets, microwave, and wall damaged. Customer estimates around $5000 damage. Fire department attended.~";
    [];
    tlit "Output:";
    tlit "{";
    tlit "  ~loss_type~: ~Fire~,";
    tlit "  ~severity~: ~High~,";
    tlit "  ~affected_assets~: ~Kitchen cabinets, microwave, wall~,";
    tlit "  ~estimated_loss~: ~$5000~,";
    tlit "  ~incident_date~: ~Oct 15, 2:00 AM~,";
    tlit "  ~location~: ~Kitchen~,";
    tlit "  ~confidence~: ~High~,";
    tlit "  ~extraction_explanation~: ~Classified as 'Fire' with 'High' severity due to multiple damaged items (cabinets, microwave, wall) and fire department involvement. Specific date, time, location, and cost estimate provided.~";
    tlit "}";
    [];
    tlit "EXAMPLE 4:";
    tlit "Input: ~Customer called about water leakage from ceiling damaging furniture below. Not sure when it started, probably last week.~";
    [];
    tlit "Output:";
    tlit "{";
    tlit "  ~loss_type~: ~Water Damage~,";
    tlit "  ~severity~: ~Medium~,";
    tlit "  ~affected_assets~: ~Furniture, ceiling~,";
    tlit "  ~estimated_loss~: ~Not specified~,";
    tlit "  ~incident_date~: ~Approximately last week~,";
    tlit "  ~location~: ~Not specified~,";
    tlit "  ~confidence~: ~Medium~,";
    tlit "  ~extraction_explanation~: ~Classified as 'Water Damage' due to 'water leakage from ceiling'. Severity marked 'Medium' as multiple items affected but no critical damage mentioned. Confidence is 'Medium' due to uncertainty about start date and lack of cost estimate.~";
    tlit "}";
    []].

Definition build_prompt (claim_description : pystr) : pystr :=
  SYSTEM_PROMPT ++ tlit "^^" ++ FEW_SHOT_EXAMPLES
  ++ tlit "^^Now analyze this new claim:^^Input: ~" ++ claim_description
  ++ tlit "~^^Output:".

(** ** [app.py]: process_claim *)

(** What [model.generate_content(...)] followed by [response.text] gives:
    the text of the response, or an exception with its [str(e)]. *)
Inductive api_response := ApiText (text : pystr) | ApiError (message : pystr).

Definition api_error_mapping (details : pystr) : pyval :=
  PDict [(lit "error", PStr (lit "API Error")); (lit "details", PStr details)].

(** [process_claim], for a model given as the function from the prompt to
    the response; [except Exception] catches the errors of the call and
    the exceptions [parse_gemini_response] lets through. *)
Definition process_claim (generate_content : pystr -> api_response) (claim_text : pystr) : pyval :=
  let prompt := build_prompt claim_text in
  match generate_content prompt with
  | ApiError message => api_error_mapping message
  | ApiText text =>
      match parse_gemini_response text with
      | Ret extracted_data => extracted_data
      | Raise e => api_error_mapping (exn_str e)
      end
  end.

(** ** [database.py]: adapt_placeholder *)

(** [adapt_placeholder], for the database type [get_database_config()]
    returns. *)
Definition adapt_placeholder (db_type : pystr) (query : pystr) : pystr :=
  if bool_decide (db_type = lit "postgresql") then py_replace query (lit "?") (lit "%s")
  else query.

(** [rec.get('priority', 'Medium') == priority]: membership in a priority
    group of [format_recommendations_compact]. *)
Definition in_group (priority : pystr) (rec : record) : bool :=
  bool_decide (dict_get rec (lit "priority") (lit "Medium") = priority).

(** [query.replace('?', '%s')] written as a map over the characters. *)
Definition to_pg (s : pystr) : pystr :=
  flat_map (fun x => if (63 =? x)%N then lit "%s" else [x]) s.

(** ** Helpers of the proofs *)

(** The invariants of a list of recommendations checked below: distinct
    actions, between 1 and 13 entries, every priority one of the four of
    [format_recommendations_compact] and every category one of five, and
    the default action only on its own. *)
Definition recommendation_invariants (recs : list recommendation) : bool :=
  bool_decide (NoDup (map action recs))
  && (1 <=? length recs)%nat && (length recs <=? 13)%nat
  && forallb (fun r => py_in (priority r) priority_order
                       && py_in (category r) [lit "Verification"; lit "Communication";
                                              lit "Processing"; lit "Documentation";
                                              lit "Administrative"]) recs
  && (negb (has_action (lit "Standard Claim Processing") recs)
      || bool_decide (map action recs = [lit "Standard Claim Processing"])).

(** Every backtick of [w] has a neighbour on each side inside [w], and
    neither neighbour is a newline. *)
Definition bt_ok (w : pystr) : Prop :=
  forall x y, w = x ++ BACKTICK :: y ->
  (exists x' a, x = x' ++ [a] /\ a <> NL) /\ (exists b y', y = b :: y' /\ b <> NL).

(** A string holding no newline. *)
Definition no_nl (m : pystr) : Prop := Forall (fun c => c <> NL) m.

(** The part of the input a successful scan consumes. *)
Definition consumes_bt_ok (sc : pystr -> Json.scan pyval) : Prop :=
  forall s v r, sc s = inr (v, r) -> exists pre, s = pre ++ r /\ bt_ok pre.

(** The character before the end of [x], or [prev] when [x] is empty. *)
Fixpoint last_or (prev : option N) (x : pystr) : option N :=
  match x with
  | [] => prev
  | a :: x' => last_or (Some a) x'
  end.

(* ================================================================== *)
(** * Theorems *)
(* ================================================================== *)

(** ** Backticks in decodable JSON text *)

Ltac list_eq := repeat (simpl; rewrite <- ?app_assoc); reflexivity.

Section Backticks.

Lemma bt_ok_app (a b : pystr) : bt_ok a -> bt_ok b -> bt_ok (a ++ b).
Proof.
  intros Ha Hb x y E.
  apply app_eq_app in E as [l [[E1 E2]|[E1 E2]]].
  - (* the backtick lies in [a], or starts [b] *)
    destruct l as [|c l].
    + simpl in E2. symmetry in E2.
      destruct (Hb [] y E2) as [[x' [a' [Hx _]]] _].
      destruct x'; discriminate.
    + simpl in E2. injection E2 as Ec E2'. subst c a y.
      destruct (Ha x l eq_refl) as [Hx [b' [y' [Hl Hb']]]].
      split; [exact Hx|]. subst l. exists b', (y' ++ b). auto.
  - (* the backtick lies in [b] *)
    destruct (Hb l y E2) as [[x' [a' [Hx Ha']]] Hy].
    split; [|exact Hy]. subst x l. exists (a ++ x'), a'.
    rewrite app_assoc. auto.
Qed.

Lemma bt_ok_noNL (w : pystr) :
  ~ In NL w -> (forall y, w <> BACKTICK :: y) -> (forall x, w <> x ++ [BACKTICK]) ->
  bt_ok w.
Proof.
  intros Hnl Hhd Htl x y E. split.
  - destruct (exists_last (l := x)) as [x' [a Hx]].
    + intros ->. apply (Hhd y). exact E.
    + exists x', a. split; [exact Hx|]. intros ->. apply Hnl.
      rewrite E, Hx. apply in_or_app. left. apply in_or_app. right. left. reflexivity.
  - destruct y as [|b y'].
    + exfalso. exact (Htl x E).
    + exists b, y'. split; [reflexivity|]. intros ->. apply Hnl.
      rewrite E. apply in_or_app. right. right. left. reflexivity.
Qed.

Lemma bt_ok_nobt (w : pystr) : ~ In BACKTICK w -> bt_ok w.
Proof.
  intros H x y E. exfalso. apply H. rewrite E. apply in_or_app. right. left. reflexivity.
Qed.

Lemma bt_ok_string (m : pystr) : ~ In NL m -> bt_ok (DQUOTE :: m ++ [DQUOTE]).
Proof.
  intros Hm. apply bt_ok_noNL.
  - intros [E|E]; [discriminate|]. apply in_app_or in E as [E|[E|[]]]; auto. discriminate.
  - intros y E. discriminate.
  - intros x E. rewrite app_comm_cons in E. apply app_inj_tail in E as [_ E]. discriminate.
Qed.

Lemma drop_while_split (p : N -> bool) (s : pystr) :
  exists w, s = w ++ drop_while p s /\ Forall (fun c => p c = true) w.
Proof.
  induction s as [|c s IH]; simpl.
  - exists []. auto.
  - destruct (p c) eqn:E.
    + destruct IH as [w [Hw Hf]]. exists (c :: w). simpl. rewrite <- Hw. auto.
    + exists []. auto.
Qed.

Lemma Forall_not_in (p : N -> bool) (w : pystr) (c : N) :
  p c = false -> Forall (fun c => p c = true) w -> ~ In c w.
Proof.
  intros Hc Hw Hin. rewrite List.Forall_forall in Hw. rewrite (Hw c Hin) in Hc. discriminate.
Qed.

Lemma skip_ws_split (s : pystr) :
  exists w, s = w ++ Json.skip_ws s /\ ~ In BACKTICK w.
Proof.
  destruct (drop_while_split Json.json_ws s) as [w [Hw Hf]].
  exists w. split; [exact Hw|]. eapply Forall_not_in; [|exact Hf]. reflexivity.
Qed.

Lemma prefixb_app (p s : pystr) : prefixb p s = true -> s = p ++ skipn (length p) s.
Proof.
  revert s. induction p as [|a p IH]; intros s H; simpl; [reflexivity|].
  destruct s as [|b s]; simpl in H; [discriminate|].
  apply andb_prop in H as [H1 H2]. apply N.eqb_eq in H1. subst b.
  f_equal. apply IH. exact H2.
Qed.

Lemma span_digits_split (s d r : pystr) :
  Json.span_digits s = (d, r) -> s = d ++ r /\ Forall (fun c => Json.is_digit c = true) d.
Proof.
  revert d r. induction s as [|c s IH]; intros d r H; simpl in H.
  - injection H as <- <-. auto.
  - destruct (Json.is_digit c) eqn:Ec.
    + destruct (Json.span_digits s) as [d' r'] eqn:E. injection H as <- <-.
      destruct (IH d' r' eq_refl) as [-> Hf]. auto.
    + injection H as <- <-. auto.
Qed.

Lemma digits_nobt (d : pystr) :
  Forall (fun c => Json.is_digit c = true) d -> ~ In BACKTICK d.
Proof. apply Forall_not_in. reflexivity. Qed.

Lemma match_number_split (s : pystr) (m : Json.number_match) :
  Json.match_number s = Some m ->
  exists pre, s = pre ++ Json.nm_rest m /\ ~ In BACKTICK pre.
Proof.
  unfold Json.match_number. intros H.
  destruct (match s with
            | c :: r => if (c =? 45)%N then (true, r) else (false, s)
            | [] => (false, s) end) as [neg s1] eqn:Es.
  assert (Hs1 : exists p0, s = p0 ++ s1 /\ ~ In BACKTICK p0).
  { destruct s as [|c r].
    - injection Es as _ <-. exists []. auto.
    - destruct (c =? 45)%N eqn:Ec; injection Es as _ <-.
      + apply N.eqb_eq in Ec. subst c. exists [45%N]. split; [reflexivity|].
        intros [E|[]]. discriminate.
      + exists []. auto. }
  destruct Hs1 as [p0 [Hs Hp0]].
  destruct (Json.match_int s1) as [[ids r1]|] eqn:Ei; [|discriminate].
  destruct (Json.match_frac r1) as [fr r2] eqn:Ef.
  destruct (Json.match_exp r2) as [ex r3] eqn:Ee.
  injection H as <-. simpl.
  (* integer part *)
  assert (H1 : exists p1, s1 = p1 ++ r1 /\ ~ In BACKTICK p1).
  { unfold Json.match_int in Ei. destruct s1 as [|c r]; [discriminate|].
    destruct (c =? 48)%N eqn:E0.
    - injection Ei as <- <-. apply N.eqb_eq in E0. subst c.
      exists [48%N]. split; [reflexivity|]. intros [E|[]]. discriminate.
    - destruct ((49 <=? c) && (c <=? 57))%N eqn:E1; [|discriminate].
      destruct (Json.span_digits r) as [ds r'] eqn:Ed. injection Ei as <- <-.
      apply span_digits_split in Ed as [-> Hd].
      exists (c :: ds). split; [reflexivity|].
      intros [E|E]; [subst c; discriminate|]. exact (digits_nobt ds Hd E). }
  (* fraction *)
  assert (H2 : exists p2, r1 = p2 ++ r2 /\ ~ In BACKTICK p2).
  { unfold Json.match_frac in Ef. destruct r1 as [|p [|d r]].
    - injection Ef as _ <-. exists []. auto.
    - injection Ef as _ <-. exists []. auto.
    - destruct ((p =? 46)%N && Json.is_digit d) eqn:Epd.
      + destruct (Json.span_digits (d :: r)) as [ds r'] eqn:Ed. injection Ef as _ <-.
        apply andb_prop in Epd as [Ep _]. apply N.eqb_eq in Ep. subst p.
        apply span_digits_split in Ed as [Ed Hd]. rewrite Ed.
        exists (46%N :: ds). split; [reflexivity|].
        intros [E|E]; [discriminate|]. exact (digits_nobt ds Hd E).
      + injection Ef as _ <-. exists []. auto. }
  (* exponent *)
  assert (H3 : exists p3, r2 = p3 ++ r3 /\ ~ In BACKTICK p3).
  { unfold Json.match_exp in Ee. destruct r2 as [|e r].
    - injection Ee as _ <-. exists []. auto.
    - destruct ((e =? 101)%N || (e =? 69)%N) eqn:Eev; [|injection Ee as _ <-; exists []; auto].
      assert (Hsg : exists neg' r1', (match r with
          | sg :: r' => if (sg =? 45)%N then (true, r')
                        else if (sg =? 43)%N then (false, r') else (false, r)
          | [] => (false, r) end) = (neg', r1') /\
          exists q, r = q ++ r1' /\ ~ In BACKTICK q).
      { destruct r as [|sg r'].
        - exists false, []. split; [reflexivity|]. exists []. auto.
        - destruct (sg =? 45)%N eqn:E45.
          + exists true, r'. split; [reflexivity|]. apply N.eqb_eq in E45. subst sg.
            exists [45%N]. split; [reflexivity|]. intros [E|[]]. discriminate.
          + destruct (sg =? 43)%N eqn:E43.
            * exists false, r'. split; [reflexivity|]. apply N.eqb_eq in E43. subst sg.
              exists [43%N]. split; [reflexivity|]. intros [E|[]]. discriminate.
            * exists false, (sg :: r'). split; [reflexivity|]. exists []. auto. }
      destruct Hsg as [neg' [r1' [Esg [q [Hq Hqn]]]]]. rewrite Esg in Ee.
      destruct (Json.span_digits r1') as [ds r2'] eqn:Ed.
      apply span_digits_split in Ed as [Ed Hd].
      destruct ds as [|d0 ds']; injection Ee as _ <-.
      + exists []. auto.
      + exists (e :: q ++ d0 :: ds'). split.
        * rewrite Hq, Ed. simpl. rewrite <- app_assoc. reflexivity.
        * apply orb_prop in Eev.
          intros [E|E]; [subst e; destruct Eev as [E'|E']; discriminate|].
          apply in_app_or in E as [E|E]; [exact (Hqn E)|].
          exact (digits_nobt _ Hd E). }
  destruct H1 as [p1 [-> Hp1]]. destruct H2 as [p2 [-> Hp2]].
  destruct H3 as [p3 [-> Hp3]].
  exists (p0 ++ p1 ++ p2 ++ p3). split.
  - rewrite Hs. rewrite !app_assoc. reflexivity.
  - intros E. repeat (apply in_app_or in E as [E|E]); auto.
Qed.


Lemma no_nl_not_in (m : pystr) : no_nl m -> ~ In NL m.
Proof.
  intros H Hin. unfold no_nl in H. rewrite List.Forall_forall in H. exact (H NL Hin eq_refl).
Qed.

Lemma hex_val_nl : Json.hex_val NL = None.
Proof. reflexivity. Qed.

Lemma hex4_split (s : pystr) (u : N) (r : pystr) :
  Json.hex4 s = Some (u, r) ->
  exists a b c d, s = [a; b; c; d] ++ r /\ no_nl [a; b; c; d].
Proof.
  unfold Json.hex4. destruct s as [|a [|b [|c [|d r']]]]; try discriminate.
  destruct (Json.hex_val a) eqn:Ea; [|discriminate].
  destruct (Json.hex_val b) eqn:Eb; [|discriminate].
  destruct (Json.hex_val c) eqn:Ec; [|discriminate].
  destruct (Json.hex_val d) eqn:Ed; [|discriminate].
  intros H. injection H as _ <-. exists a, b, c, d. split; [reflexivity|].
  repeat constructor; intros ->; rewrite hex_val_nl in *; discriminate.
Qed.

(** The raw characters of a scanned string literal hold no newline. *)
Lemma scanstring_go_split (fuel : nat) (begin acc s k r : pystr) :
  Json.scanstring_go fuel begin acc s = inr (k, r) ->
  exists m, s = m ++ DQUOTE :: r /\ no_nl m.
Proof.
  revert acc s. induction fuel as [|f IH]; intros acc s H; simpl in H; [discriminate|].
  destruct s as [|c s0]; [discriminate|].
  destruct (c =? DQUOTE)%N eqn:Eq.
  { injection H as _ <-. apply N.eqb_eq in Eq. subst c. exists []. split; constructor. }
  destruct (c =? BACKSLASH)%N eqn:Eb.
  - apply N.eqb_eq in Eb. subst c.
    destruct s0 as [|e r']; [discriminate|].
    assert (Hbs : BACKSLASH <> NL) by discriminate.
    destruct (e =? 117)%N eqn:Eu.
    + apply N.eqb_eq in Eu. subst e.
      destruct (Nat.ltb (length r') 5); [discriminate|].
      destruct (Json.hex4 r') as [[u r'']|] eqn:Eh; [|discriminate].
      apply hex4_split in Eh as [a [b [c [d [-> Hh]]]]].
      assert (Hpre : forall m, no_nl m ->
                no_nl (BACKSLASH :: 117%N :: [a; b; c; d] ++ m)).
      { intros m Hm. constructor; [exact Hbs|]. constructor; [discriminate|].
        apply Forall_app. auto. }
      assert (Hfin : forall m, r'' = m ++ DQUOTE :: r -> no_nl m ->
                exists m', BACKSLASH :: 117%N :: [a; b; c; d] ++ r'' = m' ++ DQUOTE :: r
                           /\ no_nl m').
      { intros m Hr Hm. exists (BACKSLASH :: 117%N :: [a; b; c; d] ++ m).
        split; [rewrite Hr; reflexivity|apply Hpre; exact Hm]. }
      destruct (((55296 <=? u) && (u <=? 56319))%N && Nat.ltb 6 (length r'')).
      * destruct r'' as [|b0 [|v r3]];
          try (apply IH in H as [m [Hr Hm]]; exact (Hfin m Hr Hm)).
        destruct ((b0 =? BACKSLASH)%N && (v =? 117)%N) eqn:Ebv;
          [|apply IH in H as [m [Hr Hm]]; exact (Hfin m Hr Hm)].
        apply andb_prop in Ebv as [Eb0 Ev]. apply N.eqb_eq in Eb0, Ev. subst b0 v.
        destruct (Json.hex4 r3) as [[u2 r4]|] eqn:Eh2; [|discriminate].
        destruct ((56320 <=? u2) && (u2 <=? 57343))%N;
          [|apply IH in H as [m [Hr Hm]]; exact (Hfin m Hr Hm)].
        apply hex4_split in Eh2 as [a2 [b2 [c2 [d2 [Er3 Hh2]]]]].
        apply IH in H as [m [Hr Hm]].
        apply Hfin with (m := BACKSLASH :: 117%N :: [a2; b2; c2; d2] ++ m).
        -- rewrite Er3, Hr. reflexivity.
        -- constructor; [exact Hbs|]. constructor; [discriminate|].
           apply Forall_app. auto.
      * apply IH in H as [m [Hr Hm]]. exact (Hfin m Hr Hm).
    + destruct (Json.simple_escape e) eqn:Ese; [|discriminate].
      apply IH in H as [m [-> Hm]].
      exists (BACKSLASH :: e :: m). split; [reflexivity|].
      constructor; [exact Hbs|]. constructor; [|exact Hm].
      intros ->. discriminate.
  - destruct (c <=? 31)%N eqn:Ec; [discriminate|].
    apply IH in H as [m [-> Hm]].
    exists (c :: m). split; [reflexivity|]. constructor; [|exact Hm].
    intros ->. discriminate.
Qed.

Lemma scanstring_split (s r k r' : pystr) :
  Json.scanstring s r = inr (k, r') -> exists m, r = m ++ DQUOTE :: r' /\ no_nl m.
Proof. apply scanstring_go_split. Qed.

Lemma bt_ok_string' (m : pystr) : no_nl m -> bt_ok (DQUOTE :: m ++ [DQUOTE]).
Proof. intros H. apply bt_ok_string, no_nl_not_in, H. Qed.

Lemma bt_ok_char (c : N) : c <> BACKTICK -> bt_ok [c].
Proof. intros H. apply bt_ok_nobt. intros [E|[]]. auto. Qed.

Lemma bt_ok_nil : bt_ok [].
Proof. apply bt_ok_nobt. intros []. Qed.

Ltac bt_pieces :=
  repeat first
    [ apply bt_ok_app
    | apply bt_ok_nobt; assumption
    | apply bt_ok_char; discriminate
    | apply bt_ok_string'; assumption
    | assumption ].

Lemma parse_array_items_bt (sc : pystr -> Json.scan pyval) :
  consumes_bt_ok sc ->
  forall fuel acc s v r, Json.parse_array_items sc fuel acc s = inr (v, r) ->
  exists pre, s = pre ++ r /\ bt_ok pre.
Proof.
  intros Hsc fuel. induction fuel as [|f IH]; intros acc s v r H; simpl in H; [discriminate|].
  destruct (sc s) as [e|[v0 r0]] eqn:Es; simpl in H; [discriminate|].
  apply Hsc in Es as [p0 [-> Hp0]].
  destruct (skip_ws_split r0) as [w0 [Hw0 Hn0]].
  destruct (Json.skip_ws r0) as [|c r'] eqn:Ews; [discriminate|].
  destruct (c =? 93)%N eqn:E93.
  - injection H as _ <-. apply N.eqb_eq in E93. subst c.
    exists (p0 ++ w0 ++ [93%N]). rewrite Hw0. split.
    + list_eq.
    + bt_pieces.
  - destruct (c =? 44)%N eqn:E44; [|discriminate].
    apply N.eqb_eq in E44. subst c.
    destruct (skip_ws_split r') as [w1 [Hw1 Hn1]].
    apply IH in H as [p1 [Hp1 Hbt1]].
    exists (p0 ++ w0 ++ [44%N] ++ w1 ++ p1). split.
    + rewrite Hw0, Hw1, Hp1. list_eq.
    + bt_pieces.
Qed.

Lemma parse_array_bt (sc : pystr -> Json.scan pyval) :
  consumes_bt_ok sc -> forall s v r, Json.parse_array sc s = inr (v, r) ->
  exists pre, s = pre ++ r /\ bt_ok pre.
Proof.
  intros Hsc s v r H. unfold Json.parse_array in H.
  destruct (skip_ws_split s) as [w [Hw Hn]].
  destruct (Json.skip_ws s) as [|c r0] eqn:Ews.
  - apply (parse_array_items_bt sc Hsc) in H as [p [Hp Hbt]].
    exists (w ++ p). rewrite Hw, Hp. split; [list_eq|]. bt_pieces.
  - destruct (c =? 93)%N eqn:E93.
    + injection H as _ <-. apply N.eqb_eq in E93. subst c.
      exists (w ++ [93%N]). rewrite Hw. split; [list_eq|].
      bt_pieces.
    + apply (parse_array_items_bt sc Hsc) in H as [p [Hp Hbt]].
      exists (w ++ p). rewrite Hw, Hp. split; [list_eq|]. bt_pieces.
Qed.

Lemma parse_object_items_bt (sc : pystr -> Json.scan pyval) :
  consumes_bt_ok sc ->
  forall fuel acc s v r, Json.parse_object_items sc fuel acc s = inr (v, r) ->
  exists pre, s = pre ++ r /\ bt_ok pre.
Proof.
  intros Hsc fuel. induction fuel as [|f IH]; intros acc s v r H; simpl in H; [discriminate|].
  destruct s as [|q s0]; [discriminate|].
  destruct (q =? DQUOTE)%N eqn:Eq; [|discriminate].
  apply N.eqb_eq in Eq. subst q.
  destruct (Json.scanstring (DQUOTE :: s0) s0) as [e|[k r1]] eqn:Ek; simpl in H; [discriminate|].
  apply scanstring_split in Ek as [m [-> Hm]].
  destruct (skip_ws_split r1) as [w1 [Hw1 Hn1]].
  destruct (Json.skip_ws r1) as [|c r2] eqn:Ews1; [discriminate|].
  destruct (c =? 58)%N eqn:E58; [|discriminate].
  apply N.eqb_eq in E58. subst c.
  destruct (skip_ws_split r2) as [w2 [Hw2 Hn2]].
  destruct (sc (Json.skip_ws r2)) as [e|[v0 r3]] eqn:Ev; simpl in H; [discriminate|].
  apply Hsc in Ev as [p0 [Hp0 Hbt0]].
  destruct (skip_ws_split r3) as [w3 [Hw3 Hn3]].
  destruct (Json.skip_ws r3) as [|d r4] eqn:Ews3; [discriminate|].
  assert (Hkey : bt_ok (DQUOTE :: m ++ [DQUOTE])) by (apply bt_ok_string'; exact Hm).
  destruct (d =? 125)%N eqn:E125.
  - injection H as _ <-. apply N.eqb_eq in E125. subst d.
    exists ((DQUOTE :: m ++ [DQUOTE]) ++ w1 ++ [58%N] ++ w2 ++ p0 ++ w3 ++ [125%N]).
    split.
    + rewrite Hw1, Hw2, Hp0, Hw3. list_eq.
    + bt_pieces.
  - destruct (d =? 44)%N eqn:E44; [|discriminate].
    apply N.eqb_eq in E44. subst d.
    destruct (skip_ws_split r4) as [w4 [Hw4 Hn4]].
    apply IH in H as [p1 [Hp1 Hbt1]].
    exists ((DQUOTE :: m ++ [DQUOTE]) ++ w1 ++ [58%N] ++ w2 ++ p0 ++ w3 ++ [44%N]
            ++ w4 ++ p1).
    split.
    + rewrite Hw1, Hw2, Hp0, Hw3, Hw4, Hp1. list_eq.
    + bt_pieces.
Qed.

Lemma parse_object_bt (sc : pystr -> Json.scan pyval) :
  consumes_bt_ok sc -> forall s v r, Json.parse_object sc s = inr (v, r) ->
  exists pre, s = pre ++ r /\ bt_ok pre.
Proof.
  intros Hsc s v r H. unfold Json.parse_object in H.
  destruct (skip_ws_split s) as [w [Hw Hn]].
  destruct (Json.skip_ws s) as [|c r0] eqn:Ews.
  - apply (parse_object_items_bt sc Hsc) in H as [p [Hp Hbt]].
    exists (w ++ p). rewrite Hw, Hp. split; [list_eq|]. bt_pieces.
  - destruct (c =? 125)%N eqn:E125.
    + injection H as _ <-. apply N.eqb_eq in E125. subst c.
      exists (w ++ [125%N]). rewrite Hw. split; [list_eq|].
      bt_pieces.
    + apply (parse_object_items_bt sc Hsc) in H as [p [Hp Hbt]].
      exists (w ++ p). rewrite Hw, Hp. split; [list_eq|]. bt_pieces.
Qed.

Lemma prefix_lit_bt (p s : pystr) : ~ In BACKTICK p -> prefixb p s = true ->
  exists pre, s = pre ++ skipn (length p) s /\ bt_ok pre.
Proof.
  intros Hp H. exists p. split; [apply prefixb_app, H|]. apply bt_ok_nobt, Hp.
Qed.

Lemma number_value_rest (m : Json.number_match) (v : pyval) (r : pystr) :
  Json.number_value m = inr (v, r) -> r = Json.nm_rest m.
Proof.
  unfold Json.number_value.
  destruct (Json.nm_frac m), (Json.nm_exp m);
    try (intros H; injection H as _ <-; reflexivity).
  destruct (Nat.ltb Json.int_max_str_digits (length (Json.nm_int m))).
  - discriminate.
  - intros H. injection H as _ <-. reflexivity.
Qed.

Lemma scan_once_bt (fuel : nat) : consumes_bt_ok (Json.scan_once fuel).
Proof.
  induction fuel as [|f IH]; intros s v r H; cbn [Json.scan_once] in H;
    [discriminate|].
  destruct s as [|c s0]; cbv beta iota in H; [discriminate|].
  destruct (c =? DQUOTE)%N eqn:Eq.
  { apply N.eqb_eq in Eq. subst c.
    destruct (Json.scanstring (DQUOTE :: s0) s0) as [e|[k r1]] eqn:Ek;
      simpl in H; [discriminate|].
    injection H as _ <-. apply scanstring_split in Ek as [m [-> Hm]].
    exists (DQUOTE :: m ++ [DQUOTE]). split.
    - simpl. rewrite <- app_assoc. reflexivity.
    - apply bt_ok_string'. exact Hm. }
  destruct (c =? 123)%N eqn:E123.
  { apply N.eqb_eq in E123. subst c.
    apply (parse_object_bt _ IH) in H as [p [-> Hp]].
    exists (123%N :: p). split; [reflexivity|].
    apply (bt_ok_app [123%N] p); [apply bt_ok_char; discriminate|exact Hp]. }
  destruct (c =? 91)%N eqn:E91.
  { apply N.eqb_eq in E91. subst c.
    apply (parse_array_bt _ IH) in H as [p [-> Hp]].
    exists (91%N :: p). split; [reflexivity|].
    apply (bt_ok_app [91%N] p); [apply bt_ok_char; discriminate|exact Hp]. }
  destruct (prefixb (lit "null") (c :: s0)) eqn:Enull.
  { injection H as _ <-.
    refine (prefix_lit_bt _ (c :: s0) _ Enull).
    intros E. repeat destruct E as [E|E]; try discriminate; exact E. }
  destruct (prefixb (lit "true") (c :: s0)) eqn:Etrue.
  { injection H as _ <-.
    refine (prefix_lit_bt _ (c :: s0) _ Etrue).
    intros E. repeat destruct E as [E|E]; try discriminate; exact E. }
  destruct (prefixb (lit "false") (c :: s0)) eqn:Efalse.
  { injection H as _ <-.
    refine (prefix_lit_bt _ (c :: s0) _ Efalse).
    intros E. repeat destruct E as [E|E]; try discriminate; exact E. }
  destruct (Json.match_number (c :: s0)) as [m|] eqn:Em.
  { apply number_value_rest in H. subst r.
    apply match_number_split in Em as [pre [Hpre Hn]].
    exists pre. split; [exact Hpre|]. apply bt_ok_nobt, Hn. }
  destruct (prefixb (lit "NaN") (c :: s0)) eqn:Enan.
  { injection H as _ <-.
    refine (prefix_lit_bt _ (c :: s0) _ Enan).
    intros E. repeat destruct E as [E|E]; try discriminate; exact E. }
  destruct (prefixb (lit "Infinity") (c :: s0)) eqn:Einf.
  { injection H as _ <-.
    refine (prefix_lit_bt _ (c :: s0) _ Einf).
    intros E. repeat destruct E as [E|E]; try discriminate; exact E. }
  destruct (prefixb (lit "-Infinity") (c :: s0)) eqn:Eninf.
  { injection H as _ <-.
    refine (prefix_lit_bt _ (c :: s0) _ Eninf).
    intros E. repeat destruct E as [E|E]; try discriminate; exact E. }
  discriminate.
Qed.

(** A text [json.loads] decodes has every backtick inside a string
    literal, with no newline next to it. *)
Lemma loads_ok_bt (c : pystr) (x : pyval) : Json.loads c = Ret x -> bt_ok c.
Proof.
  unfold Json.loads. intros H.
  destruct (startswith c [65279%N]); [discriminate|].
  destruct (Json.scan_once (S (length (Json.skip_ws c))) (Json.skip_ws c))
    as [e|[v r]] eqn:Es.
  { destruct e; discriminate. }
  apply scan_once_bt in Es as [pre [Hpre Hbt]].
  destruct (skip_ws_split c) as [w0 [Hw0 Hn0]].
  destruct (skip_ws_split r) as [w1 [Hw1 Hn1]].
  destruct (Json.skip_ws r) as [|d r'] eqn:Er; [|discriminate].
  rewrite app_nil_r in Hw1.
  rewrite Hw0, Hpre, Hw1. bt_pieces.
Qed.

End Backticks.

(** ** Removing the fences *)

Section Fence.

Lemma drop_while_all (p : N -> bool) (w x : pystr) :
  Forall (fun c => p c = true) w -> drop_while p (w ++ x) = drop_while p x.
Proof.
  induction 1 as [|c w Hc _ IH]; simpl; [reflexivity|]. rewrite Hc. exact IH.
Qed.

Lemma drop_while_stop (p : N -> bool) (h : N) (x : pystr) :
  p h = false -> drop_while p (h :: x) = h :: x.
Proof. intros H. simpl. rewrite H. reflexivity. Qed.

(** Dropping a prefix of [y ++ t] stops inside [y] when [y] ends in a
    character that is not dropped. *)
Lemma drop_while_app_stop (p : N -> bool) (y0 : pystr) (e : N) (t : pystr) :
  p e = false ->
  drop_while p ((y0 ++ [e]) ++ t) = drop_while p (y0 ++ [e]) ++ t
  /\ drop_while p (y0 ++ [e]) <> [].
Proof.
  intros He. induction y0 as [|c y0 IH]; simpl.
  - rewrite He. split; [reflexivity|discriminate].
  - destruct (p c); [exact IH|]. split; [reflexivity|discriminate].
Qed.

Lemma last_or_snoc (prev : option N) (x : pystr) (a : N) :
  last_or prev (x ++ [a]) = Some a.
Proof. revert prev. induction x as [|b x IH]; intros prev; simpl; auto. Qed.

Lemma fence_sub_go_skip (prev : option N) (x t : pystr) :
  fence_sub_go prev (length x) (x ++ t) = fence_sub_go (last_or prev x) 0 t.
Proof.
  revert prev. induction x as [|a x IH]; intros prev; simpl; [reflexivity|].
  apply IH.
Qed.

Lemma fence_sub_go_walk (c t : pystr) : forall prev,
  (forall x y, c = x ++ y -> y <> [] -> fence_match (last_or prev x) (y ++ t) = None) ->
  fence_sub_go prev 0 (c ++ t) = c ++ fence_sub_go (last_or prev c) 0 t.
Proof.
  induction c as [|a c IH]; intros prev H; [reflexivity|].
  pose proof (H [] (a :: c) eq_refl ltac:(discriminate)) as H0.
  cbn [app last_or] in H0. cbn [app fence_sub_go]. rewrite H0.
  cbn [app last_or]. f_equal. apply IH.
  intros x y Ex Hy. apply (H (a :: x) y); [rewrite Ex; reflexivity|exact Hy].
Qed.

Lemma prefixb_bt3 (b : N) (s : pystr) :
  b <> BACKTICK -> prefixb (lit "```") (b :: s) = false.
Proof.
  intros Hb. change (lit "```") with [96%N; 96%N; 96%N]. cbn [prefixb].
  destruct (N.eqb_spec 96 b) as [E|E]; [|reflexivity].
  subst b. exfalso. apply Hb. reflexivity.
Qed.

Lemma prefixb_bt3_inv (s : pystr) :
  prefixb (lit "```") s = true -> exists r, s = BACKTICK :: BACKTICK :: BACKTICK :: r.
Proof.
  change (lit "```") with [96%N; 96%N; 96%N].
  destruct s as [|a [|b [|c r]]]; cbn [prefixb]; intros H; try discriminate;
    rewrite ?andb_false_r in H; try discriminate.
  rewrite andb_true_r in H. apply andb_prop in H as [Ha H].
  apply andb_prop in H as [Hb Hc]. apply N.eqb_eq in Ha, Hb, Hc. subst.
  exists r. reflexivity.
Qed.

Lemma isspace_nl (e : N) : py_isspace e = false -> e <> NL.
Proof. intros H E. subst e. discriminate. Qed.

(** Inside a decodable text the first alternative of the pattern never
    matches: a backtick there follows a character that is not a newline. *)
Lemma fence_alt1_inside (c x y t : pystr) (prev : option N) :
  bt_ok c -> c = x ++ y -> y <> [] -> fence_alt1 (last_or prev x) (y ++ t) = None.
Proof.
  intros Hc E Hy. destruct y as [|b y]; [congruence|].
  unfold fence_alt1. cbn [app].
  destruct (N.eq_dec b BACKTICK) as [->|Hb].
  - destruct (Hc x y E) as [[x' [a [-> Ha]]] _].
    rewrite last_or_snoc.
    destruct (N.eqb_spec a NL) as [Ea|_]; [contradiction|reflexivity].
  - rewrite prefixb_bt3 by exact Hb. rewrite andb_false_r. reflexivity.
Qed.

(** Inside a decodable text ending in a non-space character the second
    alternative never matches: three backticks there are followed by a
    character of the text that is not a newline. *)
Lemma fence_alt2_inside (c x y t : pystr) (c0 : pystr) (e : N) :
  bt_ok c -> c = c0 ++ [e] -> py_isspace e = false ->
  c = x ++ y -> y <> [] -> fence_alt2 (y ++ t) = None.
Proof.
  intros Hc Hce He E Hy.
  assert (exists y0, y = y0 ++ [e]) as [y0 ->].
  { destruct (exists_last Hy) as [y0 [e' Hy']]. exists y0. subst y.
    rewrite Hce, app_assoc in E. apply app_inj_tail in E as [_ ->]. reflexivity. }
  destruct (drop_while_app_stop py_isspace y0 e t He) as [Hd Hne].
  destruct (drop_while_split py_isspace (y0 ++ [e])) as [w [Hw _]].
  unfold fence_alt2. rewrite Hd.
  remember (drop_while py_isspace (y0 ++ [e])) as z eqn:Ez. clear Ez Hd.
  assert (Hcz : c = (x ++ w) ++ z) by (rewrite E, Hw, app_assoc; reflexivity).
  clear E Hw Hce He.
  destruct z as [|b1 z]; [congruence|]. cbv zeta.
  destruct (prefixb (lit "```") ((b1 :: z) ++ t)) eqn:Ep; [|reflexivity].
  apply prefixb_bt3_inv in Ep as [r Er]. cbn [app] in Er.
  injection Er as -> Er.
  destruct (Hc _ _ Hcz) as [_ [b2 [z2 [-> _]]]].
  cbn [app] in Er. injection Er as -> Er.
  destruct (Hc ((x ++ w) ++ [BACKTICK]) z2) as [_ [b3 [z3 [-> _]]]];
    [rewrite Hcz; list_eq|].
  cbn [app] in Er. injection Er as -> Er.
  destruct (Hc ((x ++ w) ++ [BACKTICK; BACKTICK]) z3) as [_ [b4 [z4 [-> Hb4]]]];
    [rewrite Hcz; list_eq|].
  cbn [app skipn]. destruct (N.eqb_spec b4 NL); [contradiction|reflexivity].
Qed.

Lemma fence_sub_go_skip_all (prev : option N) (x : pystr) :
  fence_sub_go prev (length x) x = [].
Proof.
  revert prev. induction x as [|a x IH]; intros prev; simpl; [reflexivity|]. apply IH.
Qed.

Lemma fence_match_not_line_start (e : N) (s : pystr) :
  e <> NL -> fence_match (Some e) s = fence_alt2 s.
Proof.
  intros He. unfold fence_match, fence_alt1.
  destruct (N.eqb_spec e NL); [contradiction|reflexivity].
Qed.

Lemma fence_alt2_closing (w2 : pystr) :
  Forall (fun ch => py_isspace ch = true) w2 -> fence_alt2 (w2 ++ lit "```") = Some [].
Proof.
  intros Hw. unfold fence_alt2. rewrite drop_while_all by exact Hw. reflexivity.
Qed.

(** The closing fence, with the whitespace before it, is deleted. *)
Lemma fence_sub_go_closing (e : N) (w2 : pystr) :
  py_isspace e = false -> Forall (fun ch => py_isspace ch = true) w2 ->
  fence_sub_go (Some e) 0 (w2 ++ lit "```") = [].
Proof.
  intros He Hw. apply isspace_nl in He.
  pose proof (fence_alt2_closing w2 Hw) as H2.
  destruct w2 as [|s w2']; cbn [app] in H2 |- *.
  - change (lit "```") with (BACKTICK :: lit "``") in H2 |- *.
    cbn [fence_sub_go]. rewrite fence_match_not_line_start, H2 by exact He.
    reflexivity.
  - cbn [fence_sub_go]. rewrite fence_match_not_line_start, H2 by exact He.
    replace (length (s :: w2' ++ lit "```") - length (@nil N) - 1)%nat
      with (length (w2' ++ lit "```")) by (cbn [length]; lia).
    apply fence_sub_go_skip_all.
Qed.

Lemma prefixb_json_cons (b : N) (s : pystr) :
  b <> 106%N -> prefixb (lit "json") (b :: s) = false.
Proof.
  intros Hb. change (lit "json") with [106%N; 115%N; 111%N; 110%N]. cbn [prefixb].
  destruct (N.eqb_spec 106 b); [congruence|reflexivity].
Qed.

(** The opening fence with its optional [json] tag and the whitespace after
    it is deleted, the interior [c] is kept, and the closing fence is
    deleted. *)
Lemma fence_sub_wrapped (tag w1 c w2 : pystr) (h : N) (c' c0 : pystr) (e : N) :
  tag = [] \/ tag = lit "json" ->
  Forall (fun ch => py_isspace ch = true) w1 ->
  Forall (fun ch => py_isspace ch = true) w2 ->
  bt_ok c -> c = h :: c' -> py_isspace h = false -> h <> 106%N ->
  c = c0 ++ [e] -> py_isspace e = false ->
  fence_sub (lit "```" ++ tag ++ w1 ++ c ++ w2 ++ lit "```") = c.
Proof.
  intros Htag Hw1 Hw2 Hbt Hh Hsh Hj He Hse.
  set (R := c ++ w2 ++ lit "```").
  assert (Hd : drop_while py_isspace (w1 ++ R) = R).
  { rewrite drop_while_all by exact Hw1. unfold R. rewrite Hh. cbn [app].
    apply drop_while_stop, Hsh. }
  assert (Hm : fence_match None (lit "```" ++ tag ++ w1 ++ R) = Some R).
  { unfold fence_match, fence_alt1.
    replace (prefixb (lit "```") (lit "```" ++ tag ++ w1 ++ R)) with true
      by reflexivity.
    replace (skipn 3 (lit "```" ++ tag ++ w1 ++ R)) with (tag ++ w1 ++ R)
      by reflexivity.
    cbn [andb]. destruct Htag as [->| ->].
    - cbn [app]. replace (prefixb (lit "json") (w1 ++ R)) with false.
      + rewrite Hd. reflexivity.
      + destruct w1 as [|s w1'].
        * unfold R. rewrite Hh. symmetry. apply prefixb_json_cons, Hj.
        * symmetry. apply prefixb_json_cons. inversion Hw1 as [|? ? Hs]; subst.
          intros ->. discriminate.
    - replace (prefixb (lit "json") (lit "json" ++ w1 ++ R)) with true
        by reflexivity.
      replace (skipn 4 (lit "json" ++ w1 ++ R)) with (w1 ++ R) by reflexivity.
      rewrite Hd. reflexivity. }
  unfold fence_sub.
  assert (Hs : lit "```" ++ tag ++ w1 ++ R = BACKTICK :: ((lit "``" ++ tag ++ w1) ++ R))
    by (rewrite <- !app_assoc; reflexivity).
  rewrite Hs in Hm |- *. cbn [fence_sub_go]. rewrite Hm.
  replace (length (BACKTICK :: (lit "``" ++ tag ++ w1) ++ R) - length R - 1)%nat
    with (length (lit "``" ++ tag ++ w1)) by (cbn [length]; rewrite !length_app; lia).
  rewrite fence_sub_go_skip. unfold R. rewrite fence_sub_go_walk.
  - assert (Hl : forall q, last_or q c = Some e) by (intros q; rewrite He; apply last_or_snoc).
    rewrite Hl, fence_sub_go_closing by assumption. apply app_nil_r.
  - intros x y Exy Hy. unfold fence_match.
    rewrite (fence_alt1_inside c x y _ _ Hbt Exy Hy).
    exact (fence_alt2_inside c x y _ c0 e Hbt He Hse Exy Hy).
Qed.


(** ** Stripping *)

Lemma drop_while_head (p : N -> bool) (s : pystr) :
  drop_while p s = [] \/ exists h t, drop_while p s = h :: t /\ p h = false.
Proof.
  induction s as [|c s IH]; simpl; [left; reflexivity|].
  destruct (p c) eqn:Ec; [exact IH|]. right. exists c, s. split; [reflexivity|exact Ec].
Qed.

Lemma py_strip_split (s : pystr) :
  exists w1 w2, s = w1 ++ py_strip s ++ w2
  /\ Forall (fun ch => py_isspace ch = true) w1
  /\ Forall (fun ch => py_isspace ch = true) w2.
Proof.
  destruct (drop_while_split py_isspace s) as [w1 [Hs Hw1]].
  set (d := drop_while py_isspace s) in Hs.
  destruct (drop_while_split py_isspace (rev d)) as [v [Hd Hv]].
  exists w1, (rev v). split; [|split; [exact Hw1|apply List.Forall_rev, Hv]].
  unfold py_strip. fold d. rewrite Hs at 1. f_equal.
  set (dd := drop_while py_isspace (rev d)) in Hd |- *. clearbody dd.
  rewrite <- (rev_involutive d), Hd, rev_app_distr. reflexivity.
Qed.

Lemma py_strip_edges (s : pystr) :
  py_strip s = []
  \/ ((exists h t, py_strip s = h :: t /\ py_isspace h = false)
      /\ (exists t e, py_strip s = t ++ [e] /\ py_isspace e = false)).
Proof.
  unfold py_strip.
  set (d := drop_while py_isspace s).
  destruct (drop_while_head py_isspace (rev d)) as [E|[e [t [E He]]]].
  { left. rewrite E. reflexivity. }
  right. rewrite E. split; [|exists (rev t), e; split; [reflexivity|exact He]].
  destruct (drop_while_split py_isspace (rev d)) as [v [Hd _]].
  rewrite E in Hd.
  assert (Hd' : d = (rev t ++ [e]) ++ rev v).
  { rewrite <- (rev_involutive d), Hd, rev_app_distr. reflexivity. }
  clear Hd. change (rev (e :: t)) with (rev t ++ [e]).
  destruct (rev t ++ [e]) as [|h u] eqn:Ehu;
    [apply app_eq_nil in Ehu as [_ ?]; discriminate|].
  exists h, u. split; [reflexivity|].
  destruct (drop_while_head py_isspace s) as [E0|[h' [t' [E' Hh']]]].
  - fold d in E0. rewrite E0 in Hd'. discriminate.
  - fold d in E'. rewrite E' in Hd'. injection Hd' as -> _. exact Hh'.
Qed.

Lemma py_strip_inner (pre s post : pystr) (h : N) (s' s0 : pystr) (e : N) :
  Forall (fun ch => py_isspace ch = true) pre ->
  Forall (fun ch => py_isspace ch = true) post ->
  s = h :: s' -> py_isspace h = false -> s = s0 ++ [e] -> py_isspace e = false ->
  py_strip (pre ++ s ++ post) = s.
Proof.
  intros Hpre Hpost Hh Hsh He Hse. unfold py_strip.
  rewrite drop_while_all by exact Hpre.
  replace (drop_while py_isspace (s ++ post)) with (s ++ post)
    by (rewrite Hh; symmetry; apply drop_while_stop, Hsh).
  rewrite rev_app_distr, drop_while_all by (apply List.Forall_rev, Hpost).
  rewrite He, rev_app_distr. cbn [rev app]. rewrite drop_while_stop by exact Hse.
  change (e :: rev s0) with (rev [e] ++ rev s0).
  rewrite <- rev_app_distr. apply rev_involutive.
Qed.

Lemma prefixb_self (p s : pystr) : prefixb p (p ++ s) = true.
Proof. induction p as [|a p IH]; simpl; [reflexivity|]. rewrite N.eqb_refl. exact IH. Qed.

Lemma bt_ok_head (t : pystr) : ~ bt_ok (BACKTICK :: t).
Proof.
  intros H. destruct (H [] t eq_refl) as [[x' [a [E _]]] _].
  destruct x'; discriminate.
Qed.

Lemma loads_nil (x : pyval) : Json.loads [] <> Ret x.
Proof. vm_compute. discriminate. Qed.

(** A decodable text does not start with [j]: no JSON value does. *)
Lemma loads_j (c : pystr) (x : pyval) : Json.loads (106%N :: c) <> Ret x.
Proof. unfold Json.loads. cbn. discriminate. Qed.

End Fence.

(** ** parse_gemini_response *)

(** C1 (counterexample): an integer literal of 4301 digits makes [int()]
    inside [json.loads] raise [ValueError], which is not a
    [JSONDecodeError]; [parse_gemini_response] lets it propagate. *)
Lemma parse_gemini_response_raises_on_long_int :
  parse_gemini_response (repeat 49%N 4301) =
  Raise (ValueError (Json.msg_int_limit 4301)).
Proof. vm_compute. reflexivity. Qed.

(** C1 (amended): whatever [json.loads] does on the cleaned text decides the
    outcome: a [JSONDecodeError] becomes the failure mapping holding the
    original input verbatim and [str(e)]; a decoded value is returned as
    is; any other exception ([ValueError]) propagates. On the empty string
    the result is the failure mapping. *)
Theorem parse_gemini_response_outcomes :
  (forall s : pystr,
  match Json.loads (cleaned_text s) with
  | Raise (JSONDecodeError msg doc pos) =>
      parse_gemini_response s =
      Ret (failure_mapping s (JSONDecodeError msg doc pos))
  | Raise (ValueError m) => parse_gemini_response s = Raise (ValueError m)
  | Ret v => parse_gemini_response s = Ret v
  end)
  /\ parse_gemini_response [] =
     Ret (failure_mapping [] (JSONDecodeError (lit "Expecting value") [] 0)).
Proof.
  split.
  - intros s. unfold parse_gemini_response.
    destruct (Json.loads (cleaned_text s)) as [v|[msg doc pos|m]]; reflexivity.
  - vm_compute. reflexivity.
Qed.

(** C2 (counterexample): a fence with a language tag other than [json]
    keeps the tag in the text handed to [json.loads]; the fenced text fails
    to decode while its interior decodes. *)
Lemma parse_gemini_response_other_tag :
  let fenced := lit "```js" ++ [NL] ++ qlit "{~a~:1}" ++ [NL] ++ lit "```" in
  parse_gemini_response fenced
  = Ret (failure_mapping fenced
           (JSONDecodeError (lit "Expecting value")
              (lit "js" ++ [NL] ++ qlit "{~a~:1}") 0))
  /\ parse_gemini_response (qlit "{~a~:1}") = Ret (PDict [(lit "a", PInt 1)])
  /\ parse_gemini_response fenced <> parse_gemini_response (qlit "{~a~:1}").
Proof. vm_compute. split; [reflexivity|split; [reflexivity|discriminate]]. Qed.

Section OtherTags.

Lemma drop_while_keep_tail (p : N -> bool) (A X : pystr) (x : N) (X' : pystr) :
  X = x :: X' -> p x = false ->
  exists Z Y, A = Z ++ Y /\ drop_while p (A ++ X) = Y ++ X.
Proof.
  intros -> Hx. induction A as [|a A IH]; simpl.
  - rewrite Hx. exists [], []. split; reflexivity.
  - destruct (p a).
    + destruct IH as [Z [Y [-> HY]]]. exists (a :: Z), Y. split; [reflexivity|exact HY].
    + exists [], (a :: A). split; reflexivity.
Qed.

Lemma letters_not_space (c : N) :
  c ∈ lit "ABCDEFGHIJKLMNOPQRSTUVWXYZabcdefghijklmnopqrstuvwxyz" ->
  py_isspace c = false /\ c <> BACKTICK /\ c <> NL.
Proof.
  intros H. repeat (apply elem_of_cons in H as [->|H];
    [split; [reflexivity|split; discriminate]|]).
  apply elem_of_nil in H. contradiction.
Qed.

Lemma prefixb_app_false (p t r : pystr) :
  prefixb p t = false -> (forall c r', r = c :: r' -> c ∉ p) -> prefixb p (t ++ r) = false.
Proof.
  revert t. induction p as [|a p IH]; intros t Hp Hr; [discriminate|].
  destruct t as [|b t]; cbn [app].
  - destruct r as [|c r']; [reflexivity|]. cbn [prefixb].
    destruct (N.eqb_spec a c) as [->|]; [|reflexivity].
    exfalso. apply (Hr c r' eq_refl). apply elem_of_cons. left. reflexivity.
  - cbn [prefixb] in Hp |- *. destruct (N.eqb_spec a b); [|reflexivity].
    cbn [andb] in Hp |- *. apply IH; [exact Hp|].
    intros c r' E Hc. apply (Hr c r' E). apply elem_of_cons. right. exact Hc.
Qed.

(** The text handed to [json.loads] starts with a tag of letters that is
    not [json] and is followed by whitespace or nothing. *)
Lemma cleaned_text_other_tag (pre tag rest : pystr) :
  Forall (fun ch => py_isspace ch = true) pre ->
  tag <> [] ->
  Forall (fun ch => ch ∈ lit "ABCDEFGHIJKLMNOPQRSTUVWXYZabcdefghijklmnopqrstuvwxyz") tag ->
  prefixb (lit "json") tag = false ->
  (forall c r, rest = c :: r -> py_isspace c = true) ->
  exists r, cleaned_text (pre ++ lit "```" ++ tag ++ rest) = tag ++ r.
Proof.
  intros Hpre Htag Hlet Hjs Hrest.
  assert (Hl : forall c, c ∈ tag -> py_isspace c = false /\ c <> BACKTICK /\ c <> NL).
  { intros c Hc. apply letters_not_space.
    rewrite List.Forall_forall in Hlet. apply Hlet. apply list_elem_of_In. exact Hc. }
  (* stripping keeps the fence, the tag and a prefix of [rest] *)
  assert (Hs : exists r', py_strip (pre ++ lit "```" ++ tag ++ rest) = lit "```" ++ tag ++ r'
                          /\ (forall c r'', r' = c :: r'' -> py_isspace c = true)).
  { unfold py_strip. rewrite drop_while_all by exact Hpre.
    change (lit "```" ++ tag ++ rest) with (BACKTICK :: (lit "``" ++ tag ++ rest)).
    rewrite (drop_while_stop py_isspace BACKTICK (lit "``" ++ tag ++ rest)) by reflexivity.
    change (BACKTICK :: (lit "``" ++ tag ++ rest)) with (lit "```" ++ tag ++ rest).
    destruct (exists_last Htag) as [t0 [e Ete]].
    assert (He : py_isspace e = false).
    { apply Hl. rewrite Ete. apply elem_of_app. right. apply elem_of_cons. left. reflexivity. }
    rewrite !rev_app_distr, Ete, rev_app_distr.
    destruct (drop_while_keep_tail py_isspace (rev rest) ((rev [e] ++ rev t0) ++ rev (lit "```"))
                e (rev t0 ++ rev (lit "```")) ltac:(reflexivity) He) as [Z [Y [HZ HY]]].
    rewrite <- app_assoc, HY. exists (rev Y). split.
    - rewrite !rev_app_distr, !rev_involutive. cbn [rev app]. rewrite <- !app_assoc. reflexivity.
    - intros c r'' E. apply (Hrest c (r'' ++ rev Z)).
      rewrite <- (rev_involutive rest), HZ, rev_app_distr, E. reflexivity. }
  destruct Hs as [r' [Hs Hr']].
  unfold cleaned_text. rewrite Hs. unfold startswith. rewrite prefixb_self.
  destruct tag as [|h tag']; [congruence|].
  assert (Hh : py_isspace h = false) by (apply Hl; apply elem_of_cons; left; reflexivity).
  assert (Hm : fence_match None (lit "```" ++ (h :: tag') ++ r') = Some ((h :: tag') ++ r')).
  { unfold fence_match, fence_alt1.
    replace (prefixb (lit "```") (lit "```" ++ (h :: tag') ++ r')) with true
      by (symmetry; apply prefixb_self).
    replace (skipn 3 (lit "```" ++ (h :: tag') ++ r')) with ((h :: tag') ++ r')
      by reflexivity.
    rewrite (prefixb_app_false (lit "json") (h :: tag') r' Hjs).
    - cbn [andb app]. rewrite drop_while_stop by exact Hh. reflexivity.
    - intros c r'' E Hc. specialize (Hr' c r'' E).
      repeat (apply elem_of_cons in Hc as [->|Hc]; [discriminate|]).
      apply elem_of_nil in Hc. exact Hc. }
  unfold fence_sub.
  change (lit "```" ++ (h :: tag') ++ r') with (BACKTICK :: (lit "``" ++ (h :: tag') ++ r'))
    in Hm |- *.
  cbn [fence_sub_go]. rewrite Hm.
  replace (length (BACKTICK :: lit "``" ++ (h :: tag') ++ r') - length ((h :: tag') ++ r') - 1)%nat
    with (length (lit "``")) by (cbn [length]; rewrite !length_app; cbn; lia).
  rewrite fence_sub_go_skip.
  replace (last_or (Some BACKTICK) (lit "``")) with (Some BACKTICK) by reflexivity.
  rewrite fence_sub_go_walk.
  - eexists. reflexivity.
  - intros x y Exy Hy.
    assert (Hp : exists z, last_or (Some BACKTICK) x = Some z /\ z <> NL).
    { destruct x as [|a x'] using rev_ind; [exists BACKTICK; split; [reflexivity|discriminate]|].
      exists a. rewrite last_or_snoc. split; [reflexivity|].
      apply Hl. rewrite Exy, <- app_assoc. apply elem_of_app. right. apply elem_of_cons.
      left. reflexivity. }
    destruct Hp as [z [-> Hz]]. rewrite fence_match_not_line_start by exact Hz.
    destruct y as [|b y']; [congruence|].
    assert (Hb : b ∈ h :: tag') by (rewrite Exy; apply elem_of_app; right; apply elem_of_cons; left; reflexivity).
    destruct (Hl b Hb) as [Hbs [Hbb _]].
    unfold fence_alt2. cbn [app]. rewrite drop_while_stop by exact Hbs.
    rewrite prefixb_bt3 by exact Hbb. reflexivity.
Qed.

(** [json.loads] of a text starting with a letter no JSON value starts with. *)
Lemma loads_letter (h : N) (r : pystr) :
  h ∈ lit "ABCDEFGHJKLMOPQRSTUVWXYZabcdeghijklmopqrsuvwxyz" ->
  Json.loads (h :: r) = Raise (JSONDecodeError (lit "Expecting value") (h :: r) 0).
Proof.
  intros H.
  assert (Hs : startswith (h :: r) [65279%N] = false /\ Json.skip_ws (h :: r) = h :: r
               /\ Json.scan_once (S (length (h :: r))) (h :: r) = inl (Json.StopIteration (h :: r))).
  { repeat (apply elem_of_cons in H as [->|H];
      [split; [|split]; vm_compute; reflexivity|]).
    apply elem_of_nil in H. contradiction. }
  destruct Hs as [H1 [H2 H3]].
  unfold Json.loads. rewrite H1. cbv zeta. rewrite H2, H3, Nat.sub_diag. reflexivity.
Qed.


End OtherTags.

(** C2 (amended): for an opening fence with no tag or the tag [json], and an
    interior [inner] whose stripped text [json.loads] decodes, the fenced
    text (with any whitespace around it) gives the same result as [inner]
    alone: the decoded value. Any other tag is not removed: after a tag of
    ASCII letters that does not start with [json] (such as [js] or [JSON])
    and is followed by whitespace or by nothing, the text handed to
    [json.loads] starts with the tag; and when the tag's first letter is
    none of n, t, f, N, I (the letters a JSON literal can start with), the
    text fails to decode with [Expecting value] at char 0 and the failure
    mapping is returned. *)
Theorem parse_gemini_response_unfences :
  (forall (pre tag inner post : pystr) (x : pyval),
     tag = [] \/ tag = lit "json" ->
     Forall (fun ch => py_isspace ch = true) pre ->
     Forall (fun ch => py_isspace ch = true) post ->
     Json.loads (py_strip inner) = Ret x ->
     parse_gemini_response (pre ++ lit "```" ++ tag ++ inner ++ lit "```" ++ post)
     = parse_gemini_response inner
     /\ parse_gemini_response inner = Ret x)
  /\ (forall pre tag rest : pystr,
        Forall (fun ch => py_isspace ch = true) pre ->
        tag <> [] ->
        Forall (fun ch => ch ∈ lit "ABCDEFGHIJKLMNOPQRSTUVWXYZabcdefghijklmnopqrstuvwxyz") tag ->
        prefixb (lit "json") tag = false ->
        (forall c r, rest = c :: r -> py_isspace c = true) ->
        exists r, cleaned_text (pre ++ lit "```" ++ tag ++ rest) = tag ++ r)
  /\ (forall (pre : pystr) (h : N) (tag' rest : pystr),
        Forall (fun ch => py_isspace ch = true) pre ->
        Forall (fun ch => ch ∈ lit "ABCDEFGHIJKLMNOPQRSTUVWXYZabcdefghijklmnopqrstuvwxyz") (h :: tag') ->
        h ∈ lit "ABCDEFGHJKLMOPQRSTUVWXYZabcdeghijklmopqrsuvwxyz" ->
        prefixb (lit "json") (h :: tag') = false ->
        (forall c r, rest = c :: r -> py_isspace c = true) ->
        parse_gemini_response (pre ++ lit "```" ++ (h :: tag') ++ rest)
        = Ret (failure_mapping (pre ++ lit "```" ++ (h :: tag') ++ rest)
                 (JSONDecodeError (lit "Expecting value")
                    (cleaned_text (pre ++ lit "```" ++ (h :: tag') ++ rest)) 0))).
Proof.
  split; [|split].
  - intros pre tag inner post x.
    intros Htag Hpre Hpost Hx.
    destruct (py_strip_split inner) as [w1 [w2 [Hin [Hw1 Hw2]]]].
    destruct (py_strip_edges inner) as [E0|[[h [c' [Hh Hsh]]] [c0 [e [He Hse]]]]].
    { rewrite E0 in Hx. exfalso. exact (loads_nil x Hx). }
    remember (py_strip inner) as c eqn:Ec.
    pose proof (loads_ok_bt c x Hx) as Hbt.
    assert (Hb : h <> BACKTICK) by (intros ->; apply (bt_ok_head c'); rewrite <- Hh; exact Hbt).
    assert (Hj : h <> 106%N) by (intros ->; apply (loads_j c' x); rewrite <- Hh; exact Hx).
    assert (Hinner : parse_gemini_response inner = Ret x).
    { unfold parse_gemini_response, cleaned_text. rewrite <- Ec. unfold startswith.
      rewrite Hh, prefixb_bt3 by exact Hb. rewrite <- Hh, Hx. reflexivity. }
    split; [|exact Hinner]. rewrite Hinner. clear Hinner.
    set (S := lit "```" ++ tag ++ w1 ++ c ++ w2 ++ lit "```").
    assert (Hall : pre ++ lit "```" ++ tag ++ inner ++ lit "```" ++ post = pre ++ S ++ post)
      by (unfold S; rewrite Hin; rewrite <- !app_assoc; reflexivity).
    unfold parse_gemini_response, cleaned_text. rewrite Hall.
    rewrite (py_strip_inner pre S post BACKTICK (lit "``" ++ tag ++ w1 ++ c ++ w2 ++ lit "```")
               (lit "```" ++ tag ++ w1 ++ c ++ w2 ++ lit "``") BACKTICK);
      [| exact Hpre | exact Hpost | reflexivity | reflexivity
       | unfold S; rewrite <- !app_assoc; reflexivity | reflexivity].
    unfold startswith, S. rewrite prefixb_self.
    rewrite (fence_sub_wrapped tag w1 c w2 h c' c0 e) by assumption.
    rewrite Hx. reflexivity.
  - intros pre tag rest. apply cleaned_text_other_tag.
  - intros pre h tag' rest Hpre Hlet Hh Hjs Hrest.
    destruct (cleaned_text_other_tag pre (h :: tag') rest Hpre ltac:(discriminate)
                Hlet Hjs Hrest) as [r Hr].
    unfold parse_gemini_response. rewrite Hr. cbn [app].
    rewrite (loads_letter h (tag' ++ r) Hh). reflexivity.
Qed.

Lemma parse_gemini_response_unfences_witness :
  (parse_gemini_response
     ([] ++ lit "```" ++ lit "json" ++ ([NL] ++ qlit "{~a~:1}" ++ [NL]) ++ lit "```" ++ [])
   = parse_gemini_response ([NL] ++ qlit "{~a~:1}" ++ [NL])
   /\ parse_gemini_response ([NL] ++ qlit "{~a~:1}" ++ [NL]) = Ret (PDict [(lit "a", PInt 1)]))
  /\ (exists r, cleaned_text ([] ++ lit "```" ++ lit "JSON" ++ ([NL] ++ qlit "{~a~:1}" ++ [NL] ++ lit "```"))
                = lit "JSON" ++ r)
  /\ parse_gemini_response ([] ++ lit "```" ++ lit "js" ++ ([NL] ++ qlit "{~a~:1}" ++ [NL] ++ lit "```"))
     = Ret (failure_mapping ([] ++ lit "```" ++ lit "js" ++ ([NL] ++ qlit "{~a~:1}" ++ [NL] ++ lit "```"))
              (JSONDecodeError (lit "Expecting value")
                 (cleaned_text ([] ++ lit "```" ++ lit "js" ++ ([NL] ++ qlit "{~a~:1}" ++ [NL] ++ lit "```"))) 0)).
Proof.
  split; [|split].
  - apply (proj1 parse_gemini_response_unfences).
    + right. reflexivity.
    + apply List.Forall_nil.
    + apply List.Forall_nil.
    + vm_compute. reflexivity.
  - apply (proj1 (proj2 parse_gemini_response_unfences)).
    + apply List.Forall_nil.
    + discriminate.
    + repeat constructor; vm_compute; (apply (bool_decide_unpack _); vm_compute; reflexivity).
    + reflexivity.
    + intros c r E. injection E as <- _. reflexivity.
  - apply (proj2 (proj2 parse_gemini_response_unfences)).
    + apply List.Forall_nil.
    + repeat constructor; (apply (bool_decide_unpack _); vm_compute; reflexivity).
    + apply (bool_decide_unpack _); vm_compute; reflexivity.
    + reflexivity.
    + intros c r E. injection E as <- _. reflexivity.
Defined.

(** C10: whenever [json.loads] decodes the cleaned text, the decoded value
    is returned, whatever its shape (list, number, string, ...). *)
Theorem parse_gemini_response_returns_decoded : forall (s : pystr) (v : pyval),
  Json.loads (cleaned_text s) = Ret v -> parse_gemini_response s = Ret v.
Proof.
  intros s v H. unfold parse_gemini_response. rewrite H. reflexivity.
Qed.

Lemma parse_gemini_response_returns_decoded_witness :
  parse_gemini_response (lit "[1,2]") = Ret (PList [PInt 1; PInt 2])
  /\ parse_gemini_response (lit "42") = Ret (PInt 42)
  /\ parse_gemini_response (qlit "~x~") = Ret (PStr (lit "x")).
Proof.
  split; [|split]; apply parse_gemini_response_returns_decoded; vm_compute; reflexivity.
Defined.

(** ** validate_extracted_data and calculate_completeness_score *)

Section Fields.

Lemma eqb_length_filter_negb (p : pystr -> bool) (l : list pystr) :
  Nat.eqb (length (List.filter (fun x => negb (p x)) l)) 0 = forallb p l.
Proof.
  induction l as [|x l IH]; simpl; [reflexivity|].
  destruct (p x); simpl; [exact IH|reflexivity].
Qed.

Lemma negb_is_Some (o : option pystr) :
  negb (bool_decide (is_Some o)) = bool_decide (o = None).
Proof. destruct o; reflexivity. Qed.

Lemma lookup_blank (data : record) (f : pystr) :
  is_Some (((fun _ : pystr => @nil N) <$> data) !! f) <-> is_Some (data !! f).
Proof. rewrite lookup_fmap. destruct (data !! f); simpl; split; intros [? H]; eauto; discriminate. Qed.

End Fields.

(** C5: a required field counts as present exactly when its key is in the
    mapping, whatever its value: [is_complete] holds iff every required key
    is present, the missing fields are the absent required keys in the
    order of [required_fields], the result does not change when every value
    is replaced, and the empty mapping gives [false] with all eight fields
    in order. *)
Theorem validate_extracted_data_by_keys :
  (forall data : record,
     validate_extracted_data data =
       (forallb (fun f => bool_decide (is_Some (data !! f))) required_fields,
        List.filter (fun f => bool_decide (data !! f = None)) required_fields)
     /\ validate_extracted_data data
        = validate_extracted_data ((fun _ => []) <$> data))
  /\ validate_extracted_data ∅ =
     (false, [lit "loss_type"; lit "severity"; lit "affected_assets"; lit "estimated_loss";
              lit "incident_date"; lit "location"; lit "confidence";
              lit "extraction_explanation"]).
Proof.
  split; [intros data; split|].
  - unfold validate_extracted_data.
    rewrite eqb_length_filter_negb. f_equal.
    apply List.filter_ext. intros f. apply negb_is_Some.
  - unfold validate_extracted_data.
    assert (Hf : forall f, bool_decide (is_Some (data !! f))
                 = bool_decide (is_Some (((fun _ : pystr => @nil N) <$> data) !! f))).
    { intros f. apply bool_decide_ext. symmetry. apply lookup_blank. }
    rewrite (List.filter_ext _ (fun f => negb (bool_decide
               (is_Some (((fun _ : pystr => @nil N) <$> data) !! f))))).
    + reflexivity.
    + intros f. rewrite Hf. reflexivity.
  - vm_compute. reflexivity.
Qed.

(** C6: a required field counts as filled exactly when the mapping holds a
    value for it that is non-empty and none of [Unknown], [Not specified],
    [N/A] (compared exactly); the total is 8 and the percentage is
    [filled / 8 * 100]; a record with four such fields (and the others
    absent, empty or sentinels) scores 50. *)
Theorem calculate_completeness_score_counts :
  (forall d : record,
     calculate_completeness_score d =
       (length (List.filter (fun f => match d !! f with
                                      | Some v => bool_decide (v <> [])
                                                  && negb (bool_decide (v ∈ [lit "Unknown";
                                                         lit "Not specified"; lit "N/A"]))
                                      | None => false
                                      end) required_fields),
        8%nat,
        Qred (inject_Z (Z.of_nat (length (List.filter (fun f => match d !! f with
                                      | Some v => bool_decide (v <> [])
                                                  && negb (bool_decide (v ∈ [lit "Unknown";
                                                         lit "Not specified"; lit "N/A"]))
                                      | None => false
                                      end) required_fields))) / 8 * 100)))
  /\ calculate_completeness_score
       (<[lit "loss_type" := lit "Fire"]> (<[lit "severity" := lit "High"]>
        (<[lit "location" := lit "Pune"]> (<[lit "confidence" := lit "high"]>
        (<[lit "incident_date" := lit "Unknown"]> (<[lit "estimated_loss" := lit "N/A"]>
        (<[lit "affected_assets" := []]> ∅)))))))
     = (4%nat, 8%nat, 50%Q).
Proof.
  split.
  - intros d. unfold calculate_completeness_score.
    assert (Hf : forall f,
      negb (match dict_get d f [] with [] => true | _ => false end)
      && negb (py_in (dict_get d f []) [lit "Unknown"; lit "Not specified"; lit "N/A"; []])
      = match d !! f with
        | Some v => bool_decide (v <> [])
                    && negb (bool_decide (v ∈ [lit "Unknown"; lit "Not specified"; lit "N/A"]))
        | None => false
        end).
    { intros f. unfold dict_get. destruct (d !! f) as [v|]; [|reflexivity].
      destruct v as [|c v]; [reflexivity|]. cbn [negb andb].
      rewrite bool_decide_true by discriminate. cbn [andb]. f_equal.
      unfold py_in. cbn [existsb].
      rewrite (bool_decide_false (c :: v = [])) by discriminate. rewrite orb_false_r.
      apply eq_bool_prop_intro. rewrite !Is_true_true, orb_true_iff, orb_true_iff,
        bool_decide_eq_true, bool_decide_eq_true, bool_decide_eq_true, bool_decide_eq_true.
      rewrite !elem_of_cons, elem_of_nil. tauto. }
    rewrite (List.filter_ext _ _ Hf). reflexivity.
  - vm_compute. reflexivity.
Qed.

(** ** generate_recommendations *)

Section Recs.

Lemma has_action_app (a : pystr) (l1 l2 : list recommendation) :
  has_action a (l1 ++ l2) = has_action a l1 || has_action a l2.
Proof. apply existsb_app. Qed.

Lemma has_action_if (a : pystr) (b : bool) (l1 l2 : list recommendation) :
  has_action a (if b then l1 else l2) = if b then has_action a l1 else has_action a l2.
Proof. destruct b; reflexivity. Qed.

Lemma has_action_default (a : pystr) (l : list recommendation) (r0 : recommendation) :
  has_action a [r0] = false ->
  has_action a (match l with [] => [r0] | _ => l end) = has_action a l.
Proof. destruct l; [intros H; exact H|reflexivity]. Qed.

Lemma has_action_missing (a : pystr) (l : list pystr) :
  has_action a (match l with [] => [] | _ => [rec_collect_missing_information l] end)
  = match l with [] => false | _ => has_action a [rec_collect_missing_information l] end.
Proof. destruct l; reflexivity. Qed.

Lemma filter_app' {A} (p : A -> bool) (l1 l2 : list A) :
  List.filter p (l1 ++ l2) = List.filter p l1 ++ List.filter p l2.
Proof. induction l1 as [|x l1 IH]; simpl; [reflexivity|]. destruct (p x); simpl; congruence. Qed.

Lemma filter_if {A} (p : A -> bool) (b : bool) (l1 l2 : list A) :
  List.filter p (if b then l1 else l2) = if b then List.filter p l1 else List.filter p l2.
Proof. destruct b; reflexivity. Qed.

Lemma filter_default {A} (p : A -> bool) (l : list A) (r0 : A) :
  List.filter p [r0] = [] ->
  List.filter p (match l with [] => [r0] | _ => l end) = List.filter p l.
Proof. destruct l; [intros H; exact H|reflexivity]. Qed.

Lemma if_same {A} (b : bool) (x : A) : (if b then x else x) = x.
Proof. destruct b; reflexivity. Qed.

Lemma filter_missing (l : list pystr) :
  List.filter (fun r => bool_decide (action r = lit "Collect Missing Information"))
    (match l with [] => [] | _ => [rec_collect_missing_information l] end)
  = match l with [] => [] | _ => [rec_collect_missing_information l] end.
Proof.
  destruct l; [reflexivity|]. cbn [List.filter].
  rewrite bool_decide_true by reflexivity. reflexivity.
Qed.

End Recs.

(** C7: the recommendations with the action [Collect Missing Information]
    are none when the incident date and the location are not (in lower
    case) [not specified] or [unknown] and the parsed loss is not 0, and
    otherwise exactly one, of priority [High] and category [Documentation],
    whose reasoning joins the missing items among [incident date],
    [location], [cost estimate], in that order. *)
Theorem generate_recommendations_missing_info (d : record) :
  let incident_date := dict_get d (lit "incident_date") (lit "Not specified") in
  let location := dict_get d (lit "location") (lit "Not specified") in
  let estimated_loss := parse_estimated_loss (dict_get d (lit "estimated_loss") (lit "0")) in
  let missing :=
    (if py_in (py_lower incident_date) [lit "not specified"; lit "unknown"]
     then [lit "incident date"] else [])
    ++ (if py_in (py_lower location) [lit "not specified"; lit "unknown"]
        then [lit "location"] else [])
    ++ (if Qeq_bool estimated_loss 0 then [lit "cost estimate"] else []) in
  List.filter (fun r => bool_decide (action r = lit "Collect Missing Information"))
    (generate_recommendations d)
  = match missing with
    | [] => []
    | _ => [{| action := lit "Collect Missing Information"; priority := lit "High";
               category := lit "Documentation";
               icon := [8218; 246; 8224; 212; 8719; 232]%N;
               reasoning := lit "Critical fields missing: " ++ py_join (lit ", ") missing
                            ++ lit ". Required for processing." |}]
    end.
Proof.
  cbv zeta. unfold generate_recommendations. cbv zeta.
  generalize (parse_estimated_loss (dict_get d (lit "estimated_loss") (lit "0"))) as q.
  intros q.
  rewrite filter_default by (vm_compute; reflexivity).
  rewrite !filter_app', filter_missing, !filter_if.
  repeat match goal with
  | |- context [List.filter ?p ?l] =>
      lazymatch l with
      | context [d] => fail
      | _ => let v := eval vm_compute in (List.filter p l) in change (List.filter p l) with v
      end
  end.
  rewrite !if_same. cbn [app]. rewrite app_nil_r.
  reflexivity.
Qed.

Section Branches.

Lemma Qltb_iff (x y : Q) : Qltb x y = true <-> (x < y)%Q.
Proof.
  unfold Qltb. rewrite negb_true_iff. split; intros H.
  - apply Qnot_le_lt. intros H'. apply Qle_bool_iff in H'. congruence.
  - destruct (Qle_bool y x) eqn:E; [|reflexivity].
    apply Qle_bool_iff in E. exfalso. exact (Qlt_not_le _ _ H E).
Qed.

Lemma Qltb_10000_50000 (x : Q) : Qltb x 10000 && Qltb 50000 x = false.
Proof.
  destruct (Qltb x 10000) eqn:E1; [|reflexivity].
  destruct (Qltb 50000 x) eqn:E2; [|reflexivity].
  apply Qltb_iff in E1, E2. exfalso.
  assert (H : (50000 < 10000)%Q) by (apply (Qlt_trans _ x); assumption).
  discriminate H.
Qed.

Lemma match_list_same {A B} (l : list A) (x : B) :
  match l with [] => x | _ => x end = x.
Proof. destruct l; reflexivity. Qed.

Lemma has_action_collect (a : pystr) (l : list pystr) :
  has_action a [rec_collect_missing_information l]
  = has_action a [rec_collect_missing_information []].
Proof. reflexivity. Qed.

Ltac eval_closed_has_action d :=
  repeat match goal with
  | |- context [has_action ?a ?l] =>
      lazymatch l with
      | context [d] => fail
      | _ => let v := eval vm_compute in (has_action a l) in change (has_action a l) with v
      end
  end.

Ltac distribute_has_action d :=
  cbv zeta; unfold generate_recommendations; cbv zeta;
  generalize (parse_estimated_loss (dict_get d (lit "estimated_loss") (lit "0"))) as q;
  intros q;
  rewrite has_action_default by (vm_compute; reflexivity);
  rewrite !has_action_app, has_action_missing, !has_action_if, has_action_collect;
  eval_closed_has_action d;
  rewrite ?if_same, ?match_list_same, ?orb_false_r;
  repeat match goal with |- context [if ?b then _ else _] => destruct b end;
  reflexivity.

(** Which of the actions of rules 2 to 5 the recommendations hold. *)
Lemma generate_recommendations_branch_actions (d : record) :
  let severity := py_lower (dict_get d (lit "severity") (lit "Unknown")) in
  let confidence := py_lower (dict_get d (lit "confidence") (lit "Unknown")) in
  let estimated_loss := parse_estimated_loss (dict_get d (lit "estimated_loss") (lit "0")) in
  let fast_track := bool_decide (severity = lit "low") && bool_decide (confidence = lit "high")
                    && Qltb estimated_loss 10000 in
  has_action (lit "Fast-track Approval") (generate_recommendations d) = fast_track
  /\ has_action (lit "Standard Review Process") (generate_recommendations d)
     = negb fast_track && bool_decide (severity = lit "medium")
  /\ has_action (lit "Detailed Investigation Required") (generate_recommendations d)
     = negb fast_track && negb (bool_decide (severity = lit "medium"))
       && py_in severity [lit "high"; lit "critical"]
  /\ has_action (lit "Supervisor Approval Required") (generate_recommendations d)
     = Qltb 50000 estimated_loss.
Proof.
  split; [|split; [|split]]; distribute_has_action d.
Qed.

End Branches.

(** C3 (counterexample): the fast-track branch never co-fires with the
    high-value rule, since it needs a parsed loss below 10000 while the
    high-value rule needs one above 50000. *)
Lemma generate_recommendations_fast_track_excludes_supervisor :
  ~ exists d : record,
      has_action (lit "Fast-track Approval") (generate_recommendations d) = true
      /\ has_action (lit "Supervisor Approval Required") (generate_recommendations d) = true.
Proof.
  intros [d [Hft Hsar]].
  destruct (generate_recommendations_branch_actions d) as [H1 [_ [_ H4]]].
  cbv zeta in H1, H4. rewrite H1 in Hft. rewrite H4 in Hsar.
  apply andb_true_iff in Hft as [_ Hlt].
  pose proof (Qltb_10000_50000
    (parse_estimated_loss (dict_get d (lit "estimated_loss") (lit "0")))) as H.
  rewrite Hlt, Hsar in H. discriminate H.
Qed.

(** C3: the fast-track, medium and high/critical branches of
    [generate_recommendations] form an if/elif/elif chain: each fires exactly
    under its own condition and the earlier ones failing, so at most one
    fires, and a low severity that misses fast-track fires none. The
    high-value rule fires exactly when the parsed loss exceeds 50000, never
    together with fast-track, and it co-fires with the medium branch, with
    the high/critical branch (the example of the spec, which also requests a
    fire department report) and with no branch at all. *)
Theorem generate_recommendations_severity_branches :
  (forall d : record,
     let severity := py_lower (dict_get d (lit "severity") (lit "Unknown")) in
     let confidence := py_lower (dict_get d (lit "confidence") (lit "Unknown")) in
     let estimated_loss := parse_estimated_loss (dict_get d (lit "estimated_loss") (lit "0")) in
     let fast_track := bool_decide (severity = lit "low") && bool_decide (confidence = lit "high")
                       && Qltb estimated_loss 10000 in
     let ft := has_action (lit "Fast-track Approval") (generate_recommendations d) in
     let md := has_action (lit "Standard Review Process") (generate_recommendations d) in
     let hc := has_action (lit "Detailed Investigation Required") (generate_recommendations d) in
     let hv := has_action (lit "Supervisor Approval Required") (generate_recommendations d) in
     ft = fast_track
     /\ md = negb fast_track && bool_decide (severity = lit "medium")
     /\ hc = negb fast_track && negb (bool_decide (severity = lit "medium"))
             && py_in severity [lit "high"; lit "critical"]
     /\ hv = Qltb 50000 estimated_loss
     /\ (Nat.b2n ft + Nat.b2n md + Nat.b2n hc <= 1)%nat
     /\ implb (bool_decide (severity = lit "low") && negb fast_track) (negb (ft || md || hc)) = true
     /\ ft && hv = false)
  /\ (let d := <[lit "severity" := lit "Medium"]> (<[lit "estimated_loss" := lit "$60,000"]> ∅) in
      has_action (lit "Standard Review Process") (generate_recommendations d)
      && has_action (lit "Supervisor Approval Required") (generate_recommendations d) = true)
  /\ (let d := <[lit "severity" := lit "critical"]> (<[lit "confidence" := lit "high"]>
               (<[lit "estimated_loss" := lit "$200,000"]> (<[lit "loss_type" := lit "fire"]> ∅))) in
      has_action (lit "Detailed Investigation Required") (generate_recommendations d)
      && has_action (lit "Supervisor Approval Required") (generate_recommendations d)
      && has_action (lit "Request Fire Department Report") (generate_recommendations d) = true)
  /\ (let d := <[lit "severity" := lit "low"]> (<[lit "confidence" := lit "low"]>
               (<[lit "estimated_loss" := lit "$60,000"]> ∅)) in
      has_action (lit "Supervisor Approval Required") (generate_recommendations d)
      && negb (has_action (lit "Fast-track Approval") (generate_recommendations d)
               || has_action (lit "Standard Review Process") (generate_recommendations d)
               || has_action (lit "Detailed Investigation Required") (generate_recommendations d))
      = true).
Proof.
  split; [|split; [|split]]; [|vm_compute; reflexivity ..].
  intros d. destruct (generate_recommendations_branch_actions d) as [H1 [H2 [H3 H4]]].
  cbv zeta in *. rewrite H1, H2, H3, H4. clear H1 H2 H3 H4.
  generalize (py_lower (dict_get d (lit "confidence") (lit "Unknown"))) as c.
  generalize (parse_estimated_loss (dict_get d (lit "estimated_loss") (lit "0"))) as q.
  generalize (py_lower (dict_get d (lit "severity") (lit "Unknown"))) as s.
  intros s q c.
  pose proof (Qltb_10000_50000 q) as Hq.
  split; [reflexivity|]. split; [reflexivity|]. split; [reflexivity|].
  split; [reflexivity|]. split; [|split].
  - destruct (bool_decide (s = lit "low")), (bool_decide (c = lit "high")), (Qltb q 10000),
      (bool_decide (s = lit "medium")), (py_in s [lit "high"; lit "critical"]); cbn; lia.
  - destruct (bool_decide (s = lit "low")) eqn:El; [|reflexivity].
    apply bool_decide_eq_true in El. subst s.
    rewrite (bool_decide_false (lit "low" = lit "medium")) by (intros H; vm_compute in H; discriminate H).
    change (py_in (lit "low") [lit "high"; lit "critical"]) with false.
    destruct (bool_decide (c = lit "high")), (Qltb q 10000); reflexivity.
  - destruct (bool_decide (s = lit "low")), (bool_decide (c = lit "high")); cbn [andb];
      [exact Hq|reflexivity ..].
Qed.

(** C4: [parse_estimated_loss] gives 200000 on [Over $200,000] and 0 on
    [Not specified] and on the empty string, but it does not strip the rupee
    and euro signs: its two non-dollar literals are the UTF-8 bytes of those
    signs read as Mac Roman text, and each holds an uppercase [Ç] that
    [lower()] has already turned into [ç]. So on [2₹50] and [2€50] the first
    number token is [2], where stripping the signs gives [250]; even the
    literal sequence itself is left in place. *)
Theorem parse_estimated_loss_currency_signs :
  parse_estimated_loss (lit "Over $200,000") = 200000%Q
  /\ parse_estimated_loss (lit "Not specified") = 0%Q
  /\ parse_estimated_loss [] = 0%Q
  /\ parse_estimated_loss [50; 8377; 53; 48]%N = 2%Q
  /\ parse_estimated_loss_spec [50; 8377; 53; 48]%N = 250%Q
  /\ parse_estimated_loss [50; 8364; 53; 48]%N = 2%Q
  /\ parse_estimated_loss_spec [50; 8364; 53; 48]%N = 250%Q
  /\ parse_estimated_loss ([50]%N ++ currency_lit1 ++ [53; 48]%N) = 2%Q
  /\ parse_estimated_loss ([50]%N ++ currency_lit2 ++ [53; 48]%N) = 2%Q.
Proof. repeat split; vm_compute; reflexivity. Qed.

(** ** extract_keywords_from_explanation *)

Section Quotes.

Lemma span_nonquote_spec (s a b : pystr) :
  span_nonquote s = (a, b) ->
  s = a ++ b /\ Forall (fun c => is_quote c = false) a
  /\ match b with [] => True | q :: _ => is_quote q = true end.
Proof.
  revert a b. induction s as [|c t IH]; intros a b H; simpl in H.
  - injection H as <- <-. repeat split; constructor.
  - destruct (is_quote c) eqn:Hc.
    + injection H as <- <-. repeat split; [constructor|exact Hc].
    + destruct (span_nonquote t) as [a' b'] eqn:Ht.
      injection H as <- <-. destruct (IH a' b' eq_refl) as [-> [Ha Hb]].
      split; [reflexivity|split; [constructor; assumption|assumption]].
Qed.

Lemma quote_scan_inside (s : pystr) : forall acc,
  quote_scan (Inside acc) s =
  match span_nonquote s with
  | (_, []) => []
  | (a, _ :: r) =>
      match acc ++ a with
      | [] => quote_scan (Inside []) r
      | g => g :: quote_scan Outside r
      end
  end.
Proof.
  induction s as [|c t IH]; intros acc; [reflexivity|].
  cbn [quote_scan span_nonquote]. destruct (is_quote c).
  - rewrite app_nil_r. destruct acc; reflexivity.
  - rewrite IH. destruct (span_nonquote t) as [a b].
    destruct b; [reflexivity|]. rewrite <- app_assoc. reflexivity.
Qed.

Lemma quote_scan_outside (s : pystr) :
  quote_scan Outside s =
  match span_nonquote s with
  | (_, []) => []
  | (_, _ :: r) => quote_scan (Inside []) r
  end.
Proof.
  induction s as [|c t IH]; [reflexivity|].
  cbn [quote_scan span_nonquote]. destruct (is_quote c); [reflexivity|].
  rewrite IH. destruct (span_nonquote t) as [a b]. reflexivity.
Qed.

Lemma findall_quoted_scan (n : nat) : forall s,
  (length s <= n)%nat -> findall_quoted n s = quote_scan Outside s.
Proof.
  induction n as [|n IH]; intros s Hl.
  - destruct s; [reflexivity|]. simpl in Hl. lia.
  - destruct s as [|c t]; [reflexivity|]. simpl in Hl.
    cbn [findall_quoted quote_scan]. unfold match_quoted.
    destruct (is_quote c) eqn:Hc.
    + rewrite quote_scan_inside.
      destruct (span_nonquote t) as [a b] eqn:Hs.
      destruct (span_nonquote_spec t a b Hs) as [Ht [_ Hb]].
      destruct b as [|q r].
      * rewrite IH by lia. rewrite quote_scan_outside, Hs. reflexivity.
      * destruct a as [|x a'].
        -- rewrite IH by lia. rewrite quote_scan_outside, Hs. reflexivity.
        -- rewrite Hb. cbn [app]. f_equal. apply IH.
           rewrite Ht in Hl. rewrite length_app in Hl. simpl in Hl. lia.
    + apply IH. lia.
Qed.

End Quotes.

(** C8 (counterexample): the two quotes around a keyword need not match,
    as in a single quote before [Fire] and a double quote after it, and two
    quotes in a row enclose nothing: the first cannot open a span (the run
    between them is empty), so the second opens one, and on [''a'] the
    keyword [a] is returned where closing the span at the second quote
    would leave [a] unenclosed. *)
Lemma extract_keywords_from_explanation_unmatched_quotes :
  extract_keywords_from_explanation (qlit "say 'Fire~ now") = [lit "Fire"]
  /\ extract_keywords_from_explanation (lit "''a'") = [lit "a"].
Proof. split; vm_compute; reflexivity. Qed.

(** C8: [extract_keywords_from_explanation] returns, left to right and with
    duplicates, the non-empty runs of non-quote characters between a quote
    (single or double, in any combination) that opens and the next quote:
    outside a run a quote opens one; inside, a quote closes a non-empty run,
    while a quote right after the opening one opens a new run instead; a
    closing quote does not open the next run, and a run still open at the
    end is dropped. On the example of the spec it returns [Fire] and
    [smoke damage]. *)
Theorem extract_keywords_from_explanation_quote_scan :
  (forall explanation : pystr,
     extract_keywords_from_explanation explanation = quote_scan Outside explanation)
  /\ extract_keywords_from_explanation (lit "Classified as 'Fire' due to 'smoke damage'")
     = [lit "Fire"; lit "smoke damage"].
Proof.
  split.
  - intros s. apply findall_quoted_scan. lia.
  - vm_compute. reflexivity.
Qed.

(** ** highlight_keywords_in_text *)

Section Highlight.

Lemma insert_by_len_perm (x : pystr) (l : list pystr) :
  Permutation (insert_by_len x l) (x :: l).
Proof.
  induction l as [|y l IH]; simpl; [reflexivity|].
  destruct (length x <=? length y)%nat; [reflexivity|].
  eapply perm_trans; [apply perm_skip, IH|apply perm_swap].
Qed.

Lemma sort_by_len_perm (l : list pystr) : Permutation (sort_by_len l) l.
Proof.
  induction l as [|x l IH]; simpl; [reflexivity|].
  eapply perm_trans; [apply insert_by_len_perm|apply perm_skip, IH].
Qed.

Lemma insert_by_len_sorted (x : pystr) (l : list pystr) :
  StronglySorted len_le l -> StronglySorted len_le (insert_by_len x l).
Proof.
  induction l as [|y l IH]; intros Hs; simpl.
  - repeat constructor.
  - apply StronglySorted_inv in Hs as [Hl Hy].
    destruct (length x <=? length y)%nat eqn:E.
    + apply Nat.leb_le in E. constructor; [constructor; assumption|].
      constructor; [exact E|].
      eapply List.Forall_impl; [|exact Hy]. unfold len_le. intros z Hz. lia.
    + apply Nat.leb_gt in E. constructor; [apply IH, Hl|].
      eapply Permutation_Forall; [symmetry; apply insert_by_len_perm|].
      constructor; [unfold len_le; lia|exact Hy].
Qed.

Lemma sort_by_len_sorted (l : list pystr) : StronglySorted len_le (sort_by_len l).
Proof.
  induction l as [|x l IH]; simpl; [constructor|]. apply insert_by_len_sorted, IH.
Qed.

Lemma StronglySorted_snoc {A} (R : A -> A -> Prop) (l : list A) (a : A) :
  StronglySorted R l -> List.Forall (fun y => R y a) l -> StronglySorted R (l ++ [a]).
Proof.
  induction l as [|x l IH]; intros Hs Ha; simpl.
  - repeat constructor.
  - apply StronglySorted_inv in Hs as [Hl Hx].
    inversion Ha as [|? ? Hxa Ha']; subst.
    constructor; [apply IH; assumption|].
    apply List.Forall_app. split; [exact Hx|]. constructor; [exact Hxa|constructor].
Qed.

Lemma StronglySorted_rev {A} (R : A -> A -> Prop) (l : list A) :
  StronglySorted R l -> StronglySorted (fun a b => R b a) (rev l).
Proof.
  induction l as [|x l IH]; intros Hs; simpl; [constructor|].
  apply StronglySorted_inv in Hs as [Hl Hx].
  apply StronglySorted_snoc; [apply IH, Hl|].
  apply List.Forall_rev. exact Hx.
Qed.

Lemma filter_insert_by_len (n : nat) (x : pystr) (l : list pystr) :
  List.filter (fun k => (length k =? n)%nat) (insert_by_len x l)
  = if (length x =? n)%nat then x :: List.filter (fun k => (length k =? n)%nat) l
    else List.filter (fun k => (length k =? n)%nat) l.
Proof.
  induction l as [|y l IH]; simpl; [reflexivity|].
  destruct (length x <=? length y)%nat eqn:E; simpl; [reflexivity|].
  rewrite IH. apply Nat.leb_gt in E.
  destruct (length y =? n)%nat eqn:Ey, (length x =? n)%nat eqn:Ex; try reflexivity.
  apply Nat.eqb_eq in Ey, Ex. lia.
Qed.

Lemma filter_sort_by_len (n : nat) (l : list pystr) :
  List.filter (fun k => (length k =? n)%nat) (sort_by_len l)
  = List.filter (fun k => (length k =? n)%nat) l.
Proof.
  induction l as [|x l IH]; simpl; [reflexivity|].
  rewrite filter_insert_by_len, IH. reflexivity.
Qed.

Lemma filter_rev {A} (p : A -> bool) (l : list A) :
  List.filter p (rev l) = rev (List.filter p l).
Proof.
  induction l as [|x l IH]; simpl; [reflexivity|].
  rewrite filter_app', IH. simpl. destruct (p x); simpl; [reflexivity|apply app_nil_r].
Qed.

End Highlight.

Section Substitution.

Variable k : pystr.

Lemma sub_ci_go_skip (s : pystr) : forall n, sub_ci_go k n s = sub_ci_go k O (skipn n s).
Proof.
  induction s as [|c t IH]; intros n.
  - destruct n; reflexivity.
  - destruct n as [|n]; [reflexivity|]. cbn [sub_ci_go skipn]. apply IH.
Qed.

Lemma ci_prefix_length (s : pystr) : ci_prefix k s = true -> (length k <= length s)%nat.
Proof.
  revert s. induction k as [|p k' IH]; intros s H; simpl; [lia|].
  destruct s as [|x s]; [discriminate H|]. simpl in H |- *.
  apply andb_true_iff in H as [_ H]. apply IH in H. lia.
Qed.

Lemma ci_prefix_firstn (s : pystr) : ci_prefix k s = ci_prefix k (firstn (length k) s).
Proof.
  revert s. induction k as [|p k' IH]; intros s; [reflexivity|].
  destruct s as [|x s]; [reflexivity|]. simpl. rewrite <- IH. reflexivity.
Qed.

Hypothesis Hk : k <> [].

Lemma sub_ci_go_step (c : N) (t : pystr) :
  sub_ci_go k O (c :: t) =
  if ci_prefix k (c :: t)
  then mark (firstn (length k) (c :: t)) ++ sub_ci_go k O (skipn (length k) (c :: t))
  else c :: sub_ci_go k O t.
Proof.
  cbn [sub_ci_go]. destruct (ci_prefix k (c :: t)); [|reflexivity].
  f_equal. rewrite sub_ci_go_skip. destruct k as [|p k']; [congruence|]. reflexivity.
Qed.

Lemma sub_ci_go_pieces (n : nat) : forall s, (length s <= n)%nat ->
  exists ps : list piece,
    erase ps = s /\ render ps = sub_ci_go k O s
    /\ (forall m, In (Marked m) ps -> ci_prefix k m = true /\ length m = length k)
    /\ (forall ps1 c ps2, ps = ps1 ++ Plain c :: ps2 -> ci_prefix k (c :: erase ps2) = false).
Proof.
  induction n as [|n IH]; intros s Hl.
  - destruct s; [|simpl in Hl; lia].
    exists []. split; [reflexivity|]. split; [reflexivity|]. split.
    + intros m [].
    + intros ps1 c ps2 H. destruct ps1; discriminate H.
  - destruct s as [|c t].
    { exists []. split; [reflexivity|]. split; [reflexivity|]. split.
      - intros m [].
      - intros ps1 c ps2 H. destruct ps1; discriminate H. }
    rewrite sub_ci_go_step. destruct (ci_prefix k (c :: t)) eqn:Hp.
    + pose proof (ci_prefix_length _ Hp) as Hlen.
      destruct (IH (skipn (length k) (c :: t))) as (ps & He & Hr & Hm & Hpl).
      { rewrite length_skipn. simpl in Hl |- *. destruct k as [|p k']; [congruence|].
        simpl. lia. }
      exists (Marked (firstn (length k) (c :: t)) :: ps). split; [|split; [|split]].
      * simpl. rewrite He. apply firstn_skipn.
      * simpl. rewrite Hr. reflexivity.
      * intros m [Hm0|Hm1].
        -- injection Hm0 as <-. split.
           ++ rewrite <- ci_prefix_firstn. exact Hp.
           ++ rewrite length_firstn. lia.
        -- apply Hm, Hm1.
      * intros ps1 c' ps2 H. destruct ps1 as [|p1 ps1]; [discriminate H|].
        injection H as _ H. exact (Hpl _ _ _ H).
    + destruct (IH t) as (ps & He & Hr & Hm & Hpl); [simpl in Hl; lia|].
      exists (Plain c :: ps). split; [|split; [|split]].
      * simpl. rewrite He. reflexivity.
      * simpl. rewrite Hr. reflexivity.
      * intros m [Hm0|Hm1]; [discriminate Hm0|apply Hm, Hm1].
      * intros ps1 c' ps2 H. destruct ps1 as [|p1 ps1].
        -- injection H as <- <-. rewrite He. exact Hp.
        -- injection H as _ H. exact (Hpl _ _ _ H).
Qed.

End Substitution.

(** C9: [highlight_keywords_in_text] takes the keywords in a stable order by
    descending length (a permutation of them, sorted, in which keywords of
    one length keep their order) and substitutes them one after the other,
    each on the text produced so far. For a non-empty keyword the
    substitution cuts the text into characters left alone and substrings
    that match the keyword case-insensitively (each the length of the
    keyword), scanning left to right: no match starts at a character left
    alone, each match is wrapped in the span with its own casing, and the
    text outside is unchanged. The empty keyword puts an empty span before
    every character and at the end. On [customer reported FIRE damage] with
    [fire] exactly [FIRE] is wrapped, and with no keywords the text is
    returned unchanged. *)
Theorem highlight_keywords_in_text_marks :
  (forall keywords : list pystr,
     Permutation (sorted_keywords keywords) keywords
     /\ StronglySorted (fun a b => len_le b a) (sorted_keywords keywords)
     /\ (forall n, List.filter (fun k => (length k =? n)%nat) (sorted_keywords keywords)
                   = List.filter (fun k => (length k =? n)%nat) keywords))
  /\ (forall (text : pystr) (keywords : list pystr),
        highlight_keywords_in_text text keywords
        = fold_left (fun t keyword => sub_ci keyword t) (sorted_keywords keywords) text)
  /\ (forall keyword text : pystr,
        match keyword with
        | [] => sub_ci keyword text = flat_map (fun c => mark [] ++ [c]) text ++ mark []
        | _ :: _ =>
            exists ps : list piece,
              erase ps = text /\ render ps = sub_ci keyword text
              /\ (forall m, In (Marked m) ps ->
                    ci_prefix keyword m = true /\ length m = length keyword)
              /\ (forall ps1 c ps2, ps = ps1 ++ Plain c :: ps2 ->
                    ci_prefix keyword (c :: erase ps2) = false)
        end)
  /\ highlight_keywords_in_text (lit "customer reported FIRE damage") [lit "fire"]
     = lit "customer reported " ++ mark (lit "FIRE") ++ lit " damage"
  /\ (forall text : pystr, highlight_keywords_in_text text [] = text).
Proof.
  split; [|split; [reflexivity|split; [|split]]].
  - intros keywords. unfold sorted_keywords. split; [|split].
    + eapply perm_trans; [symmetry; apply Permutation_rev|].
      eapply perm_trans; [apply sort_by_len_perm|]. symmetry. apply Permutation_rev.
    + apply StronglySorted_rev, sort_by_len_sorted.
    + intros n. rewrite filter_rev, filter_sort_by_len, filter_rev, rev_involutive.
      reflexivity.
  - intros keyword text. destruct keyword as [|p k']; [reflexivity|].
    apply (sub_ci_go_pieces (p :: k') ltac:(discriminate) (length text)). lia.
  - vm_compute. reflexivity.
  - intros text. reflexivity.
Qed.

(** ** More of generate_recommendations *)

(** Splits on every boolean condition left in the goal, reducing the
    branches it decides. *)
Ltac case_conditions :=
  repeat match goal with
  | |- context [if ?b then _ else _] =>
      lazymatch b with
      | true => fail
      | false => fail
      | _ => lazymatch type of b with
             | bool => destruct b; cbv beta iota
             end
      end
  end.

Section RecInvariants.

Lemma generate_recommendations_invariants_hold (d : record) :
  recommendation_invariants (generate_recommendations d) = true.
Proof.
  unfold generate_recommendations. cbv zeta.
  generalize (parse_estimated_loss (dict_get d (lit "estimated_loss") (lit "0"))) as q. intros q.
  generalize ((if py_in (py_lower (dict_get d (lit "incident_date") (lit "Not specified")))
                   [lit "not specified"; lit "unknown"]
               then [lit "incident date"] else [])
              ++ (if py_in (py_lower (dict_get d (lit "location") (lit "Not specified")))
                      [lit "not specified"; lit "unknown"]
                  then [lit "location"] else [])
              ++ (if Qeq_bool q 0 then [lit "cost estimate"] else [])) as m.
  intros m. destruct m as [|x m];
  case_conditions; vm_compute; reflexivity.
Qed.

Lemma recommendation_invariants_spec (recs : list recommendation) :
  recommendation_invariants recs = true ->
  NoDup (map action recs) /\ (1 <= length recs <= 13)%nat
  /\ Forall (fun r => py_in (priority r) priority_order = true
                      /\ py_in (category r) [lit "Verification"; lit "Communication";
                                             lit "Processing"; lit "Documentation";
                                             lit "Administrative"] = true) recs
  /\ (has_action (lit "Standard Claim Processing") recs = false
      \/ map action recs = [lit "Standard Claim Processing"]).
Proof.
  unfold recommendation_invariants.
  intros H. apply andb_prop in H as [H H5]. apply andb_prop in H as [H H4].
  apply andb_prop in H as [H H3]. apply andb_prop in H as [H1 H2].
  apply bool_decide_eq_true in H1. apply Nat.leb_le in H2, H3.
  split; [exact H1|]. split; [lia|]. split.
  - apply List.Forall_forall. intros r Hr.
    apply forallb_forall with (x := r) in H4; [|exact Hr].
    apply andb_prop in H4. exact H4.
  - apply orb_prop in H5 as [H5|H5].
    + left. apply negb_true_iff. exact H5.
    + right. apply bool_decide_eq_true in H5. exact H5.
Qed.

End RecInvariants.

(** Extra: [generate_recommendations] never returns an empty list, never
    returns more than 13 recommendations, and never repeats an action. *)
Theorem generate_recommendations_distinct_bounded (d : record) :
  NoDup (map action (generate_recommendations d))
  /\ (1 <= length (generate_recommendations d) <= 13)%nat.
Proof.
  destruct (recommendation_invariants_spec _ (generate_recommendations_invariants_hold d))
    as (H1 & H2 & _).
  split; assumption.
Qed.

(** Extra: every recommendation of [generate_recommendations] has one of the
    four priorities grouped by [format_recommendations_compact] and one of the
    five categories Verification, Communication, Processing, Documentation and
    Administrative. *)
Theorem generate_recommendations_priorities_categories (d : record) :
  Forall (fun r => py_in (priority r) priority_order = true
                   /\ py_in (category r) [lit "Verification"; lit "Communication";
                                          lit "Processing"; lit "Documentation";
                                          lit "Administrative"] = true)
         (generate_recommendations d).
Proof.
  destruct (recommendation_invariants_spec _ (generate_recommendations_invariants_hold d))
    as (_ & _ & H & _).
  exact H.
Qed.

(** Extra: the default recommendation Standard Claim Processing never appears
    beside another one: either it is absent, or it is the only recommendation. *)
Theorem generate_recommendations_standard_alone (d : record) :
  has_action (lit "Standard Claim Processing") (generate_recommendations d) = false
  \/ map action (generate_recommendations d) = [lit "Standard Claim Processing"].
Proof.
  destruct (recommendation_invariants_spec _ (generate_recommendations_invariants_hold d))
    as (_ & _ & _ & H).
  exact H.
Qed.

(** ** Words, colours and the structure indicator *)

Section Split.

Lemma split_go_app_space (a b : pystr) (w : N) (cur : pystr) :
  py_isspace w = true ->
  split_go (a ++ w :: b) cur = split_go a cur ++ split_go b [].
Proof.
  intros Hw. revert cur. induction a as [|c a IH]; intros cur; simpl.
  - rewrite Hw. destruct cur; reflexivity.
  - destruct (py_isspace c).
    + destruct cur; simpl; rewrite IH; reflexivity.
    + apply IH.
Qed.

Lemma split_go_words (s cur : pystr) :
  List.Forall (fun c => py_isspace c = false) cur ->
  List.Forall (fun w => w <> [] /\ List.Forall (fun c => py_isspace c = false) w) (split_go s cur)
  /\ concat (split_go s cur) = rev cur ++ List.filter (fun c => negb (py_isspace c)) s.
Proof.
  revert cur. induction s as [|c s IH]; intros cur Hcur; simpl.
  - destruct cur as [|x cur]; simpl.
    + split; [constructor|reflexivity].
    + split; [|rewrite app_nil_r; reflexivity].
      constructor; [|constructor]. split.
      * intros H. apply (f_equal (@length N)) in H.
        rewrite length_app in H. simpl in H. lia.
      * apply List.Forall_app. split; [apply List.Forall_rev|]; inversion Hcur; auto.
  - destruct (py_isspace c) eqn:Ec; simpl.
    + destruct (IH [] (List.Forall_nil _)) as [H1 H2].
      destruct cur as [|x cur]; simpl.
      * split; [exact H1|exact H2].
      * split.
        -- constructor; [|exact H1]. split.
           ++ intros H. apply (f_equal (@length N)) in H.
              rewrite length_app in H. simpl in H. lia.
           ++ apply List.Forall_app. split; [apply List.Forall_rev|]; inversion Hcur; auto.
        -- simpl. rewrite H2. reflexivity.
    + destruct (IH (c :: cur)) as [H1 H2]; [constructor; assumption|].
      split; [exact H1|]. rewrite H2. simpl. rewrite <- app_assoc. reflexivity.
Qed.

Lemma split_go_length (s cur : pystr) :
  (2 * length (split_go s cur) <= length s + match cur with [] => 1 | _ => 2 end)%nat.
Proof.
  revert cur. induction s as [|c s IH]; intros cur; simpl.
  - destruct cur; simpl; lia.
  - destruct (py_isspace c).
    + specialize (IH []). destruct cur; simpl in *; lia.
    + specialize (IH (c :: cur)). destruct cur; simpl in *; lia.
Qed.

End Split.

Section Lookups.

Lemma assoc_get_missing {A} (kvs : list (pystr * A)) (key : pystr) (default : A) :
  key ∉ map fst kvs -> assoc_get kvs key default = default.
Proof.
  induction kvs as [|[k v] kvs IH]; simpl; intros Hk; [reflexivity|].
  rewrite bool_decide_false.
  - apply IH. intros Hin. apply Hk. apply elem_of_cons. right. exact Hin.
  - intros ->. apply Hk. apply elem_of_cons. left. reflexivity.
Qed.

Lemma assoc_get_found {A} (kvs : list (pystr * A)) (key : pystr) (default : A) :
  key ∈ map fst kvs -> assoc_get kvs key default ∈ map snd kvs.
Proof.
  induction kvs as [|[k v] kvs IH]; simpl; intros Hk.
  - apply elem_of_nil in Hk. contradiction.
  - apply elem_of_cons. case_bool_decide; [left; reflexivity|].
    right. apply IH. apply elem_of_cons in Hk as [Hk|Hk]; [congruence|exact Hk].
Qed.

Lemma py_in_elem (x : pystr) (l : list pystr) : py_in x l = true <-> x ∈ l.
Proof.
  unfold py_in. rewrite existsb_exists. split.
  - intros [y [Hy Hxy]]. apply bool_decide_eq_true in Hxy. subst. apply list_elem_of_In. exact Hy.
  - intros Hx. exists x. split; [apply list_elem_of_In; exact Hx|]. apply bool_decide_eq_true. reflexivity.
Qed.

(** A lookup in a table whose values never equal the default returns the
    default exactly when the key is missing. *)
Lemma assoc_get_default_iff {A} (kvs : list (pystr * A)) (key : pystr) (default : A) :
  default ∉ map snd kvs ->
  assoc_get kvs key default = default <-> py_in key (map fst kvs) = false.
Proof.
  intros Hd. rewrite <- not_true_iff_false, py_in_elem. split.
  - intros He Hk. apply Hd. rewrite <- He. apply assoc_get_found. exact Hk.
  - intros Hk. apply assoc_get_missing. exact Hk.
Qed.

End Lookups.

Section Quality.

Lemma completeness_filled_le (d : record) :
  (length (List.filter (fun field =>
              let value := dict_get d field [] in
              negb (match value with [] => true | _ => false end)
              && negb (py_in value [lit "Unknown"; lit "Not specified"; lit "N/A"; []]))
            required_fields) <= 8)%nat.
Proof.
  etransitivity; [apply List.filter_length_le|]. vm_compute. lia.
Qed.

End Quality.

Lemma filter_nonspace_nil (s : pystr) :
  List.filter (fun c => negb (py_isspace c)) s = [] <->
  List.Forall (fun c => py_isspace c = true) s.
Proof.
  induction s as [|c s IH]; simpl; [split; constructor|].
  destruct (py_isspace c) eqn:Ec; simpl.
  - rewrite IH. split; [intros H; constructor; assumption|intros H; inversion H; assumption].
  - split; [discriminate|intros H; inversion H; congruence].
Qed.

Lemma concat_nonempty_nil (l : list pystr) :
  List.Forall (fun w => w <> []) l -> concat l = [] -> l = [].
Proof.
  destruct l as [|w l]; [reflexivity|]. simpl. intros Hl Hc.
  apply app_eq_nil in Hc as [Hw _]. inversion Hl. contradiction.
Qed.

(** Extra: [text.split()] as [calculate_token_count] uses it returns
    nonempty words without whitespace which, concatenated, give back the
    text with its whitespace removed. *)
Theorem py_split_words (text : pystr) :
  List.Forall (fun w => w <> [] /\ List.Forall (fun c => py_isspace c = false) w)
              (py_split text)
  /\ concat (py_split text) = List.filter (fun c => negb (py_isspace c)) text.
Proof.
  apply (split_go_words text []). constructor.
Qed.

(** Extra: the word count of [calculate_token_count] is additive over a
    whitespace separator: the words of [a], a whitespace character, then [b]
    are those of [a] plus those of [b]. *)
Theorem calculate_token_count_words_add (a b : pystr) (w : N) :
  py_isspace w = true ->
  fst (calculate_token_count (a ++ w :: b))
  = (fst (calculate_token_count a) + fst (calculate_token_count b))%nat.
Proof.
  intros Hw. unfold calculate_token_count, py_split. simpl.
  rewrite (split_go_app_space a b w [] Hw). apply length_app.
Qed.

Lemma calculate_token_count_words_add_witness :
  py_isspace 32 = true
  /\ fst (calculate_token_count (lit "a b" ++ 32%N :: lit "c"))
     = (fst (calculate_token_count (lit "a b")) + fst (calculate_token_count (lit "c")))%nat.
Proof.
  split; [reflexivity|]. apply (calculate_token_count_words_add (lit "a b") (lit "c") 32%N).
  reflexivity.
Defined.

(** Extra: [calculate_token_count] counts zero words exactly when every
    character of the text is whitespace (in particular for the empty text),
    and never more words than half the characters, rounded up. *)
Theorem calculate_token_count_words_zero_bound (text : pystr) :
  (fst (calculate_token_count text) = 0%nat
   <-> List.Forall (fun c => py_isspace c = true) text)
  /\ (2 * fst (calculate_token_count text) <= snd (calculate_token_count text) + 1)%nat.
Proof.
  unfold calculate_token_count, py_split. simpl.
  destruct (split_go_words text [] (List.Forall_nil _)) as [Hw Hc]. simpl in Hc.
  split; [|apply (split_go_length text [])].
  rewrite <- filter_nonspace_nil, <- Hc. split.
  - intros H. apply length_zero_iff_nil in H. rewrite H. reflexivity.
  - intros H. apply concat_nonempty_nil in H; [rewrite H; reflexivity|].
    eapply List.Forall_impl; [|exact Hw]. intros x [Hx _]. exact Hx.
Qed.

(** Extra: each display lookup of [utils.py] falls back to its default (the
    gray [#757575], or 50 percent) exactly when the lower-cased argument is not
    one of its keys; in particular the confidence colour is gray exactly when
    the confidence percentage is 50. *)
Theorem display_lookups_default (s : pystr) :
  (get_severity_color s = default_gray
   <-> py_in (py_lower s) [lit "low"; lit "medium"; lit "high"; lit "critical"] = false)
  /\ (get_priority_color s = default_gray
      <-> py_in (py_lower s) [lit "critical"; lit "high"; lit "medium"; lit "low"] = false)
  /\ (get_confidence_color s = default_gray
      <-> py_in (py_lower s) [lit "low"; lit "medium"; lit "high"] = false)
  /\ (get_confidence_percentage s = 50%nat
      <-> py_in (py_lower s) [lit "low"; lit "medium"; lit "high"] = false).
Proof.
  unfold get_severity_color, get_priority_color, get_confidence_color,
    get_confidence_percentage.
  split; [|split; [|split]]; apply assoc_get_default_iff;
    apply (bool_decide_unpack _); vm_compute; reflexivity.
Qed.

(** Extra: [get_structure_quality_indicator] depends only on the number of
    filled fields: Excellent when all 8 are filled, Good for 6 or 7, Fair for
    4 or 5 and Poor for 3 or fewer. *)
Theorem get_structure_quality_indicator_by_filled (d : record) :
  let '(filled, _, _) := calculate_completeness_score d in
  get_structure_quality_indicator d =
    if (8 <=? filled)%nat then [63743; 252; 252; 162]%N ++ lit " Excellent"
    else if (6 <=? filled)%nat then [63743; 252; 252; 176]%N ++ lit " Good"
    else if (4 <=? filled)%nat then [63743; 252; 252; 8224]%N ++ lit " Fair"
    else [63743; 252; 238; 165]%N ++ lit " Poor".
Proof.
  pose proof (completeness_filled_le d) as Hle.
  unfold get_structure_quality_indicator, calculate_completeness_score in *.
  set (f := length (List.filter _ required_fields)) in *. clearbody f.
  do 9 (destruct f as [|f]; [vm_compute; reflexivity|]). lia.
Qed.

(** Extra: the metrics of [create_comparison_metrics] are consistent: 8
    fields in total, at most 8 filled, the completeness percentage equal to
    filled * 100 / 8, at most one word per two characters (rounded up), and a
    confidence percentage among 40, 50, 70 and 95. *)
Theorem create_comparison_metrics_consistent (claim_text : pystr) (d : record) :
  let m := create_comparison_metrics claim_text d in
  fields_total m = 8%nat
  /\ (fields_filled m <= 8)%nat
  /\ (completeness_percentage m == inject_Z (Z.of_nat (fields_filled m)) * 100 / 8)%Q
  /\ (2 * word_count m <= char_count m + 1)%nat
  /\ confidence_percentage m ∈ [40%nat; 50%nat; 70%nat; 95%nat].
Proof.
  pose proof (completeness_filled_le d) as Hle.
  pose proof (split_go_length claim_text []) as Hw.
  unfold create_comparison_metrics, calculate_token_count, py_split,
    calculate_completeness_score in *.
  set (f := length (List.filter _ required_fields)) in *. clearbody f.
  cbv zeta. simpl.
  split; [reflexivity|]. split; [exact Hle|]. split.
  - do 9 (destruct f as [|f]; [vm_compute; reflexivity|]). lia.
  - split; [lia|].
    unfold get_confidence_percentage.
    generalize (py_lower (dict_get d (lit "confidence") (lit "Unknown"))). intros k.
    simpl. repeat case_bool_decide; set_solver.
Qed.

(** ** Grouping by priority *)

Section Grouping.

Lemma fold_add_to_group (recs : list record) (g : gmap pystr (list record)) (k : pystr) :
  fold_left add_to_group recs g !! k
  = match g !! k with
    | Some l => Some (l ++ List.filter (in_group k) recs)
    | None => None
    end.
Proof.
  revert g. induction recs as [|r recs IH]; intros g; simpl.
  - destruct (g !! k); [rewrite app_nil_r|]; reflexivity.
  - rewrite IH.
    assert (E : in_group k r = bool_decide (dict_get r (lit "priority") (lit "Medium") = k))
      by reflexivity.
    rewrite E. unfold add_to_group.
    set (p := dict_get r (lit "priority") (lit "Medium")).
    destruct (decide (p = k)) as [<-|Hne].
    + rewrite bool_decide_true by reflexivity.
      destruct (g !! p) as [l|] eqn:Eg.
      * rewrite lookup_insert_eq, <- app_assoc. reflexivity.
      * rewrite Eg. reflexivity.
    + rewrite bool_decide_false by exact Hne.
      destruct (g !! p); [rewrite lookup_insert_ne by exact Hne|]; reflexivity.
Qed.

Lemma group_recommendations_lookup (recs : list record) (priority : pystr) :
  priority ∈ priority_order ->
  group_recommendations recs !! priority = Some (List.filter (in_group priority) recs).
Proof.
  intros Hp. unfold group_recommendations. rewrite fold_add_to_group.
  repeat (apply elem_of_cons in Hp as [->|Hp]; [reflexivity|]).
  apply elem_of_nil in Hp. contradiction.
Qed.

Lemma fold_left_append {A} (F : pystr -> A -> pystr) (G : A -> pystr) (l : list A) (h : pystr) :
  List.Forall (fun x => forall h, F h x = h ++ G x) l ->
  fold_left F l h = h ++ concat (map G l).
Proof.
  intros HF. revert h. induction HF as [|x l Hx _ IH]; intros h; simpl.
  - rewrite app_nil_r. reflexivity.
  - rewrite IH, Hx, app_assoc. reflexivity.
Qed.

Lemma format_recommendations_compact_sections (r : record) (rs : list record) :
  format_recommendations_compact (r :: rs)
  = concat (map (fun priority =>
      let recs := List.filter (in_group priority) (r :: rs) in
      match recs with
      | [] => []
      | _ :: _ =>
          group_header (get_priority_color priority) (priority_icon priority) priority
            (length recs)
          ++ concat (map rec_item recs) ++ lit "</ul></div>"
      end) priority_order).
Proof.
  unfold format_recommendations_compact. cbv zeta.
  rewrite (fold_left_append _ (fun priority =>
      match List.filter (in_group priority) (r :: rs) with
      | [] => []
      | _ :: _ =>
          group_header (get_priority_color priority) (priority_icon priority) priority
            (length (List.filter (in_group priority) (r :: rs)))
          ++ concat (map rec_item (List.filter (in_group priority) (r :: rs)))
          ++ lit "</ul></div>"
      end)).
  - reflexivity.
  - apply List.Forall_forall. intros priority Hp h.
    apply list_elem_of_In in Hp.
    rewrite (group_recommendations_lookup (r :: rs) priority Hp).
    destruct (List.filter (in_group priority) (r :: rs)) as [|x xs]; [rewrite app_nil_r; reflexivity|].
    rewrite (fold_left_append _ rec_item).
    + rewrite <- !app_assoc. reflexivity.
    + apply List.Forall_forall. intros y _ h'. reflexivity.
Qed.

Lemma filter_disjoint_or {A} (f g : A -> bool) (l : list A) :
  (forall x, f x = true -> g x = false) ->
  Permutation (List.filter (fun x => f x || g x) l) (List.filter f l ++ List.filter g l).
Proof.
  intros Hfg. induction l as [|x l IH]; simpl; [constructor|].
  destruct (f x) eqn:Ef; simpl.
  - rewrite (Hfg x Ef). constructor. exact IH.
  - destruct (g x); simpl; [|exact IH].
    rewrite IH. apply Permutation_middle.
Qed.

Lemma concat_groups_perm (keys : list pystr) (l : list record) :
  NoDup keys ->
  Permutation (concat (map (fun k => List.filter (in_group k) l) keys))
              (List.filter (fun x => py_in (dict_get x (lit "priority") (lit "Medium")) keys) l).
Proof.
  induction keys as [|k ks IH]; intros Hnd; simpl.
  - induction l; simpl; [constructor|]. exact IHl.
  - apply NoDup_cons in Hnd as [Hk Hnd].
    rewrite (IH Hnd).
    transitivity (List.filter (fun x => in_group k x
                     || py_in (dict_get x (lit "priority") (lit "Medium")) ks) l).
    + symmetry. apply filter_disjoint_or.
      intros x Hx. unfold in_group in Hx. apply bool_decide_eq_true in Hx. rewrite Hx.
      apply not_true_iff_false. rewrite py_in_elem. exact Hk.
    + reflexivity.
Qed.

Lemma concat_map_nil {A B} (f : A -> list B) (l : list A) :
  (forall x, x ∈ l -> f x = []) -> concat (map f l) = [].
Proof.
  induction l as [|x l IH]; intros H; simpl; [reflexivity|].
  rewrite H by (apply elem_of_cons; left; reflexivity).
  apply IH. intros y Hy. apply H. apply elem_of_cons. right. exact Hy.
Qed.

Lemma filter_all_true {A} (f : A -> bool) (l : list A) :
  List.Forall (fun x => f x = true) l -> List.filter f l = l.
Proof.
  induction 1 as [|x l Hx _ IH]; simpl; [reflexivity|]. rewrite Hx, IH. reflexivity.
Qed.

End Grouping.

(** Extra: for a nonempty list, [format_recommendations_compact] renders,
    for Critical, High, Medium and Low in that order, one section for each
    priority that some recommendation has (the priority key defaulting to
    Medium): a header with the priority colour, icon and the number of such
    recommendations, their items in input order, and the closing tags.
    Recommendations with any other priority are left out. *)
Theorem format_recommendations_compact_grouped (r : record) (rs : list record) :
  format_recommendations_compact (r :: rs)
  = concat (map (fun priority =>
      let recs := List.filter (fun rec =>
                    bool_decide (dict_get rec (lit "priority") (lit "Medium") = priority))
                    (r :: rs) in
      match recs with
      | [] => []
      | _ :: _ =>
          group_header (get_priority_color priority) (priority_icon priority) priority
            (length recs)
          ++ concat (map rec_item recs) ++ lit "</ul></div>"
      end) priority_order).
Proof.
  exact (format_recommendations_compact_sections r rs).
Qed.

(** Extra: a nonempty list of recommendations none of which has one of the
    four priorities renders as the empty string, not as the message shown
    for an empty list. *)
Theorem format_recommendations_compact_unknown_priorities (recommendations : list record) :
  recommendations <> [] ->
  List.Forall (fun rec => py_in (dict_get rec (lit "priority") (lit "Medium")) priority_order
                          = false) recommendations ->
  format_recommendations_compact recommendations = [].
Proof.
  intros Hne Hall.
  assert (Hg : forall priority, priority ∈ priority_order ->
                 List.filter (in_group priority) recommendations = []).
  { intros priority Hp. clear Hne. induction Hall as [|x l Hx _ IH]; [reflexivity|].
    simpl. rewrite IH. unfold in_group. rewrite bool_decide_false; [reflexivity|].
    intros E. rewrite E in Hx. apply not_true_iff_false in Hx. apply Hx.
    apply py_in_elem. exact Hp. }
  destruct recommendations as [|r rs]; [congruence|].
  rewrite format_recommendations_compact_sections.
  apply concat_map_nil. intros priority Hp. cbv zeta. rewrite (Hg priority Hp). reflexivity.
Qed.

Lemma format_recommendations_compact_unknown_priorities_witness :
  [<[lit "priority" := lit "Urgent"]> (∅ : record)] <> []
  /\ List.Forall (fun rec => py_in (dict_get rec (lit "priority") (lit "Medium")) priority_order
                             = false) [<[lit "priority" := lit "Urgent"]> (∅ : record)]
  /\ format_recommendations_compact [<[lit "priority" := lit "Urgent"]> (∅ : record)] = [].
Proof.
  assert (H1 : [<[lit "priority" := lit "Urgent"]> (∅ : record)] <> []) by discriminate.
  assert (H2 : List.Forall (fun rec => py_in (dict_get rec (lit "priority") (lit "Medium"))
                                         priority_order = false)
                 [<[lit "priority" := lit "Urgent"]> (∅ : record)])
    by (constructor; [vm_compute; reflexivity|constructor]).
  split; [exact H1|]. split; [exact H2|].
  exact (format_recommendations_compact_unknown_priorities _ H1 H2).
Defined.

(** Extra: the priority groups that [format_recommendations_compact] builds
    from the recommendations of [generate_recommendations] (as the dicts it
    returns) lose none of them: read in the order Critical, High, Medium,
    Low, they hold every recommendation exactly once. *)
Theorem generate_recommendations_groups_complete (d : record) :
  let recommendations := map rec_to_dict (generate_recommendations d) in
  Permutation
    (concat (map (fun priority =>
       match group_recommendations recommendations !! priority with
       | Some recs => recs
       | None => []
       end) priority_order))
    recommendations.
Proof.
  cbv zeta.
  destruct (recommendation_invariants_spec _ (generate_recommendations_invariants_hold d))
    as (_ & _ & Hp & _).
  rewrite (map_ext_in _ (fun k => List.filter (in_group k)
                           (map rec_to_dict (generate_recommendations d)))).
  - rewrite concat_groups_perm by (vm_compute; repeat constructor; set_solver).
    rewrite filter_all_true; [reflexivity|].
    apply List.Forall_map. eapply List.Forall_impl; [|exact Hp].
    intros x [Hx _]. exact Hx.
  - intros k Hk. apply list_elem_of_In in Hk.
    rewrite group_recommendations_lookup by exact Hk. reflexivity.
Qed.

(** ** Placeholders of the database queries *)

Section Placeholders.

Lemma replace_go_one_char (c : N) (new s : pystr) :
  replace_go [c] new 0 s = flat_map (fun x => if (c =? x)%N then new else [x]) s.
Proof.
  induction s as [|x s IH]; simpl; [reflexivity|].
  rewrite andb_true_r. destruct (c =? x)%N; simpl; rewrite IH; reflexivity.
Qed.

Lemma to_pg_cons (x : N) (t : pystr) :
  to_pg (x :: t) = (if (63 =? x)%N then lit "%s" else [x]) ++ to_pg t.
Proof. reflexivity. Qed.

Lemma replace_go_cons0 (old new : pystr) (c : N) (r : pystr) :
  replace_go old new 0 (c :: r)
  = if prefixb old (c :: r) then new ++ replace_go old new (length old - 1) r
    else c :: replace_go old new 0 r.
Proof. reflexivity. Qed.

Lemma prefixb_pct_s (x : N) (r : pystr) :
  prefixb (lit "%s") (x :: r) = (37 =? x)%N && prefixb [115%N] r.
Proof. reflexivity. Qed.

Lemma to_pg_head_s (t : pystr) :
  prefixb [115%N] (to_pg t) = prefixb [115%N] t.
Proof.
  destruct t as [|x t]; [reflexivity|]. rewrite to_pg_cons.
  destruct (63 =? x)%N eqn:E; [|reflexivity].
  apply N.eqb_eq in E. subst. reflexivity.
Qed.

Lemma to_pg_back (q : pystr) :
  py_contains (lit "%s") q = false ->
  replace_go (lit "%s") (lit "?") 0 (to_pg q) = q.
Proof.
  induction q as [|x t IH]; intros H; [reflexivity|].
  cbn [py_contains] in H. apply orb_false_iff in H as [Hp Ht].
  specialize (IH Ht). rewrite to_pg_cons.
  destruct (63 =? x)%N eqn:E.
  - apply N.eqb_eq in E. subst. change (lit "%s" ++ to_pg t) with (37%N :: 115%N :: to_pg t).
    rewrite replace_go_cons0, prefixb_pct_s. cbn [prefixb andb N.eqb Pos.eqb].
    change (length (lit "%s") - 1)%nat with 1%nat. cbn [replace_go].
    rewrite IH. reflexivity.
  - cbn [app]. rewrite replace_go_cons0, prefixb_pct_s, IH.
    rewrite prefixb_pct_s in Hp. rewrite to_pg_head_s.
    destruct (37 =? x)%N; cbn [andb] in Hp |- *; [rewrite Hp|]; reflexivity.
Qed.

End Placeholders.

Lemma adapt_placeholder_to_pg (query : pystr) :
  adapt_placeholder (lit "postgresql") query = to_pg query.
Proof.
  unfold adapt_placeholder. rewrite bool_decide_true by reflexivity.
  apply replace_go_one_char.
Qed.

(** Extra: for a query without [%s], the PostgreSQL form of
    [adapt_placeholder] is undone by replacing [%s] with [?]: the query
    comes back unchanged. *)
Theorem adapt_placeholder_postgresql_round_trip (query : pystr) :
  py_contains (lit "%s") query = false ->
  py_replace (adapt_placeholder (lit "postgresql") query) (lit "%s") (lit "?") = query.
Proof.
  intros H. rewrite adapt_placeholder_to_pg. apply to_pg_back. exact H.
Qed.

Lemma adapt_placeholder_postgresql_round_trip_witness :
  py_contains (lit "%s") (lit "SELECT * FROM claims WHERE id = ? AND rate = '5%'") = false
  /\ py_replace (adapt_placeholder (lit "postgresql")
                   (lit "SELECT * FROM claims WHERE id = ? AND rate = '5%'"))
       (lit "%s") (lit "?")
     = lit "SELECT * FROM claims WHERE id = ? AND rate = '5%'".
Proof.
  assert (H : py_contains (lit "%s") (lit "SELECT * FROM claims WHERE id = ? AND rate = '5%'")
              = false) by (vm_compute; reflexivity).
  split; [exact H|]. exact (adapt_placeholder_postgresql_round_trip _ H).
Defined.

(** ** The prompt of [prompts.py] *)

(** Extra: [build_prompt] is injective: two claims with the same prompt are
    the same claim, so the model always sees the claim text unchanged. *)
Theorem build_prompt_injective (claim1 claim2 : pystr) :
  build_prompt claim1 = build_prompt claim2 -> claim1 = claim2.
Proof.
  unfold build_prompt. intros H.
  repeat (apply app_inv_head in H).
  apply app_inv_tail in H. exact H.
Qed.

Lemma build_prompt_injective_witness :
  build_prompt (lit "Fire in warehouse") = build_prompt (lit "Fire in warehouse")
  /\ lit "Fire in warehouse" = lit "Fire in warehouse".
Proof.
  split; [reflexivity|]. apply build_prompt_injective. reflexivity.
Defined.

(** Extra: [generate_recommendations] returns a recommendation of priority
    Critical exactly when the lower-cased severity is high or critical, the
    parsed loss exceeds 50000, or the lower-cased loss type contains theft. *)
Theorem generate_recommendations_critical (d : record) :
  let severity := py_lower (dict_get d (lit "severity") (lit "Unknown")) in
  let loss_type := py_lower (dict_get d (lit "loss_type") (lit "Unknown")) in
  let estimated_loss := parse_estimated_loss (dict_get d (lit "estimated_loss") (lit "0")) in
  existsb (fun r => bool_decide (priority r = lit "Critical")) (generate_recommendations d)
  = py_in severity [lit "high"; lit "critical"] || Qltb 50000 estimated_loss
    || py_contains (lit "theft") loss_type.
Proof.
  cbv zeta. unfold generate_recommendations. cbv zeta.
  generalize (parse_estimated_loss (dict_get d (lit "estimated_loss") (lit "0"))) as q. intros q.
  generalize ((if py_in (py_lower (dict_get d (lit "incident_date") (lit "Not specified")))
                   [lit "not specified"; lit "unknown"]
               then [lit "incident date"] else [])
              ++ (if py_in (py_lower (dict_get d (lit "location") (lit "Not specified")))
                      [lit "not specified"; lit "unknown"]
                  then [lit "location"] else [])
              ++ (if Qeq_bool q 0 then [lit "cost estimate"] else [])) as m.
  intros m.
  generalize (py_lower (dict_get d (lit "severity") (lit "Unknown"))) as sev. intros sev.
  destruct (decide (sev = lit "low")) as [->|Hl].
  - change (bool_decide (lit "low" = lit "low")) with true.
    change (bool_decide (lit "low" = lit "medium")) with false.
    change (py_in (lit "low") [lit "high"; lit "critical"]) with false.
    destruct m as [|x m];
    case_conditions; vm_compute; reflexivity.
  - rewrite (bool_decide_false _ Hl), !andb_false_l. cbv beta iota.
    destruct (decide (sev = lit "medium")) as [->|Hm].
    + change (bool_decide (lit "medium" = lit "medium")) with true.
      change (py_in (lit "medium") [lit "high"; lit "critical"]) with false.
      destruct m as [|x m];
      case_conditions; vm_compute; reflexivity.
    + rewrite (bool_decide_false _ Hm). cbv beta iota.
      destruct m as [|x m]; case_conditions; vm_compute; reflexivity.
Qed.
